(** * Matching engine: scoring, ranking and strategy fallback

    A shallow embedding of the matching services of the backend
    ([app/services/embedding_service.py], [advanced_matching_service.py],
    [ml_matching_service.py], [matching_service.py]), of the endpoint
    [get_matches_for_intent] of [app/api/endpoints/intents.py] with its
    strategy chain and its response model, and of the quality filter of
    [notification_service.py], followed by the properties proved about
    them.

    Modelling conventions.
    - A Python [float] is an exact rational ([Q]); rounding of binary
      floating point is not modelled.  Comparisons of scores use [==].
      Two branches of the advanced strategy compare floats that are both
      computed, and there the rounding can decide: the band test of the
      price tolerance and the acceptance threshold.  These use
      [float_le], which follows the exact values when they differ and
      leaves the outcome at an exact tie to the record [externals].
    - A Python [str] is the [string] of its UTF-8 bytes.  Case folding
      touches ASCII letters only, digits are the ASCII digits, and white
      space is ASCII white space.
    - A raised exception is the [Raise] constructor of [pyresult]; code
      that cannot raise is a plain function.
    - Functions of the numeric and ML libraries whose value is not a
      rational function of the inputs (square root, great-circle distance,
      TF-IDF, the clock) are fields of the record [externals], together
      with the outcome of [get_supabase()] and of [import numpy]; every
      statement is universally quantified over it. *)

From Stdlib Require Import QArith Qround Qabs Lqa ZArith Lia.
From Stdlib Require Import String Ascii List Bool DecimalString Sorted.
From stdpp Require Import base option gmap strings.
Import ListNotations.

Open Scope string_scope.
Open Scope list_scope.
Open Scope Q_scope.

(** ** Exceptions *)

Inductive exn : Type :=
| IndexError | AttributeError | TypeError | ValueError | ImportError
| APIError                          (* raised by the store client *)
| ValidationError                   (* raised by a pydantic model *)
| HTTPException (status_code : nat).  (* raised by an endpoint *)

Inductive pyresult (A : Type) : Type :=
| Ok (a : A)
| Raise (e : exn).
Arguments Ok {A} a.
Arguments Raise {A} e.

#[global] Instance pyresult_ret : MRet pyresult := fun _ a => Ok a.
#[global] Instance pyresult_bind : MBind pyresult :=
  fun _ _ f m => match m with Ok a => f a | Raise e => Raise e end.
#[global] Instance pyresult_fmap : FMap pyresult :=
  fun _ _ f m => match m with Ok a => Ok (f a) | Raise e => Raise e end.

(** [try: body  except Exception: handler] *)
Definition try_except {A} (body : pyresult A) (handler : exn -> pyresult A)
  : pyresult A :=
  match body with Ok a => Ok a | Raise e => handler e end.

(** [try: body  except ImportError: handler]; other exceptions propagate. *)
Definition try_except_ImportError {A} (body : pyresult A)
  (handler : pyresult A) : pyresult A :=
  match body with
  | Raise ImportError => handler
  | other => other
  end.

(** ** Strings *)

Module Str.

Definition is_upper (c : ascii) : bool :=
  let n := nat_of_ascii c in (65 <=? n)%nat && (n <=? 90)%nat.

Definition is_digit (c : ascii) : bool :=
  let n := nat_of_ascii c in (48 <=? n)%nat && (n <=? 57)%nat.

(** ASCII white space as recognised by [str.split()] and [str.strip()]:
    tab, line feed, vertical tab, form feed, carriage return, the four
    separators 0x1c-0x1f, and space. *)
Definition is_space (c : ascii) : bool :=
  let n := nat_of_ascii c in
  ((9 <=? n)%nat && (n <=? 13)%nat) || ((28 <=? n)%nat && (n <=? 32)%nat).

Definition lower_char (c : ascii) : ascii :=
  if is_upper c then ascii_of_nat (nat_of_ascii c + 32) else c.

(** [s.lower()] *)
Fixpoint lower (s : string) : string :=
  match s with
  | EmptyString => EmptyString
  | String c r => String (lower_char c) (lower r)
  end.

(** [s.startswith(p)] *)
Fixpoint startswith (p s : string) : bool :=
  match p, s with
  | EmptyString, _ => true
  | String a p', String b s' => Ascii.eqb a b && startswith p' s'
  | String _ _, EmptyString => false
  end.

(** [needle in hay] *)
Fixpoint contains (needle hay : string) : bool :=
  startswith needle hay ||
  match hay with
  | EmptyString => false
  | String _ r => contains needle r
  end.

(** [len(s)]: the number of code points, i.e. of bytes that are not UTF-8
    continuation bytes. *)
Definition is_continuation (c : ascii) : bool :=
  let n := nat_of_ascii c in (128 <=? n)%nat && (n <=? 191)%nat.

Fixpoint len (s : string) : nat :=
  match s with
  | EmptyString => 0
  | String c r => if is_continuation c then len r else S (len r)
  end.

(** [s.count(c)] for a one-character [c]. *)
Fixpoint count (c : ascii) (s : string) : nat :=
  match s with
  | EmptyString => 0
  | String d r => if Ascii.eqb c d then S (count c r) else count c r
  end.

(** [s.split()]: the maximal runs of non-space characters; [cur] is the
    word read so far. *)
Fixpoint split_go (cur : string) (s : string) : list string :=
  match s with
  | EmptyString => if String.eqb cur "" then [] else [cur]
  | String c r =>
      if is_space c
      then (if String.eqb cur "" then split_go "" r else cur :: split_go "" r)
      else split_go (cur +:+ String c "") r
  end.

Definition split (s : string) : list string := split_go "" s.

(** [s.split(sep)] for a one-character separator: always at least one
    piece. *)
Fixpoint split_on_go (sep : ascii) (cur : string) (s : string) : list string :=
  match s with
  | EmptyString => [cur]
  | String c r =>
      if Ascii.eqb c sep then cur :: split_on_go sep "" r
      else split_on_go sep (cur +:+ String c "") r
  end.

Definition split_on (sep : ascii) (s : string) : list string :=
  split_on_go sep "" s.

Fixpoint lstrip (s : string) : string :=
  match s with
  | String c r => if is_space c then lstrip r else s
  | EmptyString => EmptyString
  end.

Fixpoint rstrip (s : string) : string :=
  match s with
  | EmptyString => EmptyString
  | String c r =>
      match rstrip r with
      | EmptyString => if is_space c then EmptyString else String c EmptyString
      | r' => String c r'
      end
  end.

(** [s.strip()] *)
Definition strip (s : string) : string := rstrip (lstrip s).

(** [bool(s)] *)
Definition nonempty (s : string) : bool := negb (String.eqb s "").

End Str.

(** ** Numbers *)

Definition Qmax (a b : Q) : Q := if Qle_bool a b then b else a.
Definition Qmin (a b : Q) : Q := if Qle_bool a b then a else b.

(** [round(x, 3)]: to the nearest multiple of 1/1000, ties to the even
    one. *)
Definition round_half_even (x : Q) : Z :=
  let n := Qfloor x in
  let frac := x - inject_Z n in
  match Qcompare frac (1 # 2) with
  | Lt => n
  | Gt => (n + 1)%Z
  | Eq => if Z.even n then n else (n + 1)%Z
  end.

Definition round3 (x : Q) : Q := round_half_even (x * 1000) # 1000.
Definition round2 (x : Q) : Q := round_half_even (x * 100) # 100.

(** [sum(l)] and the dot product [sum(a * b for a, b in zip(u, v))]. *)
Definition Qsum (l : list Q) : Q := fold_left Qplus l 0.

Definition dot (u v : list Q) : Q :=
  Qsum (map (fun ab => fst ab * snd ab) (combine u v)).

(** ** Python values of the structured attributes

    The entries of a parsed-data object read by key ([intent],
    [category], [brand], [year], [budget], ...) are JSON values: null,
    text, an integer, or a list or an object.  A list or an object is not
    hashable; all that is read of it is its truth value and its text
    [str(v)], which the value carries. *)

Inductive pyval : Type :=
| VNone
| VStr (s : string)
| VInt (z : Z)
| VUnhashable (truth : bool) (text : string).

(** [bool(v)] *)
Definition truthy (v : pyval) : bool :=
  match v with
  | VNone => false
  | VStr s => Str.nonempty s
  | VInt z => negb (z =? 0)%Z
  | VUnhashable truth _ => truth
  end.

(** [a or b] *)
Definition py_or (a b : pyval) : pyval := if truthy a then a else b.

(** [str(v)] *)
Definition py_str (v : pyval) : string :=
  match v with
  | VNone => "None"
  | VStr s => s
  | VInt z => NilZero.string_of_int (Z.to_int z)
  | VUnhashable _ text => text
  end.

(** [int(s)] on a string: surrounding white space, an optional sign, then
    decimal digits, single underscores allowed between digits. *)
Inductive int_state : Type := IntStart | IntDigit | IntUnderscore.

Fixpoint int_digits (st : int_state) (acc : Z) (s : string) : option Z :=
  match s with
  | EmptyString => match st with IntDigit => Some acc | _ => None end
  | String c r =>
      if Str.is_digit c
      then int_digits IntDigit (10 * acc + Z.of_nat (nat_of_ascii c - 48))%Z r
      else if Ascii.eqb c "_"
           then match st with
                | IntDigit => int_digits IntUnderscore acc r
                | _ => None
                end
           else None
  end.

Definition int_of_string (s : string) : option Z :=
  match Str.strip s with
  | String "-" r => Z.opp <$> int_digits IntStart 0%Z r
  | String "+" r => int_digits IntStart 0%Z r
  | r => int_digits IntStart 0%Z r
  end.

(** [int(v)] *)
Definition py_int (v : pyval) : pyresult Z :=
  match v with
  | VNone => Raise TypeError
  | VInt z => Ok z
  | VStr s => match int_of_string s with Some z => Ok z | None => Raise ValueError end
  | VUnhashable _ _ => Raise TypeError
  end.

(** [bool(x)] of an optional string: false for [None] and for [''] *)
Definition option_truthy (o : option string) : bool :=
  match o with Some s => Str.nonempty s | None => false end.

(** [d.get(k)] on a dictionary: [None] for a missing key. *)
Definition dict_get (d : gmap string pyval) (k : string) : pyval :=
  default VNone (d !! k).

(** ** Data model *)

(** The parsed-data object of an intent (a JSON object).  Its scalar
    entries are kept by key in [attrs]; each list-valued entry is a field,
    [None] when the key is missing. *)
Record parsed : Type := {
  attrs : gmap string pyval;
  pd_embedding : option (list Q);        (* 'embedding' *)
  keywords : option (list string);       (* 'keywords' *)
  locations : option (list string);      (* 'locations' *)
  prices : option (list string);         (* 'prices' *)
  user_features : option (list Q);       (* 'user_features' *)
  business_features : option (list Q)    (* 'business_features' *)
}.

(** The empty object [{}]. *)
Definition empty_parsed : parsed :=
  {| attrs := ∅; pd_embedding := None; keywords := None; locations := None;
     prices := None; user_features := None; business_features := None |}.

(** A row of the [intents] table as the store returns it for
    [select('*, users(...)')].  The columns declared [NOT NULL]
    ([intent_id], [post_type], [category], [raw_query]) and [created_at]
    always carry a value; the other columns are [None] when null. *)
Record intent : Type := {
  intent_id : string;
  user_id : option string;
  post_type : string;
  category : string;
  raw_query : string;
  parsed_data : option parsed;
  embedding : option (list Q);
  location : option string;          (* POINT geometry text *)
  location_name : option string;
  created_at : string;
  users : option string              (* name of the joined users row *)
}.

(** ** The candidate store *)

(** A filter of a query built on [supabase.table('intents')]. *)
Inductive filter : Type :=
| FEq (column : string) (value : string)    (* .eq(column, value) *)
| FActive                                   (* .eq('is_active', True) *)
| FOr (condition : string).                 (* .or_(condition) *)

(** The client: [query.execute()] returns [response.data], a list of rows,
    or raises; [query.single().execute()] returns one row or nothing, or
    raises. *)
Record Client : Type := {
  execute : list filter -> pyresult (list intent);
  execute_single : list filter -> pyresult (option intent)
}.

(** ** Library functions taken as parameters *)

Record externals : Type := {
  (** [import numpy] succeeds *)
  numpy_available : bool;
  (** the square root of [numpy.linalg.norm], [x ** 0.5] and [numpy.std] *)
  sqrt : Q -> Q;
  (** the built-in [float(s)], [None] for [ValueError] *)
  py_float : string -> option Q;
  (** the great-circle distance in km of [(lng1, lat1)] and [(lng2, lat2)],
      computed with [math.sin], [math.cos], [math.sqrt] and [math.atan2];
      [None] when one of them raises *)
  haversine : Q -> Q -> Q -> Q -> option Q;
  (** [_compute_text_similarities(texts)[0, 1:]]: the similarities of the
      first text to the others, from scikit-learn's TF-IDF vectorizer or,
      when that fails, from the word-overlap fallback *)
  text_similarity_row : list string -> list Q;
  (** the price part of the intent compatibility (built on [float] and
      [numpy.mean]) *)
  price_compatibility : list string -> list string -> Q;
  (** [_compute_temporal_compatibility], which reads the clock: its
      arguments are the creation time and the text of the query, then
      those of each candidate *)
  temporal_compatibility :
    string -> string -> list (string * string) -> list Q;
  (** [get_supabase()]: the cached module-global client, created on first
      use *)
  get_supabase : pyresult Client;
  (** the outcome of a comparison [a <= b] of two computed floats whose
      exact values are equal: there the rounding of the two computations
      decides *)
  le_at_tie : Q -> Q -> bool
}.

(** [a <= b] on computed floats: as on the exact values when these differ,
    left to the rounding when they are equal. *)
Definition float_le (ext : externals) (a b : Q) : bool :=
  match Qcompare a b with
  | Lt => true
  | Gt => false
  | Eq => le_at_tie ext a b
  end.

(** ** Embedding similarity (embedding_service.py) *)

Module EmbeddingService.

(** [numpy.dot] of two one-dimensional arrays *)
Definition np_dot (u v : list Q) : pyresult Q :=
  if (length u =? length v)%nat then Ok (dot u v) else Raise ValueError.

(** [numpy.linalg.norm(v)] and [sum(a * a for a in v) ** 0.5] *)
Definition norm (ext : externals) (v : list Q) : Q := sqrt ext (dot v v).

Definition compute_similarity (ext : externals)
  (embedding1 embedding2 : list Q) : pyresult Q :=
  try_except_ImportError
    (if numpy_available ext then
       dot_product ← np_dot embedding1 embedding2;
       let norm1 := norm ext embedding1 in
       let norm2 := norm ext embedding2 in
       if Qeq_bool norm1 0 || Qeq_bool norm2 0 then Ok 0
       else Ok (dot_product / (norm1 * norm2))
     else Raise ImportError)
    (if negb (length embedding1 =? length embedding2)%nat then Ok 0
     else
       let dot_product := dot embedding1 embedding2 in
       let norm1 := norm ext embedding1 in
       let norm2 := norm ext embedding2 in
       if Qeq_bool norm1 0 || Qeq_bool norm2 0 then Ok 0
       else Ok (dot_product / (norm1 * norm2))).

End EmbeddingService.

(** ** Sorting and slicing *)

(** [l.sort(key=..., reverse=True)]: stable, largest key first; elements
    with equal keys keep their order. *)
Fixpoint insert_desc {A} (key : A -> Q) (x : A) (l : list A) : list A :=
  match l with
  | [] => [x]
  | y :: r =>
      if Qle_bool (key y) (key x) then x :: y :: r
      else y :: insert_desc key x r
  end.

Definition sort_desc {A} (key : A -> Q) (l : list A) : list A :=
  fold_right (insert_desc key) [] l.

(** ** The advanced strategy (advanced_matching_service.py) *)

Module AdvancedMatchingService.

Definition INTENT_INVERSIONS : list (string * string) :=
  [("buy", "sell"); ("sell", "buy"); ("rent", "rent_out");
   ("rent_out", "rent"); ("looking", "offering"); ("offering", "looking");
   ("need", "provide"); ("provide", "need"); ("want", "have");
   ("have", "want")].

Definition SCORING_WEIGHTS : list (string * Q) :=
  [("semantic_similarity", 0.4); ("location_proximity", 0.2);
   ("parameter_overlap", 0.3); ("price_tolerance", 0.1)].

(** The [scores] dictionary of one candidate: always these four keys. *)
Record scores : Type := {
  semantic_similarity : Q;
  location_proximity : Q;
  parameter_overlap : Q;
  price_tolerance : Q
}.

(** [scores.get(component, 0.0)] *)
Definition scores_get (s : scores) (component : string) : Q :=
  if String.eqb component "semantic_similarity" then semantic_similarity s
  else if String.eqb component "location_proximity" then location_proximity s
  else if String.eqb component "parameter_overlap" then parameter_overlap s
  else if String.eqb component "price_tolerance" then price_tolerance s
  else 0.

(** One entry of the returned list. *)
Record match_result : Type := {
  r_intent_id : string;
  r_user_id : option string;
  r_user_name : string;
  r_location_name : option string;
  r_raw_query : string;
  r_category : string;
  r_post_type : string;
  r_scores : scores;                 (* each rounded to 3 places *)
  composite_score : Q;               (* rounded to 3 places *)
  r_created_at : string;
  r_parsed_data : option parsed
}.

Definition _extract_intent_from_query (query : string) : string :=
  let query_lower := Str.lower query in
  let intent_keywords :=
    [("buy", ["buy"; "buying"; "purchase"; "looking for"; "want to buy"; "need"]);
     ("sell", ["sell"; "selling"; "sale"; "for sale"; "offering"]);
     ("rent", ["rent"; "renting"; "lease"; "for rent"]);
     ("rent_out", ["rent out"; "renting out"; "available for rent"]);
     ("looking", ["looking"; "searching"; "seeking"; "find"]);
     ("offering", ["offering"; "providing"; "available"])] in
  let hit (entry : string * list string) :=
    existsb (fun keyword => Str.contains keyword query_lower) (snd entry) in
  match find hit intent_keywords with
  | Some entry => fst entry
  | None => "looking"
  end.

(** [bool(d)] of a parsed-data object: false for [{}]. *)
Definition parsed_truthy (p : parsed) : bool :=
  negb (bool_decide (attrs p = ∅))
  || bool_decide (is_Some (pd_embedding p)) || bool_decide (is_Some (keywords p))
  || bool_decide (is_Some (locations p)) || bool_decide (is_Some (prices p))
  || bool_decide (is_Some (user_features p))
  || bool_decide (is_Some (business_features p)).

Definition of_option_string (o : option string) : pyval :=
  match o with Some s => VStr s | None => VNone end.

(** The parameter dictionary of an intent.  Its [specs] entry, a list no
    scorer reads, is left out. *)
Definition _extract_parameters (intent_data : intent) : gmap string pyval :=
  let params : gmap string pyval :=
    match parsed_data intent_data with
    | Some parsed_ =>
        if parsed_truthy parsed_ then
          list_to_map
            (map (fun k => (k, dict_get (attrs parsed_) k))
               ["intent"; "category"; "sub_category"; "brand"; "model";
                "year"; "fuel_type"; "price"; "budget"; "location"])
        else ∅
    | None => ∅
    end in
  <["location" :=
      py_or (dict_get params "location")
        (of_option_string (location_name intent_data))]>
  (<["category" :=
      py_or (dict_get params "category") (VStr (category intent_data))]>
  (<["intent" :=
      py_or (dict_get params "intent")
        (VStr (_extract_intent_from_query (raw_query intent_data)))]>
   params)).

(** [_extract_city] *)
Definition _extract_city (location_name_ : string) : string :=
  let parts := Str.split_on "," location_name_ in
  if (2 <=? length parts)%nat then Str.strip (List.last parts "")
  else Str.strip location_name_.

(** The first group of [re.findall(r'POINT\(([^)]+)\)', s)]: the text
    between the first ["POINT("] that is followed by at least one character
    other than [")"] and then by [")"]. *)
Fixpoint span_to_paren (s : string) : option string :=
  match s with
  | EmptyString => None
  | String c r =>
      if Ascii.eqb c ")" then Some EmptyString
      else String c <$> span_to_paren r
  end.

Fixpoint find_point (s : string) : option string :=
  match s with
  | EmptyString => None
  | String _ r =>
      if Str.startswith "POINT(" s then
        match span_to_paren (String.substring 6 (String.length s - 6) s) with
        | Some (String c g) => Some (String c g)
        | _ => find_point r
        end
      else find_point r
  end.

(** [_calculate_distance]: 50 km whenever the geometry text cannot be
    read. *)
Definition _calculate_distance (ext : externals) (location1 location2 : string)
  : Q :=
  match find_point location1, find_point location2 with
  | Some coords1, Some coords2 =>
      match Str.split coords1, Str.split coords2 with
      | [a1; b1], [a2; b2] =>
          match py_float ext a1, py_float ext b1,
                py_float ext a2, py_float ext b2 with
          | Some lng1, Some lat1, Some lng2, Some lat2 =>
              default 50 (haversine ext lng1 lat1 lng2 lat2)
          | _, _, _, _ => 50
          end
      | _, _ => 50
      end
  | _, _ => 50
  end.

Definition _calculate_location_score (ext : externals)
  (user_location_name match_location_name user_coords match_coords
     : option string) : Q :=
  if option_truthy user_coords && option_truthy match_coords then
    let distance :=
      _calculate_distance ext (default "" user_coords)
        (default "" match_coords) in
    if Qle_bool distance 10 then 1.0
    else if Qle_bool distance 20 then 0.8
    else if Qle_bool distance 50 then 0.5
    else 0.2
  else if negb (option_truthy user_location_name)
          || negb (option_truthy match_location_name) then 0.5
  else
    let user_loc_lower := Str.lower (default "" user_location_name) in
    let match_loc_lower := Str.lower (default "" match_location_name) in
    if String.eqb user_loc_lower match_loc_lower then 1.0
    else if Str.contains user_loc_lower match_loc_lower
            || Str.contains match_loc_lower user_loc_lower then 0.8
    else
      let user_city := _extract_city (default "" user_location_name) in
      let match_city := _extract_city (default "" match_location_name) in
      if Str.nonempty user_city && Str.nonempty match_city
         && String.eqb (Str.lower user_city) (Str.lower match_city)
      then 0.6
      else 0.2.

Definition param_weights : list (string * Q) :=
  [("category", 0.3); ("sub_category", 0.2); ("brand", 0.2);
   ("model", 0.15); ("year", 0.1); ("fuel_type", 0.05)].

(** One turn of the loop of [_calculate_parameter_overlap]; the state is
    [(overlap_score, total_weight)]. *)
Definition overlap_step (user_params match_params : gmap string pyval)
  (acc : Q * Q) (entry : string * Q) : Q * Q :=
  let '(overlap_score, total_weight) := acc in
  let '(param, weight) := entry in
  let user_val := dict_get user_params param in
  let match_val := dict_get match_params param in
  if truthy user_val && truthy match_val then
    let total_weight := total_weight + weight in
    let u := Str.lower (py_str user_val) in
    let m := Str.lower (py_str match_val) in
    if String.eqb u m then (overlap_score + weight, total_weight)
    else if String.eqb param "year" then
      match py_int user_val, py_int match_val with
      | Ok a, Ok b =>
          if (Z.abs (a - b) <=? 1)%Z
          then (overlap_score + weight * 0.8, total_weight)
          else (overlap_score, total_weight)
      | _, _ => (overlap_score, total_weight)
      end
    else if Str.contains u m || Str.contains m u
         then (overlap_score + weight * 0.6, total_weight)
    else (overlap_score, total_weight)
  else acc.

Definition _calculate_parameter_overlap
  (user_params match_params : gmap string pyval) : Q :=
  let '(overlap_score, total_weight) :=
    fold_left (overlap_step user_params match_params) param_weights (0, 0) in
  if negb (Qle_bool total_weight 0) then overlap_score / total_weight
  else 0.5.

(** *** Price parsing *)

(** Case-insensitive match of the lower-case word [w] at the start of
    [s]. *)
Fixpoint startswith_ci (w s : string) : bool :=
  match w, s with
  | EmptyString, _ => true
  | String a w', String b s' =>
      Ascii.eqb a (Str.lower_char b) && startswith_ci w' s'
  | String _ _, EmptyString => false
  end.

(** The number of bytes the pattern [[₹$£€,]|lakh|lac|k|thousand] matches
    at the start of [s] under [re.IGNORECASE], alternatives tried in
    order. *)
Definition unit_match (s : string) : option nat :=
  if Str.startswith "₹" s then Some (String.length "₹")
  else if Str.startswith "$" s then Some 1%nat
  else if Str.startswith "£" s then Some (String.length "£")
  else if Str.startswith "€" s then Some (String.length "€")
  else if Str.startswith "," s then Some 1%nat
  else if startswith_ci "lakh" s then Some 4%nat
  else if startswith_ci "lac" s then Some 3%nat
  else if startswith_ci "k" s then Some 1%nat
  else if startswith_ci "thousand" s then Some 8%nat
  else None.

(** [re.sub(pattern, '', s)]: matches are removed from left to right;
    [skip] counts the bytes of the current match still to be dropped. *)
Fixpoint sub_units (skip : nat) (s : string) : string :=
  match s with
  | EmptyString => EmptyString
  | String c r =>
      match skip with
      | S k => sub_units k r
      | O =>
          match unit_match s with
          | Some (S k) => sub_units k r
          | _ => String c (sub_units 0 r)
          end
      end
  end.

Fixpoint take_digits (s : string) : string * string :=
  match s with
  | String c r =>
      if Str.is_digit c
      then let '(d, rest) := take_digits r in (String c d, rest)
      else (EmptyString, s)
  | EmptyString => (EmptyString, EmptyString)
  end.

(** [re.findall(r'\d+\.?\d*', s)[0]] as (integer digits, fraction digits),
    [None] when the list is empty. *)
Fixpoint first_number (s : string) : option (string * string) :=
  match s with
  | EmptyString => None
  | String c r =>
      if Str.is_digit c then
        let '(whole, rest) := take_digits s in
        match rest with
        | String "." rest' => Some (whole, fst (take_digits rest'))
        | _ => Some (whole, EmptyString)
        end
      else first_number r
  end.

Fixpoint digits_value (acc : Z) (s : string) : Z :=
  match s with
  | EmptyString => acc
  | String c r => digits_value (10 * acc + Z.of_nat (nat_of_ascii c - 48))%Z r
  end.

(** [float(token)] for a token [whole], [whole.] or [whole.fraction]. *)
Definition float_of_number (token : string * string) : Q :=
  let '(whole, fraction) := token in
  inject_Z (digits_value 0 whole)
  + inject_Z (digits_value 0 fraction)
    / inject_Z (10 ^ Z.of_nat (String.length fraction)).

Definition _extract_price_value (price_str : string) : option Q :=
  let price_str := sub_units 0 price_str in
  match first_number price_str with
  | Some number =>
      let value := float_of_number number in
      let lowered := Str.lower price_str in
      if Str.contains "lakh" lowered || Str.contains "lac" lowered
      then Some (value * 100000)
      else if Str.contains "k" lowered || Str.contains "thousand" lowered
      then Some (value * 1000)
      else Some value
  | None => None
  end.

(** [bool(x)] of an [Optional[float]] *)
Definition price_truthy (o : option Q) : bool :=
  match o with Some q => negb (Qeq_bool q 0) | None => false end.

Definition _calculate_price_tolerance (ext : externals)
  (user_params match_params : gmap string pyval) : Q :=
  let user_price :=
    py_or (dict_get user_params "price") (dict_get user_params "budget") in
  let match_price :=
    py_or (dict_get match_params "price") (dict_get match_params "budget") in
  if negb (truthy user_price) || negb (truthy match_price) then 0.5
  else
    match _extract_price_value (py_str user_price),
          _extract_price_value (py_str match_price) with
    | Some user_price_val, Some match_price_val =>
        if price_truthy (Some user_price_val)
           && price_truthy (Some match_price_val) then
          let price_diff := Qabs (user_price_val - match_price_val) in
          let tolerance := user_price_val * 0.1 in
          if float_le ext price_diff tolerance
          then 1.0 - price_diff / tolerance
          else Qmax 0.0 (1.0 - price_diff / (user_price_val * 0.5))
        else 0.5
    | _, _ => 0.5
    end.

Definition _calculate_composite_score (s : scores) : Q :=
  fold_left
    (fun composite '(component, weight) =>
       composite + scores_get s component * weight)
    SCORING_WEIGHTS 0.0.

Definition _format_match_result (match_ : intent) (s : scores)
  (composite : Q) : match_result :=
  {| r_intent_id := intent_id match_;
     r_user_id := user_id match_;
     r_user_name := default "Unknown" (users match_);
     r_location_name := location_name match_;
     r_raw_query := raw_query match_;
     r_category := category match_;
     r_post_type := post_type match_;
     r_scores :=
       {| semantic_similarity := round3 (semantic_similarity s);
          location_proximity := round3 (location_proximity s);
          parameter_overlap := round3 (parameter_overlap s);
          price_tolerance := round3 (price_tolerance s) |};
     composite_score := round3 composite;
     r_created_at := created_at match_;
     r_parsed_data := parsed_data match_ |}.

(** [bool(l)] of an optional list *)
Definition list_truthy {A} (o : option (list A)) : bool :=
  match o with Some (_ :: _) => true | _ => false end.

Definition _calculate_match_scores (ext : externals)
  (user_intent match_ : intent) (user_params : gmap string pyval)
  : pyresult scores :=
  let user_embedding := embedding user_intent in
  let match_embedding :=
    if list_truthy (embedding match_) then embedding match_
    else match parsed_data match_ with
         | Some p => if parsed_truthy p then pd_embedding p
                     else embedding match_
         | None => embedding match_
         end in
  semantic ←
    (if list_truthy user_embedding && list_truthy match_embedding then
       EmbeddingService.compute_similarity ext
         (default [] user_embedding) (default [] match_embedding)
     else Ok 0.0);
  let location_ :=
    _calculate_location_score ext (location_name user_intent)
      (location_name match_) (location user_intent) (location match_) in
  let match_params := _extract_parameters match_ in
  Ok {| semantic_similarity := semantic;
        location_proximity := location_;
        parameter_overlap :=
          _calculate_parameter_overlap user_params match_params;
        price_tolerance :=
          _calculate_price_tolerance ext user_params match_params |}.

(** The body of the loop over [response.data]: [None] when the candidate
    is skipped (same owner, below the threshold, or an error while
    scoring), the formatted entry otherwise. *)
Definition score_candidate (ext : externals) (intent_data : intent)
  (parsed_params : gmap string pyval) (match_ : intent)
  : option match_result :=
  match
    (if bool_decide (user_id match_ = user_id intent_data) then Ok None
     else
       s ← _calculate_match_scores ext intent_data match_ parsed_params;
       let composite := _calculate_composite_score s in
       if float_le ext 0.75 composite
       then Ok (Some (_format_match_result match_ s composite))
       else Ok None)
  with
  | Ok r => r
  | Raise _ => None
  end.

(** The value of [INTENT_INVERSIONS.get(user_intent, user_intent)]. *)
Definition invert_intent (user_intent : pyval) : pyval :=
  match user_intent with
  | VStr s =>
      match find (fun entry => String.eqb (fst entry) s) INTENT_INVERSIONS with
      | Some entry => VStr (snd entry)
      | None => user_intent
      end
  | other => other
  end.

(** [INTENT_INVERSIONS.get(user_intent, user_intent)]: the lookup hashes
    its key, and raises [TypeError] on a list or an object. *)
Definition INTENT_INVERSIONS_get (user_intent : pyval) : pyresult pyval :=
  match user_intent with
  | VUnhashable _ _ => Raise TypeError
  | _ => Ok (invert_intent user_intent)
  end.

Definition build_query (parsed_params : gmap string pyval)
  (opposite_intent : pyval) : list filter :=
  [FActive]
  ++ (if truthy (dict_get parsed_params "category")
      then [FEq "category" (py_str (dict_get parsed_params "category"))]
      else [])
  ++ (if truthy opposite_intent
      then [FOr ("raw_query.ilike.%" +:+ py_str opposite_intent
                 +:+ "%,parsed_data->>intent.eq." +:+ py_str opposite_intent)]
      else []).

Definition find_advanced_matches (ext : externals) (intent_data : intent)
  : pyresult (list match_result) :=
  supabase ← get_supabase ext;
  let parsed_params := _extract_parameters intent_data in
  let user_intent := dict_get parsed_params "intent" in
  opposite_intent ← INTENT_INVERSIONS_get user_intent;
  try_except
    (data ← execute supabase (build_query parsed_params opposite_intent);
     match data with
     | [] => Ok []
     | _ =>
         let matches_with_scores :=
           omap (score_candidate ext intent_data parsed_params) data in
         Ok (firstn 7 (sort_desc composite_score matches_with_scores))
     end)
    (fun _ => Ok []).

End AdvancedMatchingService.

(** ** The basic strategy (matching_service.py) *)

Module MatchingService.

(** One entry of the returned list. *)
Record match_result : Type := {
  r_intent_id : string;
  r_user_name : string;
  r_location_name : option string;
  r_raw_query : string;
  r_category : string;
  r_post_type : string;
  similarity : Q;                    (* rounded to 3 places *)
  distance_km : Q;                   (* rounded to 2 places *)
  combined_score : Q;                (* rounded to 3 places *)
  r_created_at : string
}.

(** The location part of the loop body: [(location_score, distance_km)]. *)
Definition location_score_km (user_location_name : option string)
  (match_location_name : option string) : Q * Q :=
  if option_truthy user_location_name && option_truthy match_location_name
  then
    let u := Str.lower (default "" user_location_name) in
    let m := Str.lower (default "" match_location_name) in
    if String.eqb u m then (1.0, 0.0)
    else if Str.contains u m || Str.contains m u then (0.7, 5.0)
    else (0.2, 20.0)
  else (0.5, 0.0).

(** The embedding of an intent: the column, or failing that the entry of
    its parsed data. *)
Definition embedding_with_fallback (i : intent) : option (list Q) :=
  if AdvancedMatchingService.list_truthy (embedding i) then embedding i
  else match parsed_data i with
       | Some p =>
           if AdvancedMatchingService.parsed_truthy p then pd_embedding p
           else embedding i
       | None => embedding i
       end.

(** The body of the loop over [response.data]: the result entry, [None]
    when the candidate is not above the threshold or scoring it raised. *)
Definition score_candidate (ext : externals)
  (user_embedding : option (list Q)) (user_location_name : option string)
  (match_ : intent) : option match_result :=
  match
    (let match_embedding := embedding_with_fallback match_ in
     similarity_ ←
       (if AdvancedMatchingService.list_truthy user_embedding
           && AdvancedMatchingService.list_truthy match_embedding
        then EmbeddingService.compute_similarity ext
               (default [] user_embedding) (default [] match_embedding)
        else Ok 0.5);
     let '(location_score, distance_km_) :=
       location_score_km user_location_name (location_name match_) in
     let combined := similarity_ * 0.7 + location_score * 0.3 in
     if negb (Qle_bool combined 0.3) then
       Ok (Some {| r_intent_id := intent_id match_;
                   r_user_name := default "Unknown" (users match_);
                   r_location_name := location_name match_;
                   r_raw_query := raw_query match_;
                   r_category := category match_;
                   r_post_type := post_type match_;
                   similarity := round3 similarity_;
                   distance_km := round2 distance_km_;
                   combined_score := round3 combined;
                   r_created_at := created_at match_ |})
     else Ok None)
  with
  | Ok r => r
  | Raise _ => None
  end.

Definition opposite_post_type (intent_data : intent) : string :=
  if String.eqb (post_type intent_data) "demand" then "supply" else "demand".

Definition find_matches (ext : externals) (intent_data : intent)
  : pyresult (list match_result) :=
  supabase ← get_supabase ext;
  let opposite_intent := opposite_post_type intent_data in
  try_except
    (data ←
       execute supabase
         [FEq "post_type" opposite_intent;
          FEq "category" (category intent_data); FActive];
     match data with
     | [] => Ok []
     | _ =>
         let user_embedding := embedding_with_fallback intent_data in
         let user_location_name := location_name intent_data in
         let matches_with_scores :=
           omap (score_candidate ext user_embedding user_location_name)
             data in
         Ok (firstn 10 (sort_desc combined_score matches_with_scores))
     end)
    (fun _ => Ok []).

(** [_location_proximity_score] *)
Definition _location_proximity_score (distance_km_ : Q) : Q :=
  if Qle_bool distance_km_ 5 then 1.0
  else if Qle_bool distance_km_ 10 then 0.8
  else if Qle_bool distance_km_ 20 then 0.5
  else if Qle_bool distance_km_ 50 then 0.2
  else 0.0.

End MatchingService.

(** ** The ML-feature strategy (ml_matching_service.py) *)

Module MLMatchingService.

(** One entry of the returned list. *)
Record match_result : Type := {
  r_intent_id : string;
  r_user_name : string;
  r_location_name : option string;
  r_raw_query : string;
  r_category : string;
  r_post_type : string;
  text_similarity : Q;
  feature_similarity : Q;
  location_score : Q;
  intent_compatibility : Q;
  temporal_compatibility_ : Q;
  combined_score : Q;
  confidence_score : Q;
  match_quality : string;
  r_created_at : string
}.

(** What [find_advanced_matches] returns: its own ranking, or the list of
    the basic strategy when it fell back. *)
Inductive outcome : Type :=
| Ranked (l : list match_result)
| Fallback (l : list MatchingService.match_result).

(** [l[i]] on an array *)
Definition index (l : list Q) (i : nat) : pyresult Q :=
  match l !! i with Some x => Ok x | None => Raise IndexError end.

Definition Qnat (n : nat) : Q := inject_Z (Z.of_nat n).

Definition categories : list string :=
  ["product"; "service"; "social"; "travel"; "general"].

Definition _extract_feature_vector (data : intent) : pyresult (list Q) :=
  let text := raw_query data in
  let features :=
    [Qnat (length (Str.split text)); Qnat (Str.len text);
     Qnat (Str.count "?" text); Qnat (Str.count "!" text)] in
  match parsed_data data with
  | None => Raise AttributeError
  | Some parsed_ =>
      let features :=
        features
        ++ [Qnat (length (default [] (keywords parsed_)));
            Qnat (length (default [] (locations parsed_)));
            Qnat (length (default [] (prices parsed_)))] in
      let features :=
        features
        ++ match user_features parsed_, business_features parsed_ with
           | Some user_features_, _ => firstn 5 user_features_
           | None, Some business_features_ => firstn 5 business_features_
           | None, None => repeat 0.5 5
           end in
      let features :=
        features
        ++ map (fun cat => if String.eqb cat (category data) then 1.0 else 0.0)
             categories in
      let features := features ++ repeat 0.0 (20 - length features) in
      Ok (firstn 20 features)
  end.

(** scikit-learn's [cosine_similarity([x], [y])[0][0]]: the dot product of
    the two vectors, each divided by its norm (a zero norm counts as 1). *)
Definition cosine_similarity (ext : externals) (x y : list Q) : Q :=
  let scale v :=
    let n := EmbeddingService.norm ext v in
    if Qeq_bool n 0 then 1 else n in
  dot (map (fun a => a / scale x) x) (map (fun b => b / scale y) y).

Definition _compute_feature_similarities (ext : externals)
  (intent_data : intent) (matches : list intent) : list Q :=
  match
    (user_features_ ← _extract_feature_vector intent_data;
     match_features ← mapM _extract_feature_vector matches;
     match match_features with
     | [] => Ok (repeat 0.5 (length matches))
     | _ => Ok (map (cosine_similarity ext user_features_) match_features)
     end)
  with
  | Ok similarities => similarities
  | Raise _ => repeat 0.5 (length matches)
  end.

Definition city_groups : list (string * list string) :=
  [("bangalore_metro",
    ["bangalore"; "whitefield"; "electronic city"; "koramangala"]);
   ("mumbai_metro", ["mumbai"; "pune"; "thane"; "navi mumbai"]);
   ("delhi_ncr", ["delhi"; "gurgaon"; "noida"; "faridabad"]);
   ("hyderabad_metro", ["hyderabad"; "secunderabad"; "cyberabad"]);
   ("chennai_metro", ["chennai"; "tambaram"; "velachery"])].

(** The first group one of whose cities occurs in [location_]. *)
Definition find_group (location_ : string) : option string :=
  fst <$>
    find (fun group =>
            existsb (fun city => Str.contains city location_) (snd group))
      city_groups.

(** The score of one candidate in the loop of
    [_compute_location_scores]. *)
Definition location_score_of (user_location : string)
  (user_group : option string) (match_location : string) : Q :=
  if String.eqb user_location match_location then 1.0
  else
    match user_group with
    | Some group =>
        if bool_decide (find_group match_location = Some group) then 0.8
        else 0.3
    | None => 0.4
    end.

(** [d.get('location_name', '').lower()] on a row: the column is present,
    so a null raises. *)
Definition lowered_location_name (i : intent) : pyresult string :=
  match location_name i with
  | Some s => Ok (Str.lower s)
  | None => Raise AttributeError
  end.

Definition _compute_location_scores (intent_data : intent)
  (matches : list intent) : pyresult (list Q) :=
  user_location ← lowered_location_name intent_data;
  let user_group := find_group user_location in
  mapM (fun match_ =>
          match_location ← lowered_location_name match_;
          Ok (location_score_of user_location user_group match_location))
    matches.

Definition _compute_intent_compatibility (ext : externals)
  (intent_data : intent) (matches : list intent) : pyresult (list Q) :=
  match parsed_data intent_data with
  | None => Raise AttributeError
  | Some user_parsed =>
      let user_keywords : gset string :=
        list_to_set (default [] (keywords user_parsed)) in
      let user_prices := default [] (prices user_parsed) in
      mapM (fun match_ =>
              match parsed_data match_ with
              | None => Raise AttributeError
              | Some match_parsed =>
                  let match_keywords : gset string :=
                    list_to_set (default [] (keywords match_parsed)) in
                  let match_prices := default [] (prices match_parsed) in
                  let keyword_overlap := size (user_keywords ∩ match_keywords) in
                  let keyword_total := size (user_keywords ∪ match_keywords) in
                  let keyword_score :=
                    if (0 <? keyword_total)%nat
                    then Qnat keyword_overlap / Qnat keyword_total
                    else 0.5 in
                  let price_score :=
                    match user_prices, match_prices with
                    | _ :: _, _ :: _ =>
                        price_compatibility ext user_prices match_prices
                    | _, _ => 0.5
                    end in
                  Ok (keyword_score * 0.7 + price_score * 0.3)
              end)
        matches
  end.

(** [numpy.std] (the population standard deviation) *)
Definition np_mean (l : list Q) : Q := Qsum l / Qnat (length l).

Definition np_std (ext : externals) (l : list Q) : Q :=
  let mean := np_mean l in
  sqrt ext (np_mean (map (fun x => (x - mean) * (x - mean)) l)).

Definition _calculate_confidence (ext : externals) (combined : Q)
  (individual_scores : list Q) : Q :=
  let score_std := np_std ext individual_scores in
  let variance_penalty := Qmin (score_std / 0.3) 1.0 in
  let base_confidence := combined * 0.7 in
  let confidence := base_confidence * (1.0 - variance_penalty * 0.3) in
  round3 (Qmax 0.0 (Qmin 1.0 confidence)).

Definition _determine_match_quality (score : Q) : string :=
  if Qle_bool 0.8 score then "excellent"
  else if Qle_bool 0.65 score then "good"
  else if Qle_bool 0.5 score then "fair"
  else if Qle_bool 0.3 score then "poor"
  else "very_poor".

(** The word-set overlap of two texts in the diversity check. *)
Definition query_similarity (a b : string) : Q :=
  let match_words : gset string := list_to_set (Str.split (Str.lower a)) in
  let selected_words : gset string := list_to_set (Str.split (Str.lower b)) in
  let overlap := size (match_words ∩ selected_words) in
  let total := size (match_words ∪ selected_words) in
  if (0 <? total)%nat then Qnat overlap / Qnat total else 0.

(** The loop of [_apply_diversity_filter], with its [break]. *)
Fixpoint diversity_loop (diverse_matches rest : list match_result)
  : list match_result :=
  match rest with
  | [] => diverse_matches
  | match_ :: rest' =>
      let is_diverse :=
        forallb (fun selected =>
                   Qle_bool
                     (query_similarity (r_raw_query match_)
                        (r_raw_query selected)) 0.7)
          diverse_matches in
      let diverse_matches :=
        if is_diverse then diverse_matches ++ [match_] else diverse_matches in
      if (12 <=? length diverse_matches)%nat then diverse_matches
      else diversity_loop diverse_matches rest'
  end.

Definition _apply_diversity_filter (matches : list match_result)
  : list match_result :=
  if (length matches <=? 5)%nat then matches
  else
    match matches with
    | first :: rest => diversity_loop [first] rest
    | [] => []
    end.

(** The body of the loop over [enumerate(matches)]. *)
Definition score_entry (ext : externals)
  (user_text_similarities feature_similarities location_scores intent_scores
     temporal_scores : list Q) (entry : nat * intent)
  : pyresult (option match_result) :=
  let '(i, match_) := entry in
  t ← index user_text_similarities i;
  f ← index feature_similarities i;
  l ← index location_scores i;
  c ← index intent_scores i;
  d ← index temporal_scores i;
  let combined := t * 0.30 + f * 0.25 + l * 0.20 + c * 0.15 + d * 0.10 in
  if negb (Qle_bool combined 0.3) then
    Ok (Some {| r_intent_id := intent_id match_;
                r_user_name := default "Unknown" (users match_);
                r_location_name := location_name match_;
                r_raw_query := raw_query match_;
                r_category := category match_;
                r_post_type := post_type match_;
                text_similarity := round3 t;
                feature_similarity := round3 f;
                location_score := round3 l;
                intent_compatibility := round3 c;
                temporal_compatibility_ := round3 d;
                combined_score := round3 combined;
                confidence_score :=
                  _calculate_confidence ext combined [t; f; l; c; d];
                match_quality := _determine_match_quality combined;
                r_created_at := created_at match_ |})
  else Ok None.

Definition _basic_fallback_matching (ext : externals) (intent_data : intent)
  : pyresult (list MatchingService.match_result) :=
  MatchingService.find_matches ext intent_data.

Definition find_advanced_matches (ext : externals) (intent_data : intent)
  : pyresult outcome :=
  try_except
    (supabase ← get_supabase ext;
     let opposite_intent := MatchingService.opposite_post_type intent_data in
     matches ←
       execute supabase
         [FEq "post_type" opposite_intent;
          FEq "category" (category intent_data); FActive];
     match matches with
     | [] => Ok (Ranked [])
     | _ =>
         let all_texts := raw_query intent_data :: map raw_query matches in
         let user_text_similarities := text_similarity_row ext all_texts in
         let feature_similarities :=
           _compute_feature_similarities ext intent_data matches in
         location_scores ← _compute_location_scores intent_data matches;
         intent_scores ←
           _compute_intent_compatibility ext intent_data matches;
         let temporal_scores :=
           temporal_compatibility ext (created_at intent_data)
             (raw_query intent_data)
             (map (fun match_ => (created_at match_, raw_query match_))
                matches) in
         entries ←
           mapM (score_entry ext user_text_similarities feature_similarities
                   location_scores intent_scores temporal_scores)
             (imap (fun i match_ => (i, match_)) matches);
         let final_matches :=
           sort_desc combined_score (omap id entries) in
         Ok (Ranked (firstn 15 (_apply_diversity_filter final_matches)))
     end)
    (fun _ => Fallback <$> _basic_fallback_matching ext intent_data).

End MLMatchingService.

(** ** The strategy chain (api/endpoints/intents.py) *)

Module Intents.

(** The value bound to [matches] by the chain. *)
Inductive matches : Type :=
| FromAdvanced (l : list AdvancedMatchingService.match_result)
| FromML (o : MLMatchingService.outcome)
| FromBasic (l : list MatchingService.match_result).

(** [len(matches)] *)
Definition matches_length (m : matches) : nat :=
  match m with
  | FromAdvanced l => length l
  | FromML (MLMatchingService.Ranked l) => length l
  | FromML (MLMatchingService.Fallback l) => length l
  | FromBasic l => length l
  end.

(** The nested [try] of [get_matches_for_intent] that binds [matches]. *)
Definition find_matches_with_fallback (ext : externals) (intent_data : intent)
  : pyresult matches :=
  try_except
    (FromAdvanced <$>
       AdvancedMatchingService.find_advanced_matches ext intent_data)
    (fun _ =>
       try_except
         (FromML <$> MLMatchingService.find_advanced_matches ext intent_data)
         (fun _ =>
            FromBasic <$> MatchingService.find_matches ext intent_data)).

(** The lookup that comes first in [get_matches_for_intent]: the client
    is obtained and the intent of the current user is read; a missing
    intent is answered with 404. *)
Definition fetch_intent (ext : externals) (intent_id_ user_id_ : string)
  : pyresult intent :=
  supabase ← get_supabase ext;
  data ←
    execute_single supabase
      [FEq "intent_id" intent_id_; FEq "user_id" user_id_];
  match data with
  | Some intent_data => Ok intent_data
  | None => Raise (HTTPException 404)
  end.

(** [get_matches_for_intent] up to the point where [matches] is bound and
    counted, before the entries are turned into response objects: an
    [HTTPException] passes, any other exception becomes a 500. *)
Definition matches_for_intent (ext : externals) (intent_id_ user_id_ : string)
  : pyresult matches :=
  match
    (intent_data ← fetch_intent ext intent_id_ user_id_;
     find_matches_with_fallback ext intent_data)
  with
  | Ok found => Ok found
  | Raise (HTTPException status_code) => Raise (HTTPException status_code)
  | Raise _ => Raise (HTTPException 500)
  end.

(** *** The response objects (schemas/intent_schema.py)

    The entries the strategies return are dictionaries.  A value is kept
    as far as the response model looks at it: null, a text, a number, or
    an object. *)

Inductive field : Type :=
| FieldNone
| FieldStr (s : string)
| FieldFloat (x : Q)
| FieldDict.

Definition result_dict : Type := list (string * field).

(** [d.get(key)], with [None] for a key that is missing *)
Definition dict_lookup (key : string) (d : result_dict) : option field :=
  snd <$> find (fun entry => String.eqb (fst entry) key) d.

Definition field_of_option (o : option string) : field :=
  match o with Some s => FieldStr s | None => FieldNone end.

(** The dictionary of [_format_match_result]
    (advanced_matching_service.py), key by key. *)
Definition advanced_entry_dict (r : AdvancedMatchingService.match_result)
  : result_dict :=
  [("intent_id", FieldStr (AdvancedMatchingService.r_intent_id r));
   ("user_id", field_of_option (AdvancedMatchingService.r_user_id r));
   ("user_name", FieldStr (AdvancedMatchingService.r_user_name r));
   ("location_name",
    field_of_option (AdvancedMatchingService.r_location_name r));
   ("raw_query", FieldStr (AdvancedMatchingService.r_raw_query r));
   ("category", FieldStr (AdvancedMatchingService.r_category r));
   ("post_type", FieldStr (AdvancedMatchingService.r_post_type r));
   ("scores", FieldDict);
   ("composite_score", FieldFloat (AdvancedMatchingService.composite_score r));
   ("created_at", FieldStr (AdvancedMatchingService.r_created_at r));
   ("parsed_data",
    match AdvancedMatchingService.r_parsed_data r with
    | Some _ => FieldDict
    | None => FieldNone
    end)].

(** The dictionary built in the loop of [find_matches]
    (matching_service.py). *)
Definition basic_entry_dict (r : MatchingService.match_result) : result_dict :=
  [("intent_id", FieldStr (MatchingService.r_intent_id r));
   ("user_name", FieldStr (MatchingService.r_user_name r));
   ("location_name", field_of_option (MatchingService.r_location_name r));
   ("raw_query", FieldStr (MatchingService.r_raw_query r));
   ("category", FieldStr (MatchingService.r_category r));
   ("post_type", FieldStr (MatchingService.r_post_type r));
   ("similarity", FieldFloat (MatchingService.similarity r));
   ("distance_km", FieldFloat (MatchingService.distance_km r));
   ("combined_score", FieldFloat (MatchingService.combined_score r));
   ("created_at", FieldStr (MatchingService.r_created_at r))].

(** The dictionary built in the loop of [find_advanced_matches]
    (ml_matching_service.py). *)
Definition ml_entry_dict (r : MLMatchingService.match_result) : result_dict :=
  [("intent_id", FieldStr (MLMatchingService.r_intent_id r));
   ("user_name", FieldStr (MLMatchingService.r_user_name r));
   ("location_name", field_of_option (MLMatchingService.r_location_name r));
   ("raw_query", FieldStr (MLMatchingService.r_raw_query r));
   ("category", FieldStr (MLMatchingService.r_category r));
   ("post_type", FieldStr (MLMatchingService.r_post_type r));
   ("text_similarity", FieldFloat (MLMatchingService.text_similarity r));
   ("feature_similarity",
    FieldFloat (MLMatchingService.feature_similarity r));
   ("location_score", FieldFloat (MLMatchingService.location_score r));
   ("intent_compatibility",
    FieldFloat (MLMatchingService.intent_compatibility r));
   ("temporal_compatibility",
    FieldFloat (MLMatchingService.temporal_compatibility_ r));
   ("combined_score", FieldFloat (MLMatchingService.combined_score r));
   ("confidence_score", FieldFloat (MLMatchingService.confidence_score r));
   ("match_quality", FieldStr (MLMatchingService.match_quality r));
   ("created_at", FieldStr (MLMatchingService.r_created_at r))].

(** The dictionaries of the list bound to [matches]. *)
Definition result_dicts (m : matches) : list result_dict :=
  match m with
  | FromAdvanced l => map advanced_entry_dict l
  | FromML (MLMatchingService.Ranked l) => map ml_entry_dict l
  | FromML (MLMatchingService.Fallback l) => map basic_entry_dict l
  | FromBasic l => map basic_entry_dict l
  end.

(** [class MatchResponse(BaseModel)]: seven text fields and
    [combined_score] are required, the others default to [None]. *)
Record MatchResponse : Type := {
  mr_intent_id : string;
  mr_user_id : option string;
  mr_user_name : string;
  mr_location_name : string;
  mr_raw_query : string;
  mr_category : string;
  mr_post_type : string;
  mr_similarity : option Q;
  mr_distance_km : option Q;
  mr_combined_score : Q;
  mr_created_at : string;            (* a datetime, read from the text *)
  mr_scores : bool;                  (* an object was given *)
  mr_parsed_data : bool              (* an object was given *)
}.

(** The validation of one field: a required field must be present and
    not null; an optional one may be missing or null; a value of another
    kind is refused. *)
Definition required_str (d : result_dict) (key : string) : pyresult string :=
  match dict_lookup key d with
  | Some (FieldStr s) => Ok s
  | _ => Raise ValidationError
  end.

Definition optional_str (d : result_dict) (key : string)
  : pyresult (option string) :=
  match dict_lookup key d with
  | None | Some FieldNone => Ok None
  | Some (FieldStr s) => Ok (Some s)
  | Some _ => Raise ValidationError
  end.

Definition required_float (d : result_dict) (key : string) : pyresult Q :=
  match dict_lookup key d with
  | Some (FieldFloat x) => Ok x
  | _ => Raise ValidationError
  end.

Definition optional_float (d : result_dict) (key : string)
  : pyresult (option Q) :=
  match dict_lookup key d with
  | None | Some FieldNone => Ok None
  | Some (FieldFloat x) => Ok (Some x)
  | Some _ => Raise ValidationError
  end.

Definition optional_dict (d : result_dict) (key : string) : pyresult bool :=
  match dict_lookup key d with
  | None | Some FieldNone => Ok false
  | Some FieldDict => Ok true
  | Some _ => Raise ValidationError
  end.

(** The call of [MatchResponse] on the unpacked entry; keys the model
    does not declare are ignored. *)
Definition MatchResponse_of (d : result_dict) : pyresult MatchResponse :=
  intent_id_ ← required_str d "intent_id";
  user_id_ ← optional_str d "user_id";
  user_name_ ← required_str d "user_name";
  location_name_ ← required_str d "location_name";
  raw_query_ ← required_str d "raw_query";
  category_ ← required_str d "category";
  post_type_ ← required_str d "post_type";
  similarity_ ← optional_float d "similarity";
  distance_km_ ← optional_float d "distance_km";
  combined_score_ ← required_float d "combined_score";
  created_at_ ← required_str d "created_at";
  scores_ ← optional_dict d "scores";
  parsed_data_ ← optional_dict d "parsed_data";
  Ok {| mr_intent_id := intent_id_; mr_user_id := user_id_;
        mr_user_name := user_name_; mr_location_name := location_name_;
        mr_raw_query := raw_query_; mr_category := category_;
        mr_post_type := post_type_; mr_similarity := similarity_;
        mr_distance_km := distance_km_;
        mr_combined_score := combined_score_;
        mr_created_at := created_at_; mr_scores := scores_;
        mr_parsed_data := parsed_data_ |}.

(** [get_matches_for_intent], whole: the lookup, the chain, and the list
    comprehension that builds a [MatchResponse] of each entry, all in one
    [try] that lets an [HTTPException] pass and turns any other exception
    into a 500. *)
Definition get_matches_for_intent (ext : externals)
  (intent_id_ user_id_ : string) : pyresult (list MatchResponse) :=
  match
    (intent_data ← fetch_intent ext intent_id_ user_id_;
     found ← find_matches_with_fallback ext intent_data;
     mapM MatchResponse_of (result_dicts found))
  with
  | Ok responses => Ok responses
  | Raise (HTTPException status_code) => Raise (HTTPException status_code)
  | Raise _ => Raise (HTTPException 500)
  end.

End Intents.

(** ** Sample data

    A small store and a few intents on which the functions above are
    evaluated further down. *)

Module Sample.

Definition row (id : string) (owner : option string) (kind text : string)
  (place : option string) (emb : option (list Q)) (pd : option parsed)
  : intent :=
  {| intent_id := id; user_id := owner; post_type := kind;
     category := "product"; raw_query := text; parsed_data := pd;
     embedding := emb; location := None; location_name := place;
     created_at := "2025-01-21T00:00:00Z"; users := Some "Asha" |}.

(** A client whose every query for candidates returns [table]. *)
Definition serving (table : list intent) : Client :=
  {| execute := fun _ => Ok table;
     execute_single := fun _ => Ok (head table) |}.

(** A client that finds the intent [own] and whose every query for
    candidates returns [table]. *)
Definition store (own : intent) (table : list intent) : Client :=
  {| execute := fun _ => Ok table;
     execute_single := fun _ => Ok (Some own) |}.

(** A client that finds the intent [own] and whose every query for
    candidates fails. *)
Definition failing (own : intent) : Client :=
  {| execute := fun _ => Raise APIError;
     execute_single := fun _ => Ok (Some own) |}.

(** The library functions replaced by fixed stand-ins; [sqrt] is exact on
    0 and 1, the only arguments it receives in the examples, and a
    comparison at a tie succeeds. *)
Definition libraries (numpy : bool) (client : pyresult Client) : externals :=
  {| numpy_available := numpy;
     sqrt := fun x => x;
     py_float := fun _ => None;
     haversine := fun _ _ _ _ => Some 0;
     text_similarity_row := fun texts => repeat 0 (length texts - 1);
     price_compatibility := fun _ _ => 0.5;
     temporal_compatibility :=
       fun _ _ matches => repeat 0.6 (length matches);
     get_supabase := client;
     le_at_tie := fun _ _ => true |}.

(** A demand of user [u1] in Whitefield, with an embedding. *)
Definition demand_u1 : intent :=
  row "i1" (Some "u1") "demand" "Looking for iPhone 13 in Whitefield"
    (Some "Whitefield") (Some [1]) (Some empty_parsed).

(** A supply of another user at the same place, with the same
    embedding. *)
Definition supply_u2 : intent :=
  row "i2" (Some "u2") "supply" "Selling iPhone 13 in Whitefield"
    (Some "Whitefield") (Some [1]) (Some empty_parsed).

(** A supply of user [u1] itself. *)
Definition supply_u1 : intent :=
  row "i3" (Some "u1") "supply" "Selling iPhone 12 in Whitefield"
    (Some "Whitefield") None (Some empty_parsed).

(** A demand and a supply in two unrelated cities, without embeddings and
    without a word in common. *)
Definition demand_mumbai : intent :=
  row "i4" (Some "u3") "demand" "Need plumber urgently" (Some "Mumbai")
    None (Some empty_parsed).

Definition supply_chennai : intent :=
  row "i5" (Some "u4") "supply" "Selling bicycle" (Some "Chennai")
    None (Some empty_parsed).

End Sample.

(** * Properties *)

(** ** Sorting *)

Section SortDesc.
Context {A : Type} (key : A -> Q).

(** Largest key first. *)
Definition descending : list A -> Prop :=
  StronglySorted (fun a b => key b <= key a).

Lemma insert_desc_In x z l :
  In z (insert_desc key x l) <-> z = x \/ In z l.
Proof.
  induction l as [|y r IH]; simpl.
  - intuition.
  - destruct (Qle_bool (key y) (key x)); simpl; [intuition|].
    rewrite IH. intuition.
Qed.

Lemma insert_desc_length x l :
  length (insert_desc key x l) = S (length l).
Proof.
  induction l as [|y r IH]; simpl; [reflexivity|].
  destruct (Qle_bool (key y) (key x)); simpl; [reflexivity|].
  now rewrite IH.
Qed.

Lemma insert_desc_descending x l :
  descending l -> descending (insert_desc key x l).
Proof.
  unfold descending. induction 1 as [|y r Hr IH Hy]; simpl.
  - constructor; constructor.
  - destruct (Qle_bool (key y) (key x)) eqn:E.
    + apply Qle_bool_iff in E. constructor.
      * now constructor.
      * constructor; [exact E|].
        eapply List.Forall_impl; [|exact Hy]. simpl. intros b Hb. lra.
    + constructor; [exact IH|].
      apply List.Forall_forall. intros b Hb.
      apply insert_desc_In in Hb. destruct Hb as [->|Hb].
      * destruct (Qlt_le_dec (key y) (key x)) as [Hlt|Hle]; [|exact Hle].
        assert (Qle_bool (key y) (key x) = true) as E'
          by (apply Qle_bool_iff; lra).
        congruence.
      * rewrite List.Forall_forall in Hy. now apply Hy.
Qed.

Lemma sort_desc_In z l : In z (sort_desc key l) <-> In z l.
Proof.
  unfold sort_desc. induction l as [|x r IH]; simpl; [tauto|].
  rewrite insert_desc_In, IH. intuition.
Qed.

Lemma sort_desc_length l : length (sort_desc key l) = length l.
Proof.
  unfold sort_desc. induction l as [|x r IH]; simpl; [reflexivity|].
  now rewrite insert_desc_length, IH.
Qed.

Lemma sort_desc_descending l : descending (sort_desc key l).
Proof.
  unfold sort_desc. induction l as [|x r IH]; simpl.
  - constructor.
  - now apply insert_desc_descending.
Qed.

Lemma firstn_descending n l : descending l -> descending (firstn n l).
Proof.
  unfold descending. intros H. revert n.
  induction H as [|y r Hr IH Hy]; intros [|n]; simpl; try constructor.
  - apply IH.
  - apply List.Forall_forall. intros b Hb.
    rewrite List.Forall_forall in Hy. apply Hy.
    revert Hb. clear. revert n.
    induction r as [|c r IH]; intros [|n]; simpl; try tauto.
    intros [->|H]; [now left|right; eauto].
Qed.

Lemma firstn_In_incl n (l : list A) z : In z (firstn n l) -> In z l.
Proof.
  revert n. induction l as [|c r IH]; intros [|n]; simpl; try tauto.
  intros [->|H]; [now left|right; eauto].
Qed.

(** The ranking step shared by the strategies: sort, then keep the first
    [n]. *)
Lemma top_n_spec n l :
  let top := firstn n (sort_desc key l) in
  (length top <= n)%nat /\ descending top /\ forall z, In z top -> In z l.
Proof.
  simpl. split; [|split].
  - rewrite List.length_firstn. lia.
  - apply firstn_descending, sort_desc_descending.
  - intros z Hz. apply sort_desc_In. eapply firstn_In_incl; eauto.
Qed.

End SortDesc.

(** The candidates kept by a loop are no more than the pool. *)
Lemma omap_length_le {A B} (f : A -> option B) (l : list A) :
  (length (omap f l) <= length l)%nat.
Proof.
  induction l as [|x l IH]; [reflexivity|].
  change (omap f (x :: l))
    with (match f x with Some y => y :: omap f l | None => omap f l end).
  destruct (f x); cbn [length]; lia.
Qed.

(** ** Traversals that may raise *)

Section Traversal.
Context {A B : Type} (f : A -> pyresult B).

Lemma mapM_cons x l :
  mapM f (x :: l) = y ← f x; k ← mapM f l; Ok (y :: k).
Proof. reflexivity. Qed.

(** A traversal that succeeds has run [f] on every element, in order. *)
Lemma mapM_Ok l ys : mapM f l = Ok ys -> Forall2 (fun x y => f x = Ok y) l ys.
Proof.
  revert ys. induction l as [|x l IH]; intros ys.
  - intros [= <-]. constructor.
  - rewrite mapM_cons. destruct (f x) as [y|e] eqn:E; [|discriminate].
    cbn [mbind pyresult_bind].
    destruct (mapM f l) as [k|e]; [|discriminate].
    intros [= <-]. constructor; auto.
Qed.

Lemma mapM_Ok_In l ys y :
  mapM f l = Ok ys -> In y ys -> exists x, In x l /\ f x = Ok y.
Proof.
  intros H. apply mapM_Ok in H.
  induction H as [|x y' l ys Hxy _ IH]; simpl; [tauto|].
  intros [<-|Hy]; [eauto|].
  destruct (IH Hy) as (x' & Hx' & Hf). eauto.
Qed.

(** A traversal raises as soon as [f] raises on one element. *)
Lemma mapM_Raise l :
  Exists (fun x => exists e, f x = Raise e) l -> exists e, mapM f l = Raise e.
Proof.
  induction 1 as [x l [e He]|x l _ [e IH]]; rewrite mapM_cons.
  - rewrite He. eauto.
  - destruct (f x) as [y|e']; [|eauto].
    cbn [mbind pyresult_bind]. rewrite IH. eauto.
Qed.

End Traversal.

(** ** Comparisons of computed floats *)

Section FloatComparison.
Context (ext : externals).

Lemma float_le_true a b : float_le ext a b = true -> a <= b.
Proof.
  unfold float_le. destruct (Qcompare a b) eqn:E; intros H.
  - apply Qeq_alt in E. rewrite E. apply Qle_refl.
  - apply Qlt_alt in E. now apply Qlt_le_weak.
  - discriminate.
Qed.

Lemma float_le_false a b : float_le ext a b = false -> b <= a.
Proof.
  unfold float_le. destruct (Qcompare a b) eqn:E; intros H.
  - apply Qeq_alt in E. rewrite E. apply Qle_refl.
  - discriminate.
  - apply Qgt_alt in E. now apply Qlt_le_weak.
Qed.

Lemma float_le_lt a b : a < b -> float_le ext a b = true.
Proof.
  intros H. unfold float_le. destruct (Qcompare a b) eqn:E; [|reflexivity|].
  - apply Qeq_alt in E. lra.
  - apply Qgt_alt in E. lra.
Qed.

Lemma float_le_gt a b : b < a -> float_le ext a b = false.
Proof.
  intros H. unfold float_le. destruct (Qcompare a b) eqn:E; [| |reflexivity].
  - apply Qeq_alt in E. lra.
  - apply Qlt_alt in E. lra.
Qed.

End FloatComparison.

(** ** The advanced strategy *)

Section Advanced.
Import AdvancedMatchingService.
Context (ext : externals).

Lemma composite_score_formula (s : scores) :
  _calculate_composite_score s
  == 0.4 * semantic_similarity s + 0.2 * location_proximity s
     + 0.3 * parameter_overlap s + 0.1 * price_tolerance s.
Proof. unfold _calculate_composite_score. cbn -[Qplus Qmult]. ring. Qed.

(** A candidate is kept by the loop exactly when it has another owner, its
    scoring did not raise, and the test [composite_score >= 0.75]
    succeeds. *)
Lemma score_candidate_kept intent_data parsed_params match_ r :
  score_candidate ext intent_data parsed_params match_ = Some r <->
  user_id match_ <> user_id intent_data /\
  exists s,
    _calculate_match_scores ext intent_data match_ parsed_params = Ok s /\
    float_le ext 0.75 (_calculate_composite_score s) = true /\
    r = _format_match_result match_ s (_calculate_composite_score s).
Proof.
  unfold score_candidate. case_bool_decide as Huid.
  - split; [discriminate|]. intros [Hne _]. contradiction.
  - destruct (_calculate_match_scores ext intent_data match_ parsed_params)
      as [s|e]; simpl.
    + destruct (float_le ext 0.75 (_calculate_composite_score s)) eqn:E.
      * split.
        -- intros [= <-]. split; [exact Huid|]. exists s. auto.
        -- intros (_ & s' & [= <-] & _ & ->). reflexivity.
      * split; [discriminate|].
        intros (_ & s' & [= <-] & Hle & _). congruence.
    + split; [discriminate|]. intros (_ & s' & Hs & _). discriminate.
Qed.

(** A candidate that is kept has a composite score of at least 0.75. *)
Lemma score_candidate_Some intent_data parsed_params match_ r :
  score_candidate ext intent_data parsed_params match_ = Some r ->
  user_id match_ <> user_id intent_data /\
  exists s,
    _calculate_match_scores ext intent_data match_ parsed_params = Ok s /\
    0.75 <= _calculate_composite_score s /\
    r = _format_match_result match_ s (_calculate_composite_score s).
Proof.
  intros H. apply score_candidate_kept in H as (Hne & s & Hs & Hle & ->).
  split; [exact Hne|]. exists s.
  split; [exact Hs|]. split; [now apply (float_le_true ext)|reflexivity].
Qed.

(** A candidate of another owner whose composite score exceeds 0.75 is
    kept, whatever the rounding. *)
Lemma score_candidate_above intent_data parsed_params match_ s :
  user_id match_ <> user_id intent_data ->
  _calculate_match_scores ext intent_data match_ parsed_params = Ok s ->
  0.75 < _calculate_composite_score s ->
  score_candidate ext intent_data parsed_params match_
  = Some (_format_match_result match_ s (_calculate_composite_score s)).
Proof.
  intros Hne Hs Hlt. apply score_candidate_kept.
  split; [exact Hne|]. exists s.
  split; [exact Hs|]. split; [now apply float_le_lt|reflexivity].
Qed.

(** The pool the strategy ranks: what the store returned for its query, or
    nothing when the fetch failed. *)
Definition advanced_pool (supabase : Client) (intent_data : intent)
  : list intent :=
  let parsed_params := _extract_parameters intent_data in
  match
    execute supabase
      (build_query parsed_params
         (invert_intent (dict_get parsed_params "intent")))
  with
  | Ok data => data
  | Raise _ => []
  end.

(** The parsed verb is a list or an object. *)
Definition unhashable_intent (intent_data : intent) : Prop :=
  exists truth text,
    dict_get (_extract_parameters intent_data) "intent"
    = VUnhashable truth text.

Lemma INTENT_INVERSIONS_get_cases user_intent :
  (exists truth text,
      user_intent = VUnhashable truth text /\
      INTENT_INVERSIONS_get user_intent = Raise TypeError) \/
  ((forall truth text, user_intent <> VUnhashable truth text) /\
   INTENT_INVERSIONS_get user_intent = Ok (invert_intent user_intent)).
Proof.
  destruct user_intent as [|s|z|truth text];
    try (right; split; [discriminate|reflexivity]).
  left. eauto.
Qed.

Lemma find_advanced_matches_ranked intent_data :
  find_advanced_matches ext intent_data =
  supabase ← get_supabase ext;
  _ ← INTENT_INVERSIONS_get
        (dict_get (_extract_parameters intent_data) "intent");
  Ok (firstn 7
        (sort_desc composite_score
           (omap (score_candidate ext intent_data
                    (_extract_parameters intent_data))
              (advanced_pool supabase intent_data)))).
Proof.
  unfold find_advanced_matches, advanced_pool.
  destruct (get_supabase ext) as [supabase|e]; simpl; [|reflexivity].
  destruct (INTENT_INVERSIONS_get_cases
              (dict_get (_extract_parameters intent_data) "intent"))
    as [(truth & text & _ & ->)|[_ ->]]; simpl; [reflexivity|].
  destruct (execute supabase _) as [[|m data]|e]; reflexivity.
Qed.

(** What the strategy returns, when it returns: the ranking of the
    fetched pool. *)
Lemma find_advanced_matches_Ok intent_data results :
  find_advanced_matches ext intent_data = Ok results ->
  exists supabase,
    get_supabase ext = Ok supabase /\
    results =
    firstn 7
      (sort_desc composite_score
         (omap (score_candidate ext intent_data
                  (_extract_parameters intent_data))
            (advanced_pool supabase intent_data))).
Proof.
  rewrite find_advanced_matches_ranked.
  destruct (get_supabase ext) as [supabase|e]; simpl; [|discriminate].
  destruct (INTENT_INVERSIONS_get _); simpl; [|discriminate].
  intros [= <-]. eauto.
Qed.

(** It raises in two cases only: without the client, and on a parsed verb
    that cannot be hashed; both happen before its [try]. *)
Lemma find_advanced_matches_Raise intent_data e :
  find_advanced_matches ext intent_data = Raise e ->
  get_supabase ext = Raise e \/
  ((exists supabase, get_supabase ext = Ok supabase) /\
   unhashable_intent intent_data /\ e = TypeError).
Proof.
  rewrite find_advanced_matches_ranked.
  destruct (get_supabase ext) as [supabase|e']; simpl;
    [|intros [= <-]; now left].
  destruct (INTENT_INVERSIONS_get_cases
              (dict_get (_extract_parameters intent_data) "intent"))
    as [(truth & text & Hv & ->)|[_ ->]]; simpl; [|discriminate].
  intros [= <-]. right. split; [eauto|]. split; [|reflexivity].
  exists truth, text. exact Hv.
Qed.

Lemma find_advanced_matches_unhashable intent_data supabase :
  get_supabase ext = Ok supabase ->
  unhashable_intent intent_data ->
  find_advanced_matches ext intent_data = Raise TypeError.
Proof.
  intros Hclient (truth & text & Hv).
  rewrite find_advanced_matches_ranked, Hclient. simpl. now rewrite Hv.
Qed.

End Advanced.

Section AdvancedRanking.
Import AdvancedMatchingService.


(** X5.  Conversely, whenever the advanced strategy returns, its list
    holds every candidate of another owner whose composite score exceeds
    0.75, unless more than 7 candidates are fetched.  At exactly 0.75 the
    rounding of the float sum decides, and nothing is stated. *)
Lemma advanced_returns_accepted ext intent_data supabase results match_ s :
  get_supabase ext = Ok supabase ->
  find_advanced_matches ext intent_data = Ok results ->
  In match_ (advanced_pool supabase intent_data) ->
  (length (advanced_pool supabase intent_data) <= 7)%nat ->
  user_id match_ <> user_id intent_data ->
  _calculate_match_scores ext intent_data match_
    (_extract_parameters intent_data) = Ok s ->
  0.75 < _calculate_composite_score s ->
  In (_format_match_result match_ s (_calculate_composite_score s)) results.
Proof.
  intros Hclient Hresults Hin Hlen Hne Hs Hthreshold.
  apply find_advanced_matches_Ok in Hresults as (supabase' & Hclient' & ->).
  rewrite Hclient in Hclient'. injection Hclient' as <-.
  rewrite firstn_all2.
  - apply sort_desc_In, list_elem_of_In, list_elem_of_omap.
    exists match_. split; [now apply list_elem_of_In|].
    now apply score_candidate_above.
  - rewrite sort_desc_length.
    etransitivity; [apply omap_length_le|exact Hlen].
Qed.

(** X4.  The advanced strategy never returns a candidate of the query's
    owner. *)
Lemma advanced_excludes_owner ext intent_data results :
  find_advanced_matches ext intent_data = Ok results ->
  Forall (fun r => r_user_id r <> user_id intent_data) results.
Proof.
  intros H. apply find_advanced_matches_Ok in H as (supabase & _ & ->).
  apply List.Forall_forall. intros r Hr.
  apply (top_n_spec composite_score 7), list_elem_of_In,
    list_elem_of_omap in Hr.
  destruct Hr as (match_ & _ & Hscore).
  apply score_candidate_Some in Hscore as (Hne & s & _ & _ & ->).
  exact Hne.
Qed.

End AdvancedRanking.

Section AdvancedRankingWitness.
Import AdvancedMatchingService Sample.

(** The one entry returned for [demand_u1] over the pool
    [[supply_u2; supply_u1]]: the supply of the other user. *)
Definition sample_advanced_entry : match_result :=
  {| r_intent_id := "i2"; r_user_id := Some "u2"; r_user_name := "Asha";
     r_location_name := Some "Whitefield";
     r_raw_query := "Selling iPhone 13 in Whitefield";
     r_category := "product"; r_post_type := "supply";
     r_scores :=
       {| semantic_similarity := 1.000; location_proximity := 1.000;
          parameter_overlap := 1.000; price_tolerance := 0.500 |};
     composite_score := 0.950;
     r_created_at := "2025-01-21T00:00:00Z";
     r_parsed_data := Some empty_parsed |}.


End AdvancedRankingWitness.

(** ** Embedding similarity *)

Section Embedding.
Import EmbeddingService.
Context (ext : externals).

(** With equal lengths both branches compute the same value: zero when a
    norm is zero, the quotient of the dot product by the norms
    otherwise. *)
Lemma compute_similarity_equal_lengths u v :
  length u = length v ->
  compute_similarity ext u v =
  Ok (if Qeq_bool (norm ext u) 0 || Qeq_bool (norm ext v) 0 then 0
      else dot u v / (norm ext u * norm ext v)).
Proof.
  intros Hlen. unfold compute_similarity, np_dot.
  rewrite Hlen, Nat.eqb_refl.
  destruct (numpy_available ext); simpl;
    destruct (Qeq_bool (norm ext u) 0 || Qeq_bool (norm ext v) 0);
    reflexivity.
Qed.

(** X17.  The pure-Python branch, taken when numpy cannot be imported, answers
    0 for vectors of different lengths. *)
Lemma compute_similarity_fallback_mismatch u v :
  numpy_available ext = false ->
  length u <> length v ->
  compute_similarity ext u v = Ok 0.
Proof.
  intros Hnp Hlen. unfold compute_similarity. rewrite Hnp. simpl.
  apply Nat.eqb_neq in Hlen. now rewrite Hlen.
Qed.

(** C6.  On the numpy branch the similarity of two vectors of different
    lengths is not 0.0: [numpy.dot] raises [ValueError], which the handler
    for [ImportError] does not catch. *)
Theorem compute_similarity_numpy_mismatch_raises u v :
  numpy_available ext = true ->
  length u <> length v ->
  compute_similarity ext u v = Raise ValueError.
Proof.
  intros Hnp Hlen. unfold compute_similarity, np_dot. rewrite Hnp.
  apply Nat.eqb_neq in Hlen. now rewrite Hlen.
Qed.

End Embedding.

Lemma compute_similarity_numpy_mismatch_raises_witness :
  numpy_available (Sample.libraries true (Raise APIError)) = true /\
  length [1] <> length [1; 0] /\
  EmbeddingService.compute_similarity
    (Sample.libraries true (Raise APIError)) [1] [1; 0]
  = Raise ValueError.
Proof.
  split; [reflexivity|]. split; [discriminate|].
  apply compute_similarity_numpy_mismatch_raises; [reflexivity|discriminate].
Defined.

(** ** Price parsing *)

Section PriceParsing.
Import AdvancedMatchingService.

(** [c in s] for one character *)
Fixpoint has_char (c : ascii) (s : string) : bool :=
  match s with
  | EmptyString => false
  | String d r => Ascii.eqb c d || has_char c r
  end.

Lemma startswith_has_char w s c :
  Str.startswith w s = true -> has_char c w = true -> has_char c s = true.
Proof.
  revert s. induction w as [|a w IH]; intros s Hs Hc; [discriminate|].
  destruct s as [|b s]; [discriminate|]. simpl in *.
  apply andb_true_iff in Hs as [Hab Hs].
  apply Ascii.eqb_eq in Hab as <-.
  apply orb_true_iff in Hc as [Hc|Hc]; apply orb_true_iff; auto.
Qed.

Lemma contains_has_char w s c :
  Str.contains w s = true -> has_char c w = true -> has_char c s = true.
Proof.
  induction s as [|b s IH]; simpl; intros Hs Hc.
  - rewrite orb_false_r in Hs. eapply (startswith_has_char w ""); eauto.
  - apply orb_true_iff in Hs as [Hs|Hs].
    + eapply (startswith_has_char w (String b s)); eauto.
    + apply orb_true_iff. right. auto.
Qed.

Lemma unit_match_positive s n : unit_match s = Some n -> (0 < n)%nat.
Proof.
  unfold unit_match.
  repeat match goal with
         | |- context [if ?b then _ else _] => destruct b
         end; intros [= <-]; simpl; lia.
Qed.

Lemma unit_match_None_not_k c r :
  unit_match (String c r) = None -> Ascii.eqb "k" (Str.lower_char c) = false.
Proof.
  unfold unit_match.
  repeat match goal with
         | |- context [if ?b then _ else _] => destruct b eqn:?
         end; try discriminate.
  intros _.
  match goal with
  | H : startswith_ci "k" _ = false |- _ => simpl in H
  end.
  now rewrite andb_true_r in *.
Qed.

(** No letter k, of either case, survives the removal of the unit
    words. *)
Lemma sub_units_no_k s skip :
  has_char "k" (Str.lower (sub_units skip s)) = false.
Proof.
  revert skip. induction s as [|c r IH]; intros skip; [reflexivity|].
  cbn [sub_units]. destruct skip as [|k]; [|apply IH].
  destruct (unit_match (String c r)) as [[|k]|] eqn:E.
  - apply unit_match_positive in E. lia.
  - apply IH.
  - cbn [Str.lower has_char]. rewrite (unit_match_None_not_k _ _ E).
    apply IH.
Qed.

(** Hence the tests for ["lakh"] and ["k"], made on the text from which
    these very words were removed, never succeed. *)
Lemma stripped_price_mentions_no_lakh_no_k s :
  Str.contains "lakh" (Str.lower (sub_units 0 s)) = false /\
  Str.contains "k" (Str.lower (sub_units 0 s)) = false.
Proof.
  split.
  - destruct (Str.contains "lakh" _) eqn:E; [|reflexivity].
    apply (contains_has_char _ _ "k") in E; [|reflexivity].
    now rewrite sub_units_no_k in E.
  - destruct (Str.contains "k" _) eqn:E; [|reflexivity].
    apply (contains_has_char _ _ "k") in E; [|reflexivity].
    now rewrite sub_units_no_k in E.
Qed.

(** So a price is scaled only when ["lac"] or ["thousand"] is left in the
    text by the removal (as in ["2 la,c"]); otherwise its value is the
    bare first number. *)
Lemma extract_price_value_unscaled s :
  Str.contains "lac" (Str.lower (sub_units 0 s)) = false ->
  Str.contains "thousand" (Str.lower (sub_units 0 s)) = false ->
  _extract_price_value s = float_of_number <$> first_number (sub_units 0 s).
Proof.
  intros Hlac Hthousand. unfold _extract_price_value.
  destruct (stripped_price_mentions_no_lakh_no_k s) as [Hlakh Hk].
  rewrite Hlakh, Hlac, Hk, Hthousand.
  now destruct (first_number (sub_units 0 s)).
Qed.

(** C4.  A price written with [k] or [lakh] is not scaled: ["50k"] parses
    to 50 and ["2 lakh"] to 2, where 50,000 and 200,000 are expected. *)
Theorem extract_price_value_drops_the_scale :
  _extract_price_value "50k" = Some 50 /\
  _extract_price_value "45K" = Some 45 /\
  _extract_price_value "2 lakh" = Some 2 /\
  _extract_price_value "₹ 45,000" = Some 45000.
Proof. repeat split; vm_compute; reflexivity. Qed.

End PriceParsing.

(** ** Rational arithmetic used by the scorers *)

Section Rationals.

Lemma Qle_bool_false a b : Qle_bool a b = false <-> b < a.
Proof.
  split.
  - intros H. apply Qnot_le_lt. intros Hle.
    apply Qle_bool_iff in Hle. congruence.
  - intros H. destruct (Qle_bool a b) eqn:E; [|reflexivity].
    apply Qle_bool_iff in E. lra.
Qed.

Lemma Qdiv_nonneg a b : 0 <= a -> 0 < b -> 0 <= a / b.
Proof. intros Ha Hb. apply Qle_shift_div_l; [exact Hb|]. lra. Qed.

Lemma Qdiv_le_1 a b : 0 < b -> a <= b -> a / b <= 1.
Proof. intros Hb Hab. apply Qle_shift_div_r; [exact Hb|]. lra. Qed.

Lemma Qdiv_le_mono a a' b : 0 < b -> a <= a' -> a / b <= a' / b.
Proof.
  intros Hb Ha. unfold Qdiv. apply Qmult_le_compat_r; [exact Ha|].
  apply Qlt_le_weak, Qinv_lt_0_compat, Hb.
Qed.

Lemma Qdiv_lt_mono a a' b : 0 < b -> a < a' -> a / b < a' / b.
Proof.
  intros Hb Ha. unfold Qdiv. apply Qmult_lt_compat_r; [|exact Ha].
  apply Qinv_lt_0_compat, Hb.
Qed.

Lemma Qdiv_lt_1 a b : 0 < b -> a < b -> a / b < 1.
Proof. intros Hb Hab. apply Qlt_shift_div_r; [exact Hb|]. lra. Qed.

Lemma Qdiv_ge_1 a b : 0 < b -> b <= a -> 1 <= a / b.
Proof. intros Hb Hab. apply Qle_shift_div_l; [exact Hb|]. lra. Qed.

Lemma Qmax_spec a b : (b <= a /\ Qmax a b = a) \/ (a <= b /\ Qmax a b = b).
Proof.
  unfold Qmax. destruct (Qle_bool a b) eqn:E.
  - right. apply Qle_bool_iff in E. auto.
  - left. apply Qle_bool_false in E. split; [lra|reflexivity].
Qed.

End Rationals.

(** ** Parameter overlap *)

Section ParameterOverlap.
Import AdvancedMatchingService.
Context (user_params match_params : gmap string pyval).

(** The attribute [param] is present (truthy) on both sides. *)
Definition comparable (param : string) : bool :=
  truthy (dict_get user_params param) && truthy (dict_get match_params param).

Lemma overlap_step_bounds acc entry :
  0 <= snd entry ->
  0 <= fst acc <= snd acc ->
  let acc' := overlap_step user_params match_params acc entry in
  0 <= fst acc' <= snd acc'.
Proof.
  destruct acc as [o t], entry as [param weight]. simpl. intros Hw Hacc.
  repeat match goal with
         | |- context [if ?b then _ else _] => destruct b
         | |- context [match ?r with Ok _ => _ | Raise _ => _ end] =>
             destruct r
         end; simpl; lra.
Qed.

Lemma overlap_step_skip acc entry :
  comparable (fst entry) = false ->
  overlap_step user_params match_params acc entry = acc.
Proof.
  destruct acc as [o t], entry as [param weight]. unfold comparable.
  simpl. now intros ->.
Qed.

Lemma overlap_fold_bounds entries acc :
  Forall (fun entry => 0 <= snd entry) entries ->
  0 <= fst acc <= snd acc ->
  let acc' := fold_left (overlap_step user_params match_params) entries acc in
  0 <= fst acc' <= snd acc'.
Proof.
  intros Hw. revert acc. induction Hw as [|entry entries Hentry _ IH];
    intros acc Hacc; simpl; [exact Hacc|].
  apply IH. now apply overlap_step_bounds.
Qed.

Lemma overlap_fold_skip entries acc :
  Forall (fun entry => comparable (fst entry) = false) entries ->
  fold_left (overlap_step user_params match_params) entries acc = acc.
Proof.
  intros H. revert acc. induction H as [|entry entries Hentry _ IH];
    intros acc; simpl; [reflexivity|].
  now rewrite overlap_step_skip, IH.
Qed.

(** C8.  The parameter overlap score lies between 0 and 1, and is exactly
    0.5 when none of the six weighted attributes is present on both
    sides. *)
Theorem parameter_overlap_range_and_neutral :
  (0 <= _calculate_parameter_overlap user_params match_params <= 1) /\
  ((forall param weight,
       In (param, weight) param_weights -> comparable param = false) ->
   _calculate_parameter_overlap user_params match_params = 0.5).
Proof.
  unfold _calculate_parameter_overlap. split.
  - pose proof (overlap_fold_bounds param_weights (0, 0)) as H.
    destruct (fold_left _ param_weights (0, 0)) as [o t]. simpl in H.
    assert (0 <= o <= t) as Hot.
    { apply H; [|lra]. repeat constructor; simpl; lra. }
    destruct (Qle_bool t 0) eqn:E; simpl; [lra|].
    apply Qle_bool_false in E. split.
    + apply Qdiv_nonneg; lra.
    + apply Qdiv_le_1; lra.
  - intros Hnone. rewrite overlap_fold_skip; [reflexivity|].
    apply List.Forall_forall. intros [param weight] Hin.
    exact (Hnone param weight Hin).
Qed.

End ParameterOverlap.

(** ** Price tolerance *)

Section PriceTolerance.
Import AdvancedMatchingService.
Context (ext : externals).

(** The price a parameter set states: its [price], or failing that its
    [budget], parsed; [None] when there is none or it has no number. *)
Definition stated_price (params : gmap string pyval) : option Q :=
  let price := py_or (dict_get params "price") (dict_get params "budget") in
  if truthy price then _extract_price_value (py_str price) else None.

(** The score as a function of the two parsed prices. *)
Definition tolerance_score (user_price_val match_price_val : Q) : Q :=
  let price_diff := Qabs (user_price_val - match_price_val) in
  let tolerance := user_price_val * 0.1 in
  if float_le ext price_diff tolerance then 1.0 - price_diff / tolerance
  else Qmax 0.0 (1.0 - price_diff / (user_price_val * 0.5)).

Lemma price_tolerance_of_parsed user_params match_params u m :
  stated_price user_params = Some u ->
  stated_price match_params = Some m ->
  0 < u -> 0 < m ->
  _calculate_price_tolerance ext user_params match_params
  = tolerance_score u m.
Proof.
  unfold stated_price, _calculate_price_tolerance, tolerance_score.
  intros Hu Hm Hupos Hmpos.
  destruct (truthy (py_or (dict_get user_params "price")
                      (dict_get user_params "budget"))); [|discriminate].
  destruct (truthy (py_or (dict_get match_params "price")
                      (dict_get match_params "budget"))); [|discriminate].
  rewrite Hu, Hm. simpl.
  assert (Qeq_bool u 0 = false) as ->.
  { apply not_true_iff_false. intros H. apply Qeq_bool_iff in H. lra. }
  assert (Qeq_bool m 0 = false) as ->.
  { apply not_true_iff_false. intros H. apply Qeq_bool_iff in H. lra. }
  reflexivity.
Qed.

(** A price that is missing or has no number gives the neutral 0.5. *)
Lemma price_tolerance_neutral user_params match_params :
  stated_price user_params = None \/ stated_price match_params = None ->
  _calculate_price_tolerance ext user_params match_params = 0.5.
Proof.
  unfold stated_price, _calculate_price_tolerance.
  destruct (truthy (py_or (dict_get user_params "price")
                      (dict_get user_params "budget")));
    destruct (truthy (py_or (dict_get match_params "price")
                        (dict_get match_params "budget")));
    simpl; try reflexivity.
  intros [-> | ->]; [reflexivity|].
  now destruct (_extract_price_value _).
Qed.

Section Score.
Context (u : Q) (Hu : 0 < u).

Lemma tolerance_score_inner m :
  float_le ext (Qabs (u - m)) (u * 0.1) = true ->
  tolerance_score u m == 1 - Qabs (u - m) / (u * 0.1).
Proof.
  intros H. unfold tolerance_score. rewrite H.
  apply Qplus_comp; reflexivity.
Qed.

Lemma tolerance_score_outer m :
  float_le ext (Qabs (u - m)) (u * 0.1) = false ->
  tolerance_score u m == Qmax 0 (1 - Qabs (u - m) / (0.5 * u)).
Proof.
  intros H. unfold tolerance_score. rewrite H.
  assert (u * 0.5 == 0.5 * u) as E by ring.
  unfold Qmax.
  assert (1.0 - Qabs (u - m) / (u * 0.5) == 1 - Qabs (u - m) / (0.5 * u))
    as E' by (rewrite E; apply Qplus_comp; reflexivity).
  destruct (Qle_bool 0.0 (1.0 - Qabs (u - m) / (u * 0.5))) eqn:C1;
    destruct (Qle_bool 0 (1 - Qabs (u - m) / (0.5 * u))) eqn:C2;
    try reflexivity; try exact E'.
  - apply Qle_bool_iff in C1. apply Qle_bool_false in C2. lra.
  - apply Qle_bool_iff in C2. apply Qle_bool_false in C1. lra.
Qed.

(** Strictly inside the band of 10% of the query price. *)
Lemma tolerance_score_in_band m :
  Qabs (u - m) < u * 0.1 ->
  tolerance_score u m == 1 - Qabs (u - m) / (u * 0.1).
Proof. intros H. now apply tolerance_score_inner, float_le_lt. Qed.

(** Strictly beyond the band. *)
Lemma tolerance_score_beyond_band m :
  u * 0.1 < Qabs (u - m) ->
  tolerance_score u m == Qmax 0 (1 - Qabs (u - m) / (0.5 * u)).
Proof. intros H. now apply tolerance_score_outer, float_le_gt. Qed.

(** At the edge of the band the rounding decides between the two
    formulas, which give 0 and 0.8 there. *)
Lemma tolerance_score_at_edge m :
  Qabs (u - m) == u * 0.1 ->
  tolerance_score u m == 0 \/ tolerance_score u m == 0.8.
Proof.
  intros H. destruct (float_le ext (Qabs (u - m)) (u * 0.1)) eqn:E.
  - left. rewrite (tolerance_score_inner _ E).
    pose proof (Qdiv_le_1 (Qabs (u - m)) (u * 0.1) ltac:(lra) ltac:(lra)).
    pose proof (Qdiv_ge_1 (Qabs (u - m)) (u * 0.1) ltac:(lra) ltac:(lra)).
    lra.
  - right. rewrite (tolerance_score_outer _ E).
    assert (Qabs (u - m) / (0.5 * u) == u * 0.1 / (0.5 * u)) as Hq
      by (apply Qdiv_comp; [exact H|reflexivity]).
    assert (u * 0.1 / (0.5 * u) == 0.2) as Hfifth by (field; lra).
    destruct (Qmax_spec 0 (1 - Qabs (u - m) / (0.5 * u))) as [[? ->]|[? ->]];
      lra.
Qed.

Lemma tolerance_score_identical m : m == u -> tolerance_score u m == 1.
Proof.
  intros Hm.
  assert (Qabs (u - m) == 0) as Hd.
  { rewrite Hm. assert (u - u == 0) as -> by ring. reflexivity. }
  rewrite tolerance_score_in_band by (rewrite Hd; lra).
  rewrite Hd. unfold Qdiv. ring.
Qed.

Lemma tolerance_score_range m : 0 <= tolerance_score u m <= 1.
Proof.
  pose proof (Qabs_nonneg (u - m)) as Hd.
  destruct (float_le ext (Qabs (u - m)) (u * 0.1)) eqn:E.
  - rewrite (tolerance_score_inner _ E). apply float_le_true in E.
    pose proof (Qdiv_nonneg (Qabs (u - m)) (u * 0.1) Hd ltac:(lra)).
    pose proof (Qdiv_le_1 (Qabs (u - m)) (u * 0.1) ltac:(lra) E).
    lra.
  - rewrite (tolerance_score_outer _ E).
    pose proof (Qdiv_nonneg (Qabs (u - m)) (0.5 * u) Hd ltac:(lra)).
    destruct (Qmax_spec 0 (1 - Qabs (u - m) / (0.5 * u))) as [[? ->]|[? ->]];
      lra.
Qed.

(** Beyond the band the score does not increase with the difference. *)
Lemma tolerance_score_beyond_band_monotone m m' :
  u * 0.1 < Qabs (u - m) ->
  Qabs (u - m) <= Qabs (u - m') ->
  tolerance_score u m' <= tolerance_score u m.
Proof.
  intros Hout Hle.
  rewrite (tolerance_score_beyond_band _ Hout).
  rewrite (tolerance_score_beyond_band m') by lra.
  pose proof (Qdiv_le_mono _ _ (0.5 * u) ltac:(lra) Hle).
  destruct (Qmax_spec 0 (1 - Qabs (u - m) / (0.5 * u))) as [[? ->]|[? ->]];
    destruct (Qmax_spec 0 (1 - Qabs (u - m') / (0.5 * u)))
      as [[? ->]|[? ->]]; lra.
Qed.

(** It decreases strictly as long as the smaller difference is below half
    the query price, where the floor at 0 is reached. *)
Lemma tolerance_score_beyond_band_strict m m' :
  u * 0.1 < Qabs (u - m) ->
  Qabs (u - m) < Qabs (u - m') ->
  Qabs (u - m) < 0.5 * u ->
  tolerance_score u m' < tolerance_score u m.
Proof.
  intros Hout Hlt Hhalf.
  rewrite (tolerance_score_beyond_band _ Hout).
  rewrite (tolerance_score_beyond_band m') by lra.
  pose proof (Qdiv_lt_mono _ _ (0.5 * u) ltac:(lra) Hlt).
  pose proof (Qdiv_lt_1 _ (0.5 * u) ltac:(lra) Hhalf).
  destruct (Qmax_spec 0 (1 - Qabs (u - m) / (0.5 * u))) as [[? ->]|[? ->]];
    destruct (Qmax_spec 0 (1 - Qabs (u - m') / (0.5 * u)))
      as [[? ->]|[? ->]]; lra.
Qed.

(** From half the query price on, the score is 0. *)
Lemma tolerance_score_floor m :
  0.5 * u <= Qabs (u - m) -> tolerance_score u m == 0.
Proof.
  intros Hfar.
  rewrite tolerance_score_beyond_band by lra.
  pose proof (Qdiv_ge_1 _ (0.5 * u) ltac:(lra) Hfar).
  destruct (Qmax_spec 0 (1 - Qabs (u - m) / (0.5 * u))) as [[? ->]|[? ->]];
    lra.
Qed.

End Score.

End PriceTolerance.

Section PriceToleranceClaim.
Import AdvancedMatchingService.

(** C5 (as the code has it).  For parseable positive prices the score is
    1 when the prices are identical, is never negative, is
    [1 - diff/tolerance] strictly inside the band of 10% of the query
    price and [max(0, 1 - diff/(0.5 * query price))] strictly beyond it;
    at the very edge of the band the rounding of the two floats decides
    between the two formulas, and the score is 0 or 0.8.  Beyond the band
    it never increases with the difference; it decreases strictly only
    while the smaller difference is below half the query price, and is 0
    from there on. *)
Theorem price_tolerance_profile ext user_params match_params match_params'
  u m m' :
  stated_price user_params = Some u ->
  stated_price match_params = Some m ->
  stated_price match_params' = Some m' ->
  0 < u -> 0 < m -> 0 < m' ->
  let score := _calculate_price_tolerance ext user_params match_params in
  let score' := _calculate_price_tolerance ext user_params match_params' in
  let diff := Qabs (u - m) in
  let diff' := Qabs (u - m') in
  let tolerance := u * 0.1 in
  (m == u -> score == 1) /\
  0 <= score /\
  (diff < tolerance -> score == 1 - diff / tolerance) /\
  (diff == tolerance -> score == 0 \/ score == 0.8) /\
  (tolerance < diff -> score == Qmax 0 (1 - diff / (0.5 * u))) /\
  (tolerance < diff -> diff <= diff' -> score' <= score) /\
  (tolerance < diff -> diff < diff' -> diff < 0.5 * u -> score' < score) /\
  (0.5 * u <= diff -> diff <= diff' -> score == 0 /\ score' == 0).
Proof.
  intros Hu Hm Hm' Hupos Hmpos Hm'pos. cbv zeta.
  rewrite (price_tolerance_of_parsed ext _ _ _ _ Hu Hm Hupos Hmpos).
  rewrite (price_tolerance_of_parsed ext _ _ _ _ Hu Hm' Hupos Hm'pos).
  split; [|split; [|split; [|split; [|split; [|split; [|split]]]]]].
  - now apply tolerance_score_identical.
  - now apply tolerance_score_range.
  - now apply tolerance_score_in_band.
  - now apply tolerance_score_at_edge.
  - now apply tolerance_score_beyond_band.
  - now apply tolerance_score_beyond_band_monotone.
  - now apply tolerance_score_beyond_band_strict.
  - intros Hfar Hle.
    split; apply tolerance_score_floor; try exact Hupos; lra.
Qed.

Definition budget_100 : gmap string pyval := {[ "budget" := VStr "100" ]}.
Definition price_200 : gmap string pyval := {[ "price" := VStr "200" ]}.
Definition price_300 : gmap string pyval := {[ "price" := VStr "300" ]}.

Lemma price_tolerance_profile_witness :
  stated_price budget_100 = Some 100 /\
  stated_price price_200 = Some 200 /\
  stated_price price_300 = Some 300 /\
  0 <= _calculate_price_tolerance (Sample.libraries true (Raise APIError))
         budget_100 price_200.
Proof.
  assert (stated_price budget_100 = Some 100) as Hu
    by (vm_compute; reflexivity).
  assert (stated_price price_200 = Some 200) as Hm
    by (vm_compute; reflexivity).
  assert (stated_price price_300 = Some 300) as Hm'
    by (vm_compute; reflexivity).
  repeat split; try assumption.
  exact (proj1 (proj2
    (price_tolerance_profile (Sample.libraries true (Raise APIError))
       budget_100 price_200 price_300 100 200 300
       Hu Hm Hm' ltac:(reflexivity) ltac:(reflexivity) ltac:(reflexivity)))).
Defined.

(** Against a query price of 100 (band: 10), a candidate at 200 and one
    at 300 are both past the band, the second further away, and both score
    0: the score has not decreased. *)
Lemma price_tolerance_not_strictly_decreasing :
  stated_price budget_100 = Some 100 /\
  stated_price price_200 = Some 200 /\
  stated_price price_300 = Some 300 /\
  100 * 0.1 < Qabs (100 - 200) /\
  Qabs (100 - 200) < Qabs (100 - 300) /\
  ~ (_calculate_price_tolerance (Sample.libraries true (Raise APIError))
       budget_100 price_300
     < _calculate_price_tolerance (Sample.libraries true (Raise APIError))
         budget_100 price_200).
Proof.
  repeat split; try (vm_compute; reflexivity).
  vm_compute. discriminate.
Qed.

(** The libraries [ext] with another rounding at the ties. *)
Definition with_tie (tie : Q -> Q -> bool) (ext : externals) : externals :=
  {| numpy_available := numpy_available ext; sqrt := sqrt ext;
     py_float := py_float ext; haversine := haversine ext;
     text_similarity_row := text_similarity_row ext;
     price_compatibility := price_compatibility ext;
     temporal_compatibility := temporal_compatibility ext;
     get_supabase := get_supabase ext; le_at_tie := tie |}.

Definition budget_7 : gmap string pyval := {[ "budget" := VStr "7" ]}.
Definition price_7_7 : gmap string pyval := {[ "price" := VStr "7.7" ]}.

(** A query price of 7 against 7.7 is at the edge of the band.  Where the
    comparison of the two floats fails, as it does for these two prices
    (7.7 - 7 is 0.7000000000000002 and 7 * 0.1 is 0.7000000000000001), the
    score is 0.8; where it succeeds it is 0. *)
Example price_tolerance_band_edge :
  stated_price budget_7 = Some 7 /\
  stated_price price_7_7 = Some 7.7 /\
  Qabs (7 - 7.7) == 7 * 0.1 /\
  _calculate_price_tolerance
    (with_tie (fun _ _ => false) (Sample.libraries true (Raise APIError)))
    budget_7 price_7_7 == 0.8 /\
  _calculate_price_tolerance
    (with_tie (fun _ _ => true) (Sample.libraries true (Raise APIError)))
    budget_7 price_7_7 == 0.
Proof. repeat split; vm_compute; reflexivity. Qed.

End PriceToleranceClaim.

(** ** The basic strategy *)

Section Basic.
Import MatchingService.
Context (ext : externals).

Abbreviation list_truthy := AdvancedMatchingService.list_truthy.

(** The similarity the loop assigns to a candidate: the cosine of the two
    embeddings when both sides have one, the default 0.5 otherwise. *)
Definition basic_similarity (user_embedding : option (list Q))
  (match_ : intent) : pyresult Q :=
  if list_truthy user_embedding
     && list_truthy (embedding_with_fallback match_)
  then EmbeddingService.compute_similarity ext
         (default [] user_embedding)
         (default [] (embedding_with_fallback match_))
  else Ok 0.5.

(** The combined score of a candidate whose similarity is [s]. *)
Definition basic_combined (s : Q) (user_location_name : option string)
  (match_ : intent) : Q :=
  s * 0.7
  + fst (location_score_km user_location_name (location_name match_)) * 0.3.

(** The entry built for a candidate whose similarity is [s]. *)
Definition basic_entry (s : Q) (user_location_name : option string)
  (match_ : intent) : match_result :=
  {| r_intent_id := intent_id match_;
     r_user_name := default "Unknown" (users match_);
     r_location_name := location_name match_;
     r_raw_query := raw_query match_;
     r_category := category match_;
     r_post_type := post_type match_;
     similarity := round3 s;
     distance_km :=
       round2 (snd (location_score_km user_location_name
                      (location_name match_)));
     combined_score := round3 (basic_combined s user_location_name match_);
     r_created_at := created_at match_ |}.

(** A candidate is returned exactly when its scoring does not raise and
    its combined score exceeds 0.3. *)
Lemma basic_score_candidate_Some user_embedding user_location_name match_ r :
  score_candidate ext user_embedding user_location_name match_ = Some r <->
  exists s,
    basic_similarity user_embedding match_ = Ok s /\
    0.3 < basic_combined s user_location_name match_ /\
    r = basic_entry s user_location_name match_.
Proof.
  unfold score_candidate, basic_similarity, basic_entry, basic_combined.
  destruct (if list_truthy user_embedding
               && list_truthy (embedding_with_fallback match_)
            then _ else _) as [s|e]; simpl.
  - destruct (location_score_km user_location_name (location_name match_))
      as [location_score distance_km_]. simpl.
    destruct (Qle_bool (s * 0.7 + location_score * 0.3) 0.3) eqn:E; simpl.
    + split; [discriminate|]. intros (s' & [= <-] & Hlt & _).
      apply Qle_bool_iff in E. lra.
    + apply Qle_bool_false in E. split.
      * intros [= <-]. exists s. auto.
      * intros (s' & [= <-] & _ & ->). reflexivity.
  - split; [discriminate|]. intros (s' & Hs & _). discriminate.
Qed.

(** The pool the strategy ranks. *)
Definition basic_pool (supabase : Client) (intent_data : intent)
  : list intent :=
  match
    execute supabase
      [FEq "post_type" (opposite_post_type intent_data);
       FEq "category" (category intent_data); FActive]
  with
  | Ok data => data
  | Raise _ => []
  end.

Lemma find_matches_ranked intent_data :
  find_matches ext intent_data =
  supabase ← get_supabase ext;
  Ok (firstn 10
        (sort_desc combined_score
           (omap (score_candidate ext (embedding_with_fallback intent_data)
                    (location_name intent_data))
              (basic_pool supabase intent_data)))).
Proof.
  unfold find_matches, basic_pool.
  destruct (get_supabase ext) as [supabase|e]; simpl; [|reflexivity].
  destruct (execute supabase _) as [[|m data]|e]; reflexivity.
Qed.

(** Two location names that are neither empty, nor equal, nor contained
    in one another, letter case apart. *)
Definition unrelated (u m : string) : Prop :=
  Str.nonempty u = true /\ Str.nonempty m = true /\
  String.eqb (Str.lower u) (Str.lower m) = false /\
  Str.contains (Str.lower u) (Str.lower m) = false /\
  Str.contains (Str.lower m) (Str.lower u) = false.

Lemma location_score_km_unrelated u m :
  unrelated u m -> location_score_km (Some u) (Some m) = (0.2, 20.0).
Proof.
  intros (Hu & Hm & Hne & Hum & Hmu). unfold location_score_km. simpl.
  now rewrite Hu, Hm, Hne, Hum, Hmu.
Qed.

(** Without an embedding on one of the two sides the similarity is the
    default, whatever the texts. *)
Lemma basic_similarity_default user_embedding match_ :
  list_truthy user_embedding && list_truthy (embedding_with_fallback match_)
  = false ->
  basic_similarity user_embedding match_ = Ok 0.5.
Proof. unfold basic_similarity. now intros ->. Qed.

(** A candidate the loop accepts is in the returned list when the fetched
    pool holds at most 10 candidates, so that the cut to the 10 best
    drops nothing. *)
Lemma basic_accepted_is_returned intent_data supabase match_ r :
  get_supabase ext = Ok supabase ->
  In match_ (basic_pool supabase intent_data) ->
  (length (basic_pool supabase intent_data) <= 10)%nat ->
  score_candidate ext (embedding_with_fallback intent_data)
    (location_name intent_data) match_ = Some r ->
  exists results,
    find_matches ext intent_data = Ok results /\ In r results.
Proof.
  intros Hclient Hin Hlen Hr.
  rewrite find_matches_ranked, Hclient. cbn [mbind pyresult_bind].
  eexists. split; [reflexivity|].
  rewrite firstn_all2.
  - apply sort_desc_In, list_elem_of_In, list_elem_of_omap.
    exists match_. split; [now apply list_elem_of_In|exact Hr].
  - rewrite sort_desc_length.
    etransitivity; [apply omap_length_le|exact Hlen].
Qed.

(** C7 (as the code has it).  For unrelated location names the location
    score is 0.2 and the combined score is 0.7·similarity + 0.06, so the
    candidate is rejected exactly when its similarity is at most 12/35.
    When one of the two sides has no embedding the similarity is the
    default 0.5, the combined score is 0.41, and the candidate is
    accepted by the loop; it is then in the list the strategy returns,
    with the combined score 0.41, whenever the fetched pool holds at most
    10 candidates (the list is cut to the 10 best). *)
Theorem basic_unrelated_locations intent_data u match_ m :
  location_name intent_data = Some u ->
  location_name match_ = Some m ->
  unrelated u m ->
  let user_embedding := embedding_with_fallback intent_data in
  (forall s,
      basic_similarity user_embedding match_ = Ok s ->
      basic_combined s (Some u) match_ == 0.7 * s + 0.06 /\
      (score_candidate ext user_embedding (Some u) match_ = None
       <-> s <= 12 # 35)) /\
  (list_truthy user_embedding && list_truthy (embedding_with_fallback match_)
   = false ->
   (exists r,
       score_candidate ext user_embedding (Some u) match_ = Some r /\
       r_intent_id r = intent_id match_ /\
       combined_score r == 0.41) /\
   (forall supabase,
       get_supabase ext = Ok supabase ->
       In match_ (basic_pool supabase intent_data) ->
       (length (basic_pool supabase intent_data) <= 10)%nat ->
       exists results r,
         find_matches ext intent_data = Ok results /\
         In r results /\
         r_intent_id r = intent_id match_ /\
         combined_score r == 0.41)).
Proof.
  intros Hu Hm Hun. cbv zeta.
  set (user_embedding := embedding_with_fallback intent_data).
  assert (forall s, basic_combined s (Some u) match_ == 0.7 * s + 0.06)
    as Hcombined.
  { intros s. unfold basic_combined.
    rewrite Hm, (location_score_km_unrelated _ _ Hun). simpl. ring. }
  split.
  - intros s Hs. split; [apply Hcombined|].
    destruct (score_candidate ext user_embedding (Some u) match_)
      as [r|] eqn:E.
    + apply basic_score_candidate_Some in E
        as (s' & Hs' & Hlt & _). rewrite Hs in Hs'. injection Hs' as <-.
      rewrite Hcombined in Hlt. split; [discriminate|]. intros Hle. lra.
    + split; [|reflexivity]. intros _.
      destruct (Qlt_le_dec (12 # 35) s) as [Hgt|Hle]; [|exact Hle].
      exfalso.
      assert (exists r,
                 score_candidate ext user_embedding (Some u) match_ = Some r)
        as [r Hr].
      { eexists. apply basic_score_candidate_Some. exists s.
        split; [exact Hs|]. split; [rewrite Hcombined; lra|reflexivity]. }
      congruence.
  - intros Hnone. apply basic_similarity_default in Hnone.
    assert (score_candidate ext user_embedding (Some u) match_
            = Some (basic_entry 0.5 (Some u) match_)) as Hkept.
    { apply basic_score_candidate_Some. exists 0.5.
      split; [exact Hnone|]. split; [rewrite Hcombined; lra|reflexivity]. }
    assert (combined_score (basic_entry 0.5 (Some u) match_) == 0.41)
      as Hscore.
    { simpl. unfold basic_combined.
      rewrite Hm, (location_score_km_unrelated _ _ Hun). reflexivity. }
    split.
    + exists (basic_entry 0.5 (Some u) match_). auto.
    + intros supabase Hclient Hin Hlen.
      destruct (basic_accepted_is_returned intent_data supabase match_
                  (basic_entry 0.5 (Some u) match_) Hclient Hin Hlen)
        as (results & Hresults & Hr).
      { rewrite Hu. exact Hkept. }
      exists results, (basic_entry 0.5 (Some u) match_). auto.
Qed.

End Basic.

Section BasicClaims.
Import MatchingService Sample.

Abbreviation list_truthy := AdvancedMatchingService.list_truthy.

Lemma mumbai_chennai_unrelated : unrelated "Mumbai" "Chennai".
Proof. repeat split. Qed.

Lemma basic_unrelated_locations_witness :
  location_name demand_mumbai = Some "Mumbai" /\
  location_name supply_chennai = Some "Chennai" /\
  unrelated "Mumbai" "Chennai" /\
  exists results r,
    find_matches (libraries true (Ok (serving [supply_chennai])))
      demand_mumbai = Ok results /\
    In r results /\
    r_intent_id r = "i5" /\
    combined_score r == 0.41.
Proof.
  split; [reflexivity|]. split; [reflexivity|].
  split; [exact mumbai_chennai_unrelated|].
  refine (proj2
    (proj2
       (basic_unrelated_locations
          (libraries true (Ok (serving [supply_chennai]))) demand_mumbai
          "Mumbai" supply_chennai "Chennai" eq_refl eq_refl
          mumbai_chennai_unrelated)
       eq_refl)
    (serving [supply_chennai]) eq_refl _ _).
  - left. reflexivity.
  - simpl. lia.
Defined.

(** The entry returned for [demand_mumbai] over the pool
    [[supply_chennai]]. *)
Definition sample_basic_entry : match_result :=
  {| r_intent_id := "i5"; r_user_name := "Asha";
     r_location_name := Some "Chennai"; r_raw_query := "Selling bicycle";
     r_category := "product"; r_post_type := "supply";
     similarity := 0.500; distance_km := 20.00; combined_score := 0.410;
     r_created_at := "2025-01-21T00:00:00Z" |}.

(** A demand in Mumbai and a supply in Chennai, neither with an embedding,
    their texts without a common word: the supply is returned, with the
    combined score 0.41, above the threshold 0.30. *)
Lemma basic_returns_unrelated_candidate :
  unrelated "Mumbai" "Chennai" /\
  MLMatchingService.query_similarity (raw_query demand_mumbai)
    (raw_query supply_chennai) == 0 /\
  embedding_with_fallback demand_mumbai = None /\
  embedding_with_fallback supply_chennai = None /\
  find_matches (libraries true (Ok (serving [supply_chennai]))) demand_mumbai
  = Ok [sample_basic_entry] /\
  ~ (combined_score sample_basic_entry <= 0.3).
Proof.
  split; [exact mumbai_chennai_unrelated|].
  repeat split; try (vm_compute; reflexivity).
  vm_compute. intros H. apply H. reflexivity.
Qed.

(** A candidate without an embedding is returned whatever its location
    and its owner: its combined score is at least
    0.7·0.5 + 0.3·0.2 = 0.41. *)
Lemma basic_keeps_candidate_without_embedding ext user_embedding
  user_location_name match_ :
  list_truthy (embedding_with_fallback match_) = false ->
  score_candidate ext user_embedding user_location_name match_
  = Some (basic_entry 0.5 user_location_name match_).
Proof.
  intros Hnone. apply basic_score_candidate_Some. exists 0.5.
  split; [|split; [|reflexivity]].
  - apply basic_similarity_default. rewrite Hnone. apply andb_false_r.
  - unfold basic_combined, location_score_km.
    repeat match goal with
           | |- context [match ?o with Some _ => _ | None => _ end] =>
               destruct o
           | |- context [if ?b then _ else _] => destruct b
           end; reflexivity.
Qed.

(** C1.  The basic strategy does not leave out the query's owner: a
    candidate of the fetched pool that belongs to the owner of the query
    intent and has no embedding is returned like any other (here for a
    pool of at most 10 candidates, so that the cut to the first 10 drops
    nothing). *)
Theorem basic_returns_owner_candidate ext intent_data supabase pool match_ :
  get_supabase ext = Ok supabase ->
  execute supabase
    [FEq "post_type" (opposite_post_type intent_data);
     FEq "category" (category intent_data); FActive] = Ok pool ->
  (length pool <= 10)%nat ->
  In match_ pool ->
  user_id match_ = user_id intent_data ->
  list_truthy (embedding_with_fallback match_) = false ->
  exists results r,
    find_matches ext intent_data = Ok results /\
    In r results /\
    r_intent_id r = intent_id match_.
Proof.
  intros Hclient Hpool Hlen Hin _ Hnone.
  rewrite find_matches_ranked, Hclient. unfold mbind, pyresult_bind.
  unfold basic_pool. rewrite Hpool.
  set (accepted :=
         omap (score_candidate ext (embedding_with_fallback intent_data)
                 (location_name intent_data)) pool).
  assert (length accepted <= 10)%nat as Haccepted.
  { subst accepted. etransitivity; [apply omap_length_le|exact Hlen]. }
  eexists. exists (basic_entry 0.5 (location_name intent_data) match_).
  split; [reflexivity|]. split; [|reflexivity].
  rewrite firstn_all2 by (rewrite sort_desc_length; exact Haccepted).
  apply sort_desc_In, list_elem_of_In, list_elem_of_omap.
  exists match_. split; [now apply list_elem_of_In|].
  now apply basic_keeps_candidate_without_embedding.
Qed.

Lemma basic_returns_owner_candidate_witness :
  get_supabase (libraries true (Ok (serving [supply_u2; supply_u1])))
  = Ok (serving [supply_u2; supply_u1]) /\
  user_id supply_u1 = user_id demand_u1 /\
  list_truthy (embedding_with_fallback supply_u1) = false /\
  exists results r,
    find_matches (libraries true (Ok (serving [supply_u2; supply_u1])))
      demand_u1 = Ok results /\
    In r results /\
    r_intent_id r = "i3".
Proof.
  split; [reflexivity|]. split; [reflexivity|]. split; [reflexivity|].
  apply (basic_returns_owner_candidate
           (libraries true (Ok (serving [supply_u2; supply_u1]))) demand_u1
           (serving [supply_u2; supply_u1]) [supply_u2; supply_u1] supply_u1);
    try reflexivity.
  - simpl. lia.
  - simpl. auto.
Defined.

(** On that pool the basic strategy returns both supplies, the one of the
    query's owner included. *)
Example basic_sample_ranking :
  map r_intent_id
    <$> find_matches (libraries true (Ok (serving [supply_u2; supply_u1])))
          demand_u1
  = Ok ["i2"; "i3"].
Proof. vm_compute. reflexivity. Qed.

End BasicClaims.

(** ** The ML-feature strategy: location scores *)

Section MLLocation.
Import MLMatchingService.

(** What the loop of [_compute_location_scores] assigns to a pair of
    lower-cased names, case by case. *)
Definition location_cases (u m : string) (score : Q) : Prop :=
  (u = m -> score = 1.0) /\
  (u <> m -> forall g,
     find_group u = Some g -> find_group m = Some g -> score = 0.8) /\
  (u <> m -> forall g,
     find_group u = Some g -> find_group m <> Some g -> score = 0.3) /\
  (u <> m -> find_group u = None -> score = 0.4) /\
  In score [1.0; 0.8; 0.3; 0.4] /\
  ~ score == 0.6 /\ ~ score == 0.5 /\ ~ score == 0.2.

Lemma location_score_of_cases u m :
  location_cases u m (location_score_of u (find_group u) m).
Proof.
  unfold location_cases, location_score_of.
  destruct (String.eqb u m) eqn:E.
  - apply String.eqb_eq in E.
    repeat split; try (intros; congruence); try (simpl; tauto);
      intros H; vm_compute in H; discriminate.
  - apply String.eqb_neq in E.
    destruct (find_group u) as [g|].
    + case_bool_decide as Hg;
        repeat split; try (intros; congruence); try (simpl; tauto);
        try (intros H; vm_compute in H; discriminate).
    + repeat split; try (intros; congruence); try (simpl; tauto);
        intros H; vm_compute in H; discriminate.
Qed.

(** The score of the candidate [match_] for a query at [user_name]. *)
Definition location_scored (user_name : string) (match_ : intent)
  (score : Q) : Prop :=
  exists match_name,
    location_name match_ = Some match_name /\
    location_cases (Str.lower user_name) (Str.lower match_name) score.

(** A name belongs to the group [find_group] gives it: one of the cities
    of that group occurs in the name. *)
Lemma find_group_Some name g :
  find_group name = Some g ->
  exists cities city,
    In (g, cities) city_groups /\ In city cities /\
    Str.contains city name = true.
Proof.
  unfold find_group. intros H.
  destruct (find _ city_groups) as [[g' cities]|] eqn:E; [|discriminate].
  injection H as <-. apply find_some in E as [Hin Hex].
  apply existsb_exists in Hex as (city & Hcity & Hc).
  exists cities, city. auto.
Qed.

(** When the location names of the query and of every candidate are
    present, the ML-feature strategy gives each candidate one of exactly
    four scores: 1.0 for equal lower-cased names (both empty included),
    0.8 when both fall in the same metro group, 0.3 when the query's name
    is in a group and the candidate's is not in that group, 0.4 when the
    query's name is in no group and the names differ; never 0.6, 0.5 or
    0.2. *)
Lemma ml_location_scores_four_values intent_data matches user_name :
  location_name intent_data = Some user_name ->
  Forall (fun match_ => location_name match_ <> None) matches ->
  exists scores,
    _compute_location_scores intent_data matches = Ok scores /\
    Forall2 (location_scored user_name) matches scores.
Proof.
  intros Hu Hall. unfold _compute_location_scores, lowered_location_name.
  rewrite Hu. cbn [mbind pyresult_bind].
  induction Hall as [|match_ matches Hm _ IH].
  - exists []. split; [reflexivity|constructor].
  - destruct IH as (scores & Hscores & Hforall).
    destruct (location_name match_) as [match_name|] eqn:En;
      [|contradiction].
    exists (location_score_of (Str.lower user_name)
              (find_group (Str.lower user_name)) (Str.lower match_name)
              :: scores).
    split.
    + cbn [mapM]. rewrite En. cbn [mbind pyresult_bind].
      rewrite Hscores. reflexivity.
    + constructor; [|exact Hforall].
      exists match_name. split; [exact En|apply location_score_of_cases].
Qed.

(** A null location name of the query makes the scorer raise. *)
Lemma ml_location_scores_null_query intent_data matches :
  location_name intent_data = None ->
  _compute_location_scores intent_data matches = Raise AttributeError.
Proof.
  intros H. unfold _compute_location_scores, lowered_location_name.
  now rewrite H.
Qed.

(** The group of a name, read off the table: the first group, in the
    order of the table, one of whose cities occurs in the name. *)
Lemma find_group_by_table name :
  find_group name =
  if Str.contains "bangalore" name || Str.contains "whitefield" name
     || Str.contains "electronic city" name
     || Str.contains "koramangala" name
  then Some "bangalore_metro"
  else if Str.contains "mumbai" name || Str.contains "pune" name
          || Str.contains "thane" name || Str.contains "navi mumbai" name
  then Some "mumbai_metro"
  else if Str.contains "delhi" name || Str.contains "gurgaon" name
          || Str.contains "noida" name || Str.contains "faridabad" name
  then Some "delhi_ncr"
  else if Str.contains "hyderabad" name || Str.contains "secunderabad" name
          || Str.contains "cyberabad" name
  then Some "hyderabad_metro"
  else if Str.contains "chennai" name || Str.contains "tambaram" name
          || Str.contains "velachery" name
  then Some "chennai_metro"
  else None.
Proof.
  unfold find_group, city_groups. cbn [find existsb snd fst].
  rewrite !orb_false_r, !orb_assoc.
  repeat match goal with
         | |- context [if ?b then _ else _] => destruct b
         end; reflexivity.
Qed.

(** C10.  The score is not one of four values for every query and
    candidate: a null location name, of the query or of any candidate,
    gives no score at all.  The default [''] of
    [get('location_name', '')] covers a missing key only; on the null of a
    row [.lower()] raises [AttributeError], and the scorer returns
    nothing. *)
Theorem ml_location_scores_null_name_raises intent_data matches :
  location_name intent_data = None
  \/ Exists (fun match_ => location_name match_ = None) matches ->
  _compute_location_scores intent_data matches = Raise AttributeError.
Proof.
  intros [Hq|Hm]; [now apply ml_location_scores_null_query|].
  unfold _compute_location_scores, lowered_location_name.
  destruct (location_name intent_data) as [user_name|]; [|reflexivity].
  cbn [mbind pyresult_bind].
  induction Hm as [match_ matches Hnull|match_ matches _ IH];
    rewrite mapM_cons.
  - now rewrite Hnull.
  - destruct (location_name match_); [|reflexivity].
    cbn [mbind pyresult_bind]. now rewrite IH.
Qed.

End MLLocation.

(** A demand without a location name. *)
Definition demand_nowhere : intent :=
  Sample.row "i7" (Some "u6") "demand" "Looking for iPhone 13" None None
    (Some empty_parsed).

Lemma ml_location_scores_null_name_raises_witness :
  location_name demand_nowhere = None /\
  MLMatchingService._compute_location_scores demand_nowhere
    [Sample.supply_u2] = Raise AttributeError.
Proof.
  split; [reflexivity|].
  apply ml_location_scores_null_name_raises. left. reflexivity.
Defined.

Lemma ml_location_scores_four_values_witness :
  location_name Sample.demand_u1 = Some "Whitefield" /\
  Forall (fun match_ => location_name match_ <> None)
    [Sample.supply_u2; Sample.supply_chennai] /\
  exists scores,
    MLMatchingService._compute_location_scores Sample.demand_u1
      [Sample.supply_u2; Sample.supply_chennai] = Ok scores /\
    Forall2 (location_scored "Whitefield")
      [Sample.supply_u2; Sample.supply_chennai] scores.
Proof.
  split; [reflexivity|]. split; [repeat constructor; discriminate|].
  apply ml_location_scores_four_values; [reflexivity|].
  repeat constructor; discriminate.
Defined.

Example ml_location_scores_sample :
  MLMatchingService._compute_location_scores Sample.demand_u1
    [Sample.supply_u2; Sample.supply_chennai] = Ok [1.0; 0.3].
Proof. vm_compute. reflexivity. Qed.

(** ** The ML-feature strategy: feature vectors *)

Section FeatureVector.
Import MLMatchingService.

(** The seven counts that open the vector: words, characters, question
    marks and exclamation marks of the text, then the numbers of
    keywords, locations and prices of the parsed data (0 for a missing
    list). *)
Definition feature_counts (data : intent) (parsed_ : parsed) : list Q :=
  [Qnat (length (Str.split (raw_query data))); Qnat (Str.len (raw_query data));
   Qnat (Str.count "?" (raw_query data));
   Qnat (Str.count "!" (raw_query data));
   Qnat (length (default [] (keywords parsed_)));
   Qnat (length (default [] (locations parsed_)));
   Qnat (length (default [] (prices parsed_)))].

(** The profile block: the first five entries of [user_features], or
    failing that of [business_features], copied as they are; five times
    0.5 when neither key is present. *)
Definition profile_block (parsed_ : parsed) : list Q :=
  match user_features parsed_, business_features parsed_ with
  | Some features, _ => firstn 5 features
  | None, Some features => firstn 5 features
  | None, None => repeat 0.5 5
  end.

Definition category_one_hot (data : intent) : list Q :=
  map (fun cat => if String.eqb cat (category data) then 1.0 else 0.0)
    categories.

Lemma profile_block_length parsed_ : (length (profile_block parsed_) <= 5)%nat.
Proof.
  unfold profile_block.
  destruct (user_features parsed_) as [l|];
    [|destruct (business_features parsed_) as [l|]];
    rewrite ?List.length_firstn, ?repeat_length; lia.
Qed.

(** C9 (as the code has it).  For an intent whose parsed data is an
    object, the extractor returns exactly 20 numbers: the seven counts,
    the profile block, the one-hot encoding of the category, and zeros up
    to length 20.  The profile block is five times 0.5 only when neither
    list of profile features is present; a list that is present is copied
    (at most five entries) without filling; a missing list of keywords,
    locations or prices counts 0. *)
Theorem feature_vector_layout data parsed_ :
  parsed_data data = Some parsed_ ->
  let features :=
    feature_counts data parsed_ ++ profile_block parsed_
    ++ category_one_hot data
    ++ repeat 0.0 (8 - length (profile_block parsed_)) in
  _extract_feature_vector data = Ok features /\
  length features = 20%nat /\
  (user_features parsed_ = None -> business_features parsed_ = None ->
   profile_block parsed_ = [0.5; 0.5; 0.5; 0.5; 0.5]) /\
  (keywords parsed_ = None -> nth 4 features 0.5 = 0).
Proof.
  intros Hp. cbv zeta.
  pose proof (profile_block_length parsed_) as Hlen.
  assert (length (feature_counts data parsed_ ++ profile_block parsed_
                  ++ category_one_hot data
                  ++ repeat 0.0 (8 - length (profile_block parsed_)))
          = 20%nat) as H20.
  { rewrite !length_app, repeat_length. simpl. lia. }
  split; [|split; [exact H20|split]].
  - unfold _extract_feature_vector. rewrite Hp.
    fold (profile_block parsed_). fold (category_one_hot data).
    set (block := profile_block parsed_) in *.
    set (counts := feature_counts data parsed_) in *.
    set (hot := category_one_hot data) in *.
    match goal with
    | |- Ok (firstn 20 (?X ++ _)) = _ =>
        assert (X = counts ++ block ++ hot) as ->
          by (rewrite <- !app_assoc; reflexivity)
    end.
    assert (length (counts ++ block ++ hot) = (12 + length block)%nat) as ->.
    { rewrite !length_app. subst counts hot. simpl. lia. }
    replace (20 - (12 + length block))%nat with (8 - length block)%nat
      by lia.
    rewrite <- !app_assoc. f_equal.
    rewrite <- H20 at 1. apply firstn_all.
  - unfold profile_block. now intros -> ->.
  - intros Hk. unfold feature_counts. rewrite Hk. reflexivity.
Qed.

(** A null parsed data makes the extractor raise. *)
Lemma feature_vector_null_parsed_data data :
  parsed_data data = None ->
  _extract_feature_vector data = Raise AttributeError.
Proof. unfold _extract_feature_vector. now intros ->. Qed.

End FeatureVector.

Section FeatureVectorClaims.
Import MLMatchingService Sample.

(** An intent whose parsed data has one keyword and a single profile
    feature. *)
Definition short_profile : intent :=
  row "i6" (Some "u5") "demand" "Need a tutor?" (Some "Pune") None
    (Some {| attrs := ∅; pd_embedding := None; keywords := Some ["tutor"];
             locations := None; prices := None;
             user_features := Some [0.9]; business_features := None |}).

Lemma feature_vector_layout_witness :
  parsed_data demand_mumbai = Some empty_parsed /\
  _extract_feature_vector demand_mumbai
  = Ok [3; 21; 0; 0; 0; 0; 0; 0.5; 0.5; 0.5; 0.5; 0.5;
        1.0; 0.0; 0.0; 0.0; 0.0; 0.0; 0.0; 0.0].
Proof.
  split; [reflexivity|].
  exact (proj1 (feature_vector_layout demand_mumbai empty_parsed eq_refl)).
Defined.

(** Missing fields are not all encoded as 0.5.  With no list of keywords,
    locations or prices the three counts are 0; and when only one profile
    feature is supplied the four other slots are not filled with 0.5: the
    category encoding follows at once and the vector is completed with
    zeros at its end. *)
Lemma feature_vector_missing_fields_not_neutral :
  keywords empty_parsed = None /\
  _extract_feature_vector demand_mumbai
  = Ok [3; 21; 0; 0; 0; 0; 0; 0.5; 0.5; 0.5; 0.5; 0.5;
        1.0; 0.0; 0.0; 0.0; 0.0; 0.0; 0.0; 0.0] /\
  user_features
    {| attrs := ∅; pd_embedding := None; keywords := Some ["tutor"];
       locations := None; prices := None;
       user_features := Some [0.9]; business_features := None |}
  = Some [0.9] /\
  _extract_feature_vector short_profile
  = Ok [3; 13; 1; 0; 1; 0; 0; 0.9; 1.0; 0.0; 0.0; 0.0;
        0.0; 0.0; 0.0; 0.0; 0.0; 0.0; 0.0; 0.0] /\
  (forall v, _extract_feature_vector demand_mumbai = Ok v ->
             ~ nth 4 v 0.5 == 0.5) /\
  (forall v, _extract_feature_vector short_profile = Ok v ->
             ~ nth 8 v 0.5 == 0.5 /\ ~ nth 11 v 0.5 == 0.5).
Proof.
  split; [reflexivity|]. split; [reflexivity|]. split; [reflexivity|].
  split; [reflexivity|]. split.
  - intros v Hv. vm_compute in Hv. injection Hv as <-.
    vm_compute. discriminate.
  - intros v Hv. vm_compute in Hv. injection Hv as <-.
    split; vm_compute; discriminate.
Qed.

End FeatureVectorClaims.

(** ** The strategy chain *)

Section Chain.
Import Intents.
Context (ext : externals).

(** Once the client is at hand, the basic and the ML-feature strategy
    return a list: every failure of the fetch or of the scoring is caught
    inside them.  So does the advanced strategy, unless the parsed verb
    cannot be hashed. *)
Lemma advanced_returns_with_client intent_data supabase :
  get_supabase ext = Ok supabase ->
  ~ unhashable_intent intent_data ->
  exists l,
    AdvancedMatchingService.find_advanced_matches ext intent_data = Ok l.
Proof.
  intros H Hhashable.
  destruct (AdvancedMatchingService.find_advanced_matches ext intent_data)
    as [l|e] eqn:E; [eauto|].
  apply find_advanced_matches_Raise in E as [E|(_ & Hun & _)];
    [congruence|contradiction].
Qed.

Lemma basic_returns_with_client intent_data supabase :
  get_supabase ext = Ok supabase ->
  exists l, MatchingService.find_matches ext intent_data = Ok l.
Proof. intros H. rewrite find_matches_ranked, H. eexists. reflexivity. Qed.

Lemma ml_returns_with_client intent_data supabase :
  get_supabase ext = Ok supabase ->
  exists o, MLMatchingService.find_advanced_matches ext intent_data = Ok o.
Proof.
  intros H. unfold MLMatchingService.find_advanced_matches.
  match goal with
  | |- exists o, try_except ?body _ = _ => destruct body as [o|e]
  end; simpl.
  - eexists. reflexivity.
  - unfold MLMatchingService._basic_fallback_matching.
    destruct (basic_returns_with_client intent_data _ H) as [l ->].
    eexists. reflexivity.
Qed.

(** Without the client the three strategies raise alike: the advanced and
    the basic one ask for it outside their [try] block, and the
    ML-feature one falls back to the basic one. *)
Lemma strategies_raise_without_client intent_data e :
  get_supabase ext = Raise e ->
  AdvancedMatchingService.find_advanced_matches ext intent_data = Raise e /\
  MLMatchingService.find_advanced_matches ext intent_data = Raise e /\
  MatchingService.find_matches ext intent_data = Raise e.
Proof.
  intros H.
  unfold AdvancedMatchingService.find_advanced_matches,
    MLMatchingService.find_advanced_matches,
    MLMatchingService._basic_fallback_matching,
    MatchingService.find_matches.
  rewrite H. repeat split.
Qed.

(** The order of the chain, for whatever the three strategies do. *)
Lemma fallback_order intent_data :
  find_matches_with_fallback ext intent_data =
  match AdvancedMatchingService.find_advanced_matches ext intent_data with
  | Ok l => Ok (FromAdvanced l)
  | Raise _ =>
      match MLMatchingService.find_advanced_matches ext intent_data with
      | Ok o => Ok (FromML o)
      | Raise _ => FromBasic <$> MatchingService.find_matches ext intent_data
      end
  end.
Proof.
  unfold find_matches_with_fallback.
  destruct (AdvancedMatchingService.find_advanced_matches ext intent_data);
    simpl; [reflexivity|].
  destruct (MLMatchingService.find_advanced_matches ext intent_data);
    reflexivity.
Qed.

(** With the client at hand the chain returns a list: that of the
    advanced strategy, or, when the advanced strategy raised, what the
    ML-feature strategy returns. *)
Lemma chain_with_client intent_data supabase :
  get_supabase ext = Ok supabase ->
  (exists l,
      AdvancedMatchingService.find_advanced_matches ext intent_data = Ok l /\
      find_matches_with_fallback ext intent_data = Ok (FromAdvanced l)) \/
  (exists e o,
      AdvancedMatchingService.find_advanced_matches ext intent_data = Raise e /\
      MLMatchingService.find_advanced_matches ext intent_data = Ok o /\
      find_matches_with_fallback ext intent_data = Ok (FromML o)).
Proof.
  intros H. rewrite fallback_order.
  destruct (AdvancedMatchingService.find_advanced_matches ext intent_data)
    as [l|e]; [left; eauto|].
  destruct (ml_returns_with_client intent_data _ H) as [o Ho].
  right. exists e, o. rewrite Ho. auto.
Qed.

Lemma chain_returns_with_client intent_data supabase :
  get_supabase ext = Ok supabase ->
  exists ms, find_matches_with_fallback ext intent_data = Ok ms.
Proof.
  intros H.
  destruct (chain_with_client intent_data _ H)
    as [(l & _ & Hl)|(e & o & _ & _ & Ho)]; eauto.
Qed.

(** What reaching the chain means: the lookup of the endpoint has
    succeeded, so the client is at hand. *)
Lemma fetch_intent_client intent_id_ user_id_ intent_data :
  fetch_intent ext intent_id_ user_id_ = Ok intent_data ->
  exists supabase, get_supabase ext = Ok supabase.
Proof.
  unfold fetch_intent. destruct (get_supabase ext) as [supabase|e];
    [eauto|discriminate].
Qed.

(** An entry of the advanced strategy is no valid [MatchResponse]: the
    model requires [combined_score], the entry has [composite_score]. *)
Lemma advanced_entry_rejected r :
  MatchResponse_of (advanced_entry_dict r) = Raise ValidationError.
Proof.
  unfold MatchResponse_of, advanced_entry_dict, required_str, optional_str,
    optional_float, required_float, dict_lookup, field_of_option.
  cbn [find fst snd String.eqb Ascii.eqb Bool.eqb fmap option_fmap
         option_map mbind pyresult_bind].
  destruct (AdvancedMatchingService.r_user_id r),
    (AdvancedMatchingService.r_location_name r); reflexivity.
Qed.

Lemma responses_of_advanced l :
  mapM MatchResponse_of (result_dicts (FromAdvanced l))
  = match l with [] => Ok [] | _ :: _ => Raise ValidationError end.
Proof.
  destruct l as [|r l]; [reflexivity|].
  cbn [result_dicts map]. rewrite mapM_cons, advanced_entry_rejected.
  reflexivity.
Qed.

(** C2.  The chain is as the specification has it: with the intent at
    hand, the list of the advanced strategy is taken, and when that
    strategy raises the result of the ML-feature strategy is taken
    instead.  But the caller does not receive the list: every entry of
    the advanced strategy fails the validation of the response model, so
    whenever the advanced strategy finds a match the endpoint answers
    with the HTTP error 500; of the advanced strategy it returns the
    empty list only. *)
Theorem endpoint_fails_on_advanced_entries intent_id_ user_id_ intent_data :
  fetch_intent ext intent_id_ user_id_ = Ok intent_data ->
  (forall l,
      AdvancedMatchingService.find_advanced_matches ext intent_data = Ok l ->
      find_matches_with_fallback ext intent_data = Ok (FromAdvanced l) /\
      (l <> [] ->
       get_matches_for_intent ext intent_id_ user_id_
       = Raise (HTTPException 500)) /\
      (l = [] -> get_matches_for_intent ext intent_id_ user_id_ = Ok [])) /\
  (forall e,
      AdvancedMatchingService.find_advanced_matches ext intent_data = Raise e ->
      exists o,
        MLMatchingService.find_advanced_matches ext intent_data = Ok o /\
        find_matches_with_fallback ext intent_data = Ok (FromML o)).
Proof.
  intros Hfetch.
  destruct (fetch_intent_client _ _ _ Hfetch) as [supabase Hclient].
  split.
  - intros l Hl.
    assert (find_matches_with_fallback ext intent_data = Ok (FromAdvanced l))
      as Hchain by (rewrite fallback_order, Hl; reflexivity).
    split; [exact Hchain|].
    unfold get_matches_for_intent. rewrite Hfetch.
    cbn [mbind pyresult_bind]. rewrite Hchain. cbn [mbind pyresult_bind].
    rewrite responses_of_advanced.
    split; [|intros ->; reflexivity].
    destruct l; [congruence|reflexivity].
  - intros e He.
    destruct (chain_with_client intent_data _ Hclient)
      as [(l & Hl & _)|(e' & o & _ & Ho & Hchain)]; [congruence|eauto].
Qed.

(** The endpoint, up to the binding of [matches], fails only in its own
    lookup: when the client cannot be obtained, or the intent cannot be
    read or is not found. *)
Lemma matches_for_intent_raises intent_id_ user_id_ e :
  matches_for_intent ext intent_id_ user_id_ = Raise e ->
  exists e', fetch_intent ext intent_id_ user_id_ = Raise e'.
Proof.
  intros H.
  destruct (fetch_intent ext intent_id_ user_id_) as [intent_data|e'] eqn:E;
    [|eauto].
  destruct (fetch_intent_client _ _ _ E) as [supabase Hclient].
  destruct (chain_returns_with_client intent_data _ Hclient) as [ms Hms].
  unfold matches_for_intent in H. rewrite E in H.
  cbn [mbind pyresult_bind] in H. rewrite Hms in H. discriminate.
Qed.

End Chain.

Lemma endpoint_fails_on_advanced_entries_witness :
  Intents.fetch_intent
    (Sample.libraries true
       (Ok (Sample.store Sample.demand_u1
              [Sample.supply_u2; Sample.supply_u1]))) "i1" "u1"
  = Ok Sample.demand_u1 /\
  AdvancedMatchingService.find_advanced_matches
    (Sample.libraries true
       (Ok (Sample.store Sample.demand_u1
              [Sample.supply_u2; Sample.supply_u1]))) Sample.demand_u1
  = Ok [sample_advanced_entry] /\
  Intents.get_matches_for_intent
    (Sample.libraries true
       (Ok (Sample.store Sample.demand_u1
              [Sample.supply_u2; Sample.supply_u1]))) "i1" "u1"
  = Raise (HTTPException 500).
Proof.
  assert (AdvancedMatchingService.find_advanced_matches
            (Sample.libraries true
               (Ok (Sample.store Sample.demand_u1
                      [Sample.supply_u2; Sample.supply_u1])))
            Sample.demand_u1
          = Ok [sample_advanced_entry]) as H
    by (vm_compute; reflexivity).
  split; [reflexivity|]. split; [exact H|].
  refine (proj1 (proj2
    (proj1
       (endpoint_fails_on_advanced_entries
          (Sample.libraries true
             (Ok (Sample.store Sample.demand_u1
                    [Sample.supply_u2; Sample.supply_u1])))
          "i1" "u1" Sample.demand_u1 eq_refl)
       [sample_advanced_entry] H)) _).
  discriminate.
Defined.

(** With a store whose queries for candidates all fail, the endpoint gets
    the empty list. *)
Example matches_for_intent_store_down :
  Intents.matches_for_intent
    (Sample.libraries true (Ok (Sample.failing Sample.demand_u1))) "i1" "u1"
  = Ok (Intents.FromAdvanced []).
Proof. reflexivity. Qed.

(** ** Owner blindness of the basic and ML-feature strategies *)

Section OwnerBlindness.
Context (ext : externals).

(** The same row under another owner. *)
Definition with_owner (owner : option string) (i : intent) : intent :=
  {| intent_id := intent_id i; user_id := owner; post_type := post_type i;
     category := category i; raw_query := raw_query i;
     parsed_data := parsed_data i; embedding := embedding i;
     location := location i; location_name := location_name i;
     created_at := created_at i; users := users i |}.

(** Neither strategy reads the owner of the query: its result is the same
    whoever owns the query intent, the owner of a candidate included. *)
Lemma basic_ignores_query_owner owner intent_data :
  MatchingService.find_matches ext (with_owner owner intent_data)
  = MatchingService.find_matches ext intent_data.
Proof. reflexivity. Qed.

Lemma ml_ignores_query_owner owner intent_data :
  MLMatchingService.find_advanced_matches ext (with_owner owner intent_data)
  = MLMatchingService.find_advanced_matches ext intent_data.
Proof. reflexivity. Qed.

(** Nor does the basic strategy read the owner of a candidate. *)
Lemma basic_ignores_candidate_owner owner user_embedding user_location_name
  match_ :
  MatchingService.score_candidate ext user_embedding user_location_name
    (with_owner owner match_)
  = MatchingService.score_candidate ext user_embedding user_location_name
      match_.
Proof. reflexivity. Qed.

Lemma ml_ignores_candidate_owner owner ts fs ls cs ds i match_ :
  MLMatchingService.score_entry ext ts fs ls cs ds (i, with_owner owner match_)
  = MLMatchingService.score_entry ext ts fs ls cs ds (i, match_).
Proof. reflexivity. Qed.

End OwnerBlindness.

(** Containment of one name in the other earns nothing by itself in the
    ML-feature strategy: a query at Indiranagar, a name of no group, gets
    0.4 against a candidate at "Indiranagar, Bangalore". *)
Example ml_location_substring_is_not_scored :
  MLMatchingService.location_score_of "indiranagar"
    (MLMatchingService.find_group "indiranagar") "indiranagar, bangalore"
  = 0.4.
Proof. reflexivity. Qed.

(** * Further properties of the services *)

(** ** Substrings *)

Section Substrings.

Lemma startswith_app w s : Str.startswith w (w +:+ s) = true.
Proof.
  induction w as [|a w IH]; simpl; [reflexivity|].
  now rewrite Ascii.eqb_refl, IH.
Qed.

Lemma startswith_split w s :
  Str.startswith w s = true -> exists post, s = w +:+ post.
Proof.
  revert s. induction w as [|a w IH]; intros s H.
  - exists s. reflexivity.
  - destruct s as [|b s]; [discriminate|]. simpl in H.
    apply andb_true_iff in H as [Hab H].
    apply Ascii.eqb_eq in Hab as <-.
    destruct (IH s H) as [post ->]. exists post. reflexivity.
Qed.

Lemma startswith_contains w s :
  Str.startswith w s = true -> Str.contains w s = true.
Proof. intros H. destruct s; cbn [Str.contains]; now rewrite H. Qed.

Lemma contains_app pre w post : Str.contains w (pre +:+ w +:+ post) = true.
Proof.
  induction pre as [|c pre IH].
  - change ("" +:+ w +:+ post) with (w +:+ post).
    apply startswith_contains, startswith_app.
  - change (String c pre +:+ w +:+ post)
      with (String c (pre +:+ w +:+ post)).
    cbn [Str.contains]. rewrite IH. apply orb_true_r.
Qed.

Lemma contains_split w s :
  Str.contains w s = true -> exists pre post, s = pre +:+ w +:+ post.
Proof.
  induction s as [|c s IH]; cbn [Str.contains]; intros H.
  - rewrite orb_false_r in H. apply startswith_split in H as [post ->].
    exists "", post. reflexivity.
  - apply orb_true_iff in H as [H|H].
    + apply startswith_split in H as [post ->]. exists "", post. reflexivity.
    + destruct (IH H) as (pre & post & ->).
      exists (String c pre), post. reflexivity.
Qed.

Lemma append_assoc (a b c : string) : (a +:+ b) +:+ c = a +:+ b +:+ c.
Proof.
  induction a as [|x a IH]; [reflexivity|].
  change (String x ((a +:+ b) +:+ c) = String x (a +:+ b +:+ c)).
  now f_equal.
Qed.

(** [a in b] and [b in c] give [a in c]. *)
Lemma contains_trans a b c :
  Str.contains a b = true -> Str.contains b c = true ->
  Str.contains a c = true.
Proof.
  intros Hab Hbc.
  apply contains_split in Hab as (p & q & ->).
  apply contains_split in Hbc as (p' & q' & ->).
  replace (p' +:+ (p +:+ a +:+ q) +:+ q')
    with ((p' +:+ p) +:+ a +:+ (q +:+ q')).
  - apply contains_app.
  - now rewrite !append_assoc.
Qed.

Lemma contains_refl s : Str.contains s s = true.
Proof.
  pose proof (contains_app "" s "") as H. simpl in H.
  replace (s +:+ "") with s in H; [exact H|].
  clear H. induction s as [|c s IH]; [reflexivity|].
  change (String c s = String c (s +:+ "")). now f_equal.
Qed.

End Substrings.

(** ** Intent verbs of the advanced strategy *)

Section IntentVerbs.
Import AdvancedMatchingService.

(** The verb read off a text is one of five. *)
Lemma extract_intent_among query :
  In (_extract_intent_from_query query)
    ["buy"; "sell"; "rent"; "looking"; "offering"].
Proof.
  unfold _extract_intent_from_query. cbv zeta.
  set (q := Str.lower query). cbn [find fst snd].
  destruct (existsb _ ("buy" :: _)); [simpl; auto 10|].
  destruct (existsb _ ("sell" :: _)); [simpl; auto 10|].
  destruct (existsb _ ("rent" :: _)) eqn:Hrent; [simpl; auto 10|].
  cbn [existsb] in Hrent. apply orb_false_iff in Hrent as [Hrent _].
  destruct (existsb _ ("rent out" :: _)) eqn:Hout.
  - exfalso. cbn [existsb] in Hout.
    assert (forall k, Str.contains "rent" k = true ->
                      Str.contains k q = true -> False) as Hno.
    { intros k Hk Hq. rewrite (contains_trans _ _ _ Hk Hq) in Hrent.
      discriminate. }
    repeat (apply orb_true_iff in Hout as [Hout|Hout];
            [eapply Hno; [|exact Hout]; reflexivity|]).
    discriminate.
  - destruct (existsb _ ("looking" :: _)); [simpl; auto 10|].
    destruct (existsb _ ("offering" :: _)); simpl; auto 10.
Qed.

(** X1.  The entry [rent_out] of the keyword table can never be chosen, since
    each of its keywords contains the keyword [rent] of an earlier entry;
    so the opposite of a verb read off a text is never [rent]. *)
Theorem extract_intent_never_rent_out query :
  _extract_intent_from_query query <> "rent_out" /\
  invert_intent (VStr (_extract_intent_from_query query)) <> VStr "rent".
Proof.
  pose proof (extract_intent_among query) as Hin. simpl in Hin.
  destruct Hin as [<-|[<-|[<-|[<-|[<-|[]]]]]]; split; discriminate.
Qed.

(** X2.  The inversion table is its own inverse: inverting a verb twice gives
    the verb back, and a verb outside the table is left alone. *)
Theorem invert_intent_involutive v : invert_intent (invert_intent v) = v.
Proof.
  destruct v as [|s|z|truth text]; try reflexivity.
  unfold invert_intent at 2. unfold INTENT_INVERSIONS. cbn [find fst snd].
  repeat match goal with
         | |- context [String.eqb ?k s] =>
             let E := fresh "E" in
             destruct (String.eqb k s) eqn:E;
             [apply String.eqb_eq in E; subst s; reflexivity|]
         end.
  unfold invert_intent, INTENT_INVERSIONS. cbn [find fst snd].
  repeat match goal with
         | H : String.eqb ?k s = false |- _ => rewrite H; clear H
         end.
  reflexivity.
Qed.

(** X3.  The parameters of an intent always carry a verb, so the query of the
    advanced strategy always restricts the candidates by the opposite
    verb. *)
Theorem advanced_query_has_opposite_intent intent_data :
  let parsed_params := _extract_parameters intent_data in
  let opposite_intent := invert_intent (dict_get parsed_params "intent") in
  truthy (dict_get parsed_params "intent") = true /\
  truthy opposite_intent = true /\
  In (FOr ("raw_query.ilike.%" +:+ py_str opposite_intent
           +:+ "%,parsed_data->>intent.eq." +:+ py_str opposite_intent))
    (build_query parsed_params opposite_intent).
Proof.
  cbv zeta.
  assert (truthy (dict_get (_extract_parameters intent_data) "intent") = true)
    as Hverb.
  { unfold _extract_parameters, dict_get at 1.
    rewrite lookup_insert_ne by discriminate.
    rewrite lookup_insert_ne by discriminate.
    rewrite lookup_insert_eq. simpl. unfold py_or.
    destruct (truthy (dict_get _ "intent")) eqn:E; [exact E|].
    pose proof (extract_intent_among (raw_query intent_data)) as Hin.
    simpl in Hin.
    destruct Hin as [<-|[<-|[<-|[<-|[<-|[]]]]]]; reflexivity. }
  assert (truthy (invert_intent
                    (dict_get (_extract_parameters intent_data) "intent"))
          = true) as Hopposite.
  { destruct (dict_get (_extract_parameters intent_data) "intent")
      as [|s|z|truth text]; try exact Hverb.
    unfold invert_intent, INTENT_INVERSIONS. cbn [find fst snd].
    repeat match goal with
           | |- context [String.eqb ?k s] => destruct (String.eqb k s)
           end; try reflexivity. exact Hverb. }
  split; [exact Hverb|]. split; [exact Hopposite|].
  unfold build_query. rewrite Hopposite.
  apply in_or_app. right. apply in_or_app. right. left. reflexivity.
Qed.

End IntentVerbs.

(** ** Location scores of the advanced strategy *)

Section AdvancedLocation.
Import AdvancedMatchingService.
Context (ext : externals).

Lemma location_score_range user_name match_name user_coords match_coords :
  0 <= _calculate_location_score ext user_name match_name user_coords
         match_coords <= 1.
Proof.
  unfold _calculate_location_score.
  repeat match goal with
         | |- context [if ?b then _ else _] => destruct b
         end; split; vm_compute; discriminate.
Qed.

(** A geometry text without the marker ["POINT("] cannot be read. *)
Lemma find_point_needs_marker s :
  Str.contains "POINT(" s = false -> find_point s = None.
Proof.
  induction s as [|c r IH]; [reflexivity|].
  cbn [Str.contains find_point]. intros H.
  apply orb_false_iff in H as [Hstart Hrest].
  rewrite Hstart. now apply IH.
Qed.

(** X9.  When both intents carry a geometry text and one of the two texts
    lacks the marker ["POINT("] (as a binary geometry dump does), the
    distance is the default 50 km and the location score is 0.5, whatever
    the location names, equal names included. *)
Theorem unreadable_geometry_scores_half user_name match_name uc mc :
  Str.nonempty uc = true ->
  Str.nonempty mc = true ->
  Str.contains "POINT(" uc = false \/ Str.contains "POINT(" mc = false ->
  _calculate_distance ext uc mc = 50 /\
  _calculate_location_score ext user_name match_name (Some uc) (Some mc)
  = 0.5.
Proof.
  intros Hu Hm Hbad.
  assert (_calculate_distance ext uc mc = 50) as Hd.
  { unfold _calculate_distance. destruct Hbad as [H|H];
      rewrite (find_point_needs_marker _ H); [reflexivity|].
    now destruct (find_point uc). }
  split; [exact Hd|].
  unfold _calculate_location_score. simpl. rewrite Hu, Hm. simpl.
  rewrite Hd. reflexivity.
Qed.

(** X10.  In coordinate mode the score never increases with the distance. *)
Theorem coordinate_score_monotone user_name match_name match_name' uc mc mc' :
  Str.nonempty uc = true ->
  Str.nonempty mc = true ->
  Str.nonempty mc' = true ->
  _calculate_distance ext uc mc <= _calculate_distance ext uc mc' ->
  _calculate_location_score ext user_name match_name' (Some uc) (Some mc')
  <= _calculate_location_score ext user_name match_name (Some uc) (Some mc).
Proof.
  intros Hu Hm Hm' Hle. unfold _calculate_location_score. simpl.
  rewrite Hu, Hm, Hm'. simpl.
  set (d := _calculate_distance ext uc mc) in *.
  set (d' := _calculate_distance ext uc mc') in *.
  destruct (Qle_bool d 10) eqn:E1; destruct (Qle_bool d' 10) eqn:E1';
    destruct (Qle_bool d 20) eqn:E2; destruct (Qle_bool d' 20) eqn:E2';
    destruct (Qle_bool d 50) eqn:E3; destruct (Qle_bool d' 50) eqn:E3';
    rewrite ?Qle_bool_iff, ?Qle_bool_false in *;
    try (vm_compute; discriminate); exfalso; lra.
Qed.

(** X11.  Without coordinates on one side the score is symmetric: it is the
    same when the two intents change places. *)
Theorem name_score_symmetric user_name match_name user_coords match_coords :
  option_truthy user_coords && option_truthy match_coords = false ->
  _calculate_location_score ext user_name match_name user_coords match_coords
  = _calculate_location_score ext match_name user_name match_coords
      user_coords.
Proof.
  intros H. unfold _calculate_location_score.
  rewrite (andb_comm (option_truthy match_coords)), H.
  rewrite (orb_comm (negb (option_truthy match_name))).
  destruct (negb (option_truthy user_name) || negb (option_truthy match_name));
    [reflexivity|].
  cbv zeta.
  rewrite (String.eqb_sym (Str.lower (default "" match_name))).
  destruct (String.eqb _ _); [reflexivity|].
  rewrite (orb_comm (Str.contains (Str.lower (default "" match_name)) _)).
  destruct (Str.contains _ _ || Str.contains _ _); [reflexivity|].
  rewrite (String.eqb_sym
             (Str.lower (_extract_city (default "" match_name)))).
  rewrite (andb_comm (Str.nonempty (_extract_city (default "" match_name)))).
  reflexivity.
Qed.

End AdvancedLocation.

Lemma unreadable_geometry_scores_half_witness :
  Str.nonempty "0101000020E6100000" = true /\
  Str.nonempty "POINT(77.7 12.9)" = true /\
  AdvancedMatchingService._calculate_location_score
    (Sample.libraries true (Raise APIError)) (Some "Whitefield")
    (Some "Whitefield") (Some "0101000020E6100000")
    (Some "POINT(77.7 12.9)") = 0.5.
Proof.
  split; [reflexivity|]. split; [reflexivity|].
  apply (unreadable_geometry_scores_half
           (Sample.libraries true (Raise APIError))); try reflexivity.
  left. reflexivity.
Defined.

Lemma name_score_symmetric_witness :
  option_truthy None && option_truthy (Some "POINT(1 2)") = false /\
  AdvancedMatchingService._calculate_location_score
    (Sample.libraries true (Raise APIError)) (Some "Whitefield")
    (Some "Whitefield, Bangalore") None (Some "POINT(1 2)")
  = AdvancedMatchingService._calculate_location_score
      (Sample.libraries true (Raise APIError)) (Some "Whitefield, Bangalore")
      (Some "Whitefield") (Some "POINT(1 2)") None.
Proof.
  split; [reflexivity|].
  now apply name_score_symmetric.
Defined.

Section CoordinateWitness.
Import AdvancedMatchingService.

(** Stand-ins that read whole numbers and measure the distance along the
    axes. *)
Definition grid_libraries : externals :=
  {| numpy_available := true;
     sqrt := fun x => x;
     py_float := fun s => inject_Z <$> int_of_string s;
     haversine := fun lng1 lat1 lng2 lat2 =>
                    Some (Qabs (lng1 - lng2) + Qabs (lat1 - lat2));
     text_similarity_row := fun texts => repeat 0 (length texts - 1);
     price_compatibility := fun _ _ => 0.5;
     temporal_compatibility :=
       fun _ _ matches => repeat 0.6 (length matches);
     get_supabase := Raise APIError;
     le_at_tie := fun _ _ => true |}.

Lemma coordinate_score_monotone_witness :
  _calculate_distance grid_libraries "POINT(0 0)" "POINT(5 0)"
  <= _calculate_distance grid_libraries "POINT(0 0)" "POINT(30 0)" /\
  _calculate_location_score grid_libraries None None (Some "POINT(0 0)")
    (Some "POINT(30 0)")
  <= _calculate_location_score grid_libraries None None (Some "POINT(0 0)")
       (Some "POINT(5 0)").
Proof.
  assert (_calculate_distance grid_libraries "POINT(0 0)" "POINT(5 0)"
          <= _calculate_distance grid_libraries "POINT(0 0)" "POINT(30 0)")
    as H by (vm_compute; discriminate).
  split; [exact H|].
  exact (coordinate_score_monotone grid_libraries None None None
           "POINT(0 0)" "POINT(5 0)" "POINT(30 0)" eq_refl eq_refl eq_refl H).
Defined.

End CoordinateWitness.

(** ** Range of the price and parameter scores *)

Section ScoreRanges.
Import AdvancedMatchingService.

Lemma digits_value_nonneg s acc : (0 <= acc)%Z -> (0 <= digits_value acc s)%Z.
Proof.
  revert acc. induction s as [|c r IH]; intros acc H; simpl; [exact H|].
  apply IH. lia.
Qed.

Lemma float_of_number_nonneg number : 0 <= float_of_number number.
Proof.
  destruct number as [whole fraction]. unfold float_of_number.
  assert (0 <= inject_Z (digits_value 0 whole)) as H1.
  { change 0 with (inject_Z 0). rewrite <- Zle_Qle.
    now apply digits_value_nonneg. }
  assert (0 <= inject_Z (digits_value 0 fraction)) as H2.
  { change 0 with (inject_Z 0). rewrite <- Zle_Qle.
    now apply digits_value_nonneg. }
  assert (0 < inject_Z (10 ^ Z.of_nat (String.length fraction))) as H3.
  { change 0 with (inject_Z 0). rewrite <- Zlt_Qlt.
    apply Z.pow_pos_nonneg; lia. }
  pose proof (Qdiv_nonneg _ _ H2 H3). lra.
Qed.

(** A parsed price is never negative. *)
Lemma extract_price_value_nonneg s v :
  _extract_price_value s = Some v -> 0 <= v.
Proof.
  unfold _extract_price_value.
  destruct (first_number (sub_units 0 s)) as [number|]; [|discriminate].
  pose proof (float_of_number_nonneg number) as H.
  repeat match goal with
         | |- context [if ?b then _ else _] => destruct b
         end; intros [= <-]; lra.
Qed.

(** The price tolerance score is between 0 and 1 for every pair of
    parameter sets, parseable or not. *)
Lemma price_tolerance_bounds ext user_params match_params :
  0 <= _calculate_price_tolerance ext user_params match_params <= 1.
Proof.
  unfold _calculate_price_tolerance.
  destruct (negb _ || negb _); [lra|].
  destruct (_extract_price_value (py_str (py_or (dict_get user_params _) _)))
    as [u|] eqn:Eu; [|lra].
  destruct (_extract_price_value (py_str (py_or (dict_get match_params _) _)))
    as [m|] eqn:Em; [|lra].
  unfold price_truthy.
  destruct (Qeq_bool u 0) eqn:Hu; simpl; [lra|].
  destruct (Qeq_bool m 0) eqn:Hm; simpl; [lra|].
  apply extract_price_value_nonneg in Eu.
  assert (0 < u) as Hpos.
  { apply Qle_lteq in Eu as [Hlt|Heq]; [exact Hlt|].
    symmetry in Heq. apply Qeq_bool_iff in Heq. congruence. }
  exact (tolerance_score_range ext u Hpos m).
Qed.

Lemma parameter_overlap_bounds user_params match_params :
  0 <= _calculate_parameter_overlap user_params match_params <= 1.
Proof.
  unfold _calculate_parameter_overlap.
  pose proof (overlap_fold_bounds user_params match_params param_weights
                (0, 0)) as H.
  destruct (fold_left _ param_weights (0, 0)) as [o t]. simpl in H.
  assert (0 <= o <= t) as Hot.
  { apply H; [|lra]. repeat constructor; simpl; lra. }
  destruct (Qle_bool t 0) eqn:E; simpl; [lra|].
  apply Qle_bool_false in E. split.
  - apply Qdiv_nonneg; lra.
  - apply Qdiv_le_1; lra.
Qed.

End ScoreRanges.

(** ** Rounding *)

Section Rounding.

Lemma round_half_even_ge k x :
  inject_Z k <= x -> (k <= round_half_even x)%Z.
Proof.
  intros H. apply Qfloor_resp_le in H. rewrite Qfloor_Z in H.
  unfold round_half_even.
  destruct (Qcompare _ _); [destruct (Z.even _)| |]; lia.
Qed.

Lemma round_half_even_le k x :
  x <= inject_Z k -> (round_half_even x <= k)%Z.
Proof.
  intros H. pose proof (Qfloor_resp_le _ _ H) as Hfloor.
  rewrite Qfloor_Z in Hfloor.
  destruct (Z.eq_dec (Qfloor x) k) as [Heq|Hne].
  - pose proof (Qfloor_le x) as Hlow. rewrite Heq in Hlow.
    unfold round_half_even. rewrite Heq.
    assert (x - inject_Z k < 1 # 2) as Hfrac by lra.
    destruct (Qcompare (x - inject_Z k) (1 # 2)) eqn:E; [| lia |].
    + apply Qeq_alt in E. lra.
    + apply Qgt_alt in E. lra.
  - unfold round_half_even.
    destruct (Qcompare _ _); [destruct (Z.even _)| |]; lia.
Qed.

Lemma thousandths k : inject_Z k == (k # 1000) * 1000.
Proof. unfold Qeq. simpl. lia. Qed.

(** Rounding to three places does not cross a multiple of 1/1000. *)
Lemma round3_ge k x : k # 1000 <= x -> k # 1000 <= round3 x.
Proof.
  intros H. unfold round3.
  assert (inject_Z k <= x * 1000) as Hk by (rewrite thousandths; lra).
  apply round_half_even_ge in Hk. unfold Qle. simpl. lia.
Qed.

Lemma round3_le k x : x <= k # 1000 -> round3 x <= k # 1000.
Proof.
  intros H. unfold round3.
  assert (x * 1000 <= inject_Z k) as Hk by (rewrite thousandths; lra).
  apply round_half_even_le in Hk. unfold Qle. simpl. lia.
Qed.

Lemma round3_unit x : 0 <= x <= 1 -> 0 <= round3 x <= 1.
Proof.
  intros [H0 H1]. split.
  - assert (0 # 1000 <= round3 x) by (apply round3_ge; lra). lra.
  - assert (round3 x <= 1000 # 1000) by (apply round3_le; lra). lra.
Qed.

End Rounding.

(** ** What the advanced strategy accepts *)

Section AdvancedAcceptance.
Import AdvancedMatchingService.
Context (ext : externals).

(** The computed components of a scored candidate: the semantic similarity
    is 0 unless both sides have an embedding, the three others lie between
    0 and 1. *)
Lemma match_scores_components user_intent match_ user_params s :
  _calculate_match_scores ext user_intent match_ user_params = Ok s ->
  (list_truthy (embedding user_intent)
   && list_truthy (MatchingService.embedding_with_fallback match_) = false ->
   semantic_similarity s = 0.0) /\
  0 <= location_proximity s <= 1 /\
  0 <= parameter_overlap s <= 1 /\
  0 <= price_tolerance s <= 1.
Proof.
  unfold _calculate_match_scores, MatchingService.embedding_with_fallback.
  destruct (list_truthy (embedding user_intent) && list_truthy _) eqn:E.
  - destruct (EmbeddingService.compute_similarity _ _ _) as [x|e]; simpl;
      [|discriminate].
    intros [= <-]. simpl. split; [discriminate|].
    split; [apply location_score_range|].
    split; [apply parameter_overlap_bounds|apply price_tolerance_bounds].
  - simpl. intros [= <-]. simpl. split; [reflexivity|].
    split; [apply location_score_range|].
    split; [apply parameter_overlap_bounds|apply price_tolerance_bounds].
Qed.

(** X8.  Every entry of the advanced strategy's answer reports a composite
    score of at least 0.75 after rounding, and location, parameter and
    price scores between 0 and 1. *)
Theorem advanced_reported_scores intent_data results :
  find_advanced_matches ext intent_data = Ok results ->
  Forall
    (fun r =>
       0.75 <= composite_score r /\
       0 <= location_proximity (r_scores r) <= 1 /\
       0 <= parameter_overlap (r_scores r) <= 1 /\
       0 <= price_tolerance (r_scores r) <= 1)
    results.
Proof.
  intros H. apply find_advanced_matches_Ok in H as (supabase & _ & ->).
  apply List.Forall_forall. intros r Hr.
  apply (top_n_spec composite_score 7), list_elem_of_In,
    list_elem_of_omap in Hr.
  destruct Hr as (match_ & _ & Hscore).
  apply score_candidate_Some in Hscore as (_ & s & Hs & Hthreshold & ->).
  apply match_scores_components in Hs as (_ & Hl & Hp & Hv). simpl.
  split; [|split; [|split]]; try now apply round3_unit.
  assert (750 # 1000 <= round3 (_calculate_composite_score s))
    by (apply round3_ge; lra).
  lra.
Qed.

(** X6.  A candidate is accepted only when the query and the candidate both
    carry an embedding and their similarity is at least 0.375: the three
    other components weigh 0.6 together. *)
Theorem advanced_accepts_only_similar intent_data parsed_params match_ r :
  score_candidate ext intent_data parsed_params match_ = Some r ->
  list_truthy (embedding intent_data) = true /\
  list_truthy (MatchingService.embedding_with_fallback match_) = true /\
  exists s,
    _calculate_match_scores ext intent_data match_ parsed_params = Ok s /\
    0.375 <= semantic_similarity s.
Proof.
  intros Hscore.
  apply score_candidate_Some in Hscore as (_ & s & Hs & Hthreshold & _).
  pose proof (match_scores_components _ _ _ _ Hs) as (Hzero & Hl & Hp & Hv).
  rewrite composite_score_formula in Hthreshold.
  assert (0.375 <= semantic_similarity s) as Hsem by lra.
  destruct (list_truthy (embedding intent_data)
            && list_truthy (MatchingService.embedding_with_fallback match_))
    eqn:E.
  - apply andb_prop in E as [-> ->]. split; [reflexivity|].
    split; [reflexivity|]. exists s. auto.
  - rewrite (Hzero eq_refl) in Hsem. lra.
Qed.

(** X7.  A query stored without an embedding gets no match from the advanced
    strategy, whatever the store holds. *)
Theorem advanced_empty_without_query_embedding intent_data results :
  list_truthy (embedding intent_data) = false ->
  find_advanced_matches ext intent_data = Ok results ->
  results = [].
Proof.
  intros Hnone H.
  apply find_advanced_matches_Ok in H as (supabase & _ & ->).
  assert (omap (score_candidate ext intent_data
                  (_extract_parameters intent_data))
            (advanced_pool supabase intent_data) = []) as ->; [|reflexivity].
  induction (advanced_pool supabase intent_data) as [|match_ pool IH];
    [reflexivity|].
  change (omap ?f (match_ :: pool))
    with (match f match_ with Some y => y :: omap f pool | None => omap f pool
          end).
  destruct (score_candidate ext intent_data _ match_) as [r|] eqn:E;
    [|exact IH].
  apply score_candidate_Some in E as (_ & s & Hs & Hthreshold & _).
  pose proof (match_scores_components _ _ _ _ Hs) as (Hzero & Hl & Hp & Hv).
  rewrite composite_score_formula, Hzero in Hthreshold
    by (rewrite Hnone; reflexivity).
  lra.
Qed.

End AdvancedAcceptance.

Section AdvancedAcceptanceWitness.
Import AdvancedMatchingService Sample.

Lemma advanced_reported_scores_witness :
  Forall (fun r => 0.75 <= composite_score r) [sample_advanced_entry].
Proof.
  assert (find_advanced_matches
            (libraries true (Ok (serving [supply_u2; supply_u1]))) demand_u1
          = Ok [sample_advanced_entry]) as H
    by (vm_compute; reflexivity).
  eapply List.Forall_impl;
    [|exact (advanced_reported_scores _ _ _ H)].
  intros r Hr. exact (proj1 Hr).
Defined.

Lemma advanced_accepts_only_similar_witness :
  list_truthy (embedding demand_u1) = true /\
  list_truthy (MatchingService.embedding_with_fallback supply_u2) = true.
Proof.
  assert (score_candidate (libraries true (Raise APIError)) demand_u1
            (_extract_parameters demand_u1) supply_u2
          = Some sample_advanced_entry) as H
    by (vm_compute; reflexivity).
  pose proof (advanced_accepts_only_similar _ _ _ _ _ H) as (Hu & Hm & _).
  exact (conj Hu Hm).
Defined.

Lemma advanced_empty_without_query_embedding_witness :
  list_truthy (embedding demand_mumbai) = false /\
  exists results,
    find_advanced_matches
      (libraries true (Ok (serving [supply_u2; supply_u1]))) demand_mumbai
    = Ok results /\
    results = [].
Proof.
  assert (find_advanced_matches
            (libraries true (Ok (serving [supply_u2; supply_u1])))
            demand_mumbai = Ok []) as H
    by (vm_compute; reflexivity).
  split; [reflexivity|]. exists []. split; [exact H|].
  exact (advanced_empty_without_query_embedding _ demand_mumbai []
           eq_refl H).
Defined.

End AdvancedAcceptanceWitness.

(** ** The notification worker (notification_service.py) *)

Module NotificationService.

(** The last comprehension of [_check_intent_for_new_matches]:
    [[m for m in new_matches if m['composite_score'] >= 0.75]]. *)
Definition high_quality_matches
  (new_matches : list AdvancedMatchingService.match_result)
  : list AdvancedMatchingService.match_result :=
  List.filter
    (fun m => Qle_bool 0.75 (AdvancedMatchingService.composite_score m))
    new_matches.

End NotificationService.

Section Notification.
Import AdvancedMatchingService NotificationService.

Lemma filter_all {A} (f : A -> bool) (l : list A) :
  Forall (fun x => f x = true) l -> List.filter f l = l.
Proof.
  induction 1 as [|x l Hx _ IH]; simpl; [reflexivity|].
  now rewrite Hx, IH.
Qed.

(** X14.  The worker's quality filter drops nothing: whatever part of the
    advanced strategy's answer is left after the date filter, every entry
    of it passes the test [composite_score >= 0.75]. *)
Theorem notification_filter_keeps_all ext intent_data results new_matches :
  find_advanced_matches ext intent_data = Ok results ->
  (forall m, In m new_matches -> In m results) ->
  high_quality_matches new_matches = new_matches.
Proof.
  intros H Hsub. apply find_advanced_matches_Ok in H as (supabase & _ & ->).
  apply filter_all, List.Forall_forall.
  intros m Hm. apply Hsub in Hm.
  apply (top_n_spec composite_score 7), list_elem_of_In,
    list_elem_of_omap in Hm.
  destruct Hm as (match_ & _ & Hscore).
  apply score_candidate_Some in Hscore as (_ & s & _ & Hthreshold & ->).
  simpl. apply Qle_bool_iff.
  assert (750 # 1000 <= round3 (_calculate_composite_score s))
    by (apply round3_ge; lra).
  lra.
Qed.

End Notification.

Lemma notification_filter_keeps_all_witness :
  NotificationService.high_quality_matches [sample_advanced_entry]
  = [sample_advanced_entry].
Proof.
  assert (AdvancedMatchingService.find_advanced_matches
            (Sample.libraries true
               (Ok (Sample.serving [Sample.supply_u2; Sample.supply_u1])))
            Sample.demand_u1
          = Ok [sample_advanced_entry]) as H
    by (vm_compute; reflexivity).
  exact (notification_filter_keeps_all _ _ _ [sample_advanced_entry] H
           (fun m Hm => Hm)).
Defined.

(** ** Parameter overlap: symmetry and agreement *)

Section OverlapSymmetry.
Import AdvancedMatchingService.

Lemma overlap_step_symmetric a b acc entry :
  overlap_step a b acc entry = overlap_step b a acc entry.
Proof.
  destruct acc as [o t], entry as [param weight]. unfold overlap_step.
  rewrite (andb_comm (truthy (dict_get a param))).
  destruct (truthy (dict_get b param) && truthy (dict_get a param));
    [|reflexivity].
  rewrite (String.eqb_sym (Str.lower (py_str (dict_get a param)))).
  destruct (String.eqb _ _); [reflexivity|].
  destruct (String.eqb param "year").
  - destruct (py_int (dict_get a param)) as [x|], (py_int (dict_get b param))
      as [y|]; try reflexivity.
    replace (Z.abs (y - x)) with (Z.abs (x - y)) by lia. reflexivity.
  - rewrite (orb_comm (Str.contains _ _)). reflexivity.
Qed.

(** X12.  The parameter overlap does not depend on which side is the query and
    which the candidate. *)
Theorem parameter_overlap_symmetric a b :
  _calculate_parameter_overlap a b = _calculate_parameter_overlap b a.
Proof.
  unfold _calculate_parameter_overlap.
  assert (forall entries acc,
             fold_left (overlap_step a b) entries acc
             = fold_left (overlap_step b a) entries acc) as ->;
    [|reflexivity].
  induction entries as [|entry entries IH]; intros acc; simpl;
    [reflexivity|].
  now rewrite overlap_step_symmetric, IH.
Qed.

Context (user_params match_params : gmap string pyval).

(** The attribute [param], when present on both sides, has the same text
    on both, letter case apart. *)
Definition agree (param : string) : Prop :=
  comparable user_params match_params param = true ->
  Str.lower (py_str (dict_get user_params param))
  = Str.lower (py_str (dict_get match_params param)).

Lemma overlap_step_agree acc entry :
  agree (fst entry) ->
  fst acc == snd acc ->
  let acc' := overlap_step user_params match_params acc entry in
  fst acc' == snd acc'.
Proof.
  destruct acc as [o t], entry as [param weight]. unfold agree, comparable.
  simpl. intros Hagree Hacc.
  destruct (truthy (dict_get user_params param)
            && truthy (dict_get match_params param)); [|exact Hacc].
  rewrite (Hagree eq_refl), String.eqb_refl. simpl. lra.
Qed.

Lemma overlap_step_total acc entry :
  0 <= snd entry ->
  let acc' := overlap_step user_params match_params acc entry in
  snd acc <= snd acc' /\
  (comparable user_params match_params (fst entry) = true ->
   snd acc + snd entry <= snd acc').
Proof.
  destruct acc as [o t], entry as [param weight]. unfold comparable. simpl.
  intros Hw.
  destruct (truthy (dict_get user_params param)
            && truthy (dict_get match_params param)).
  - repeat match goal with
           | |- context [if ?b then _ else _] => destruct b
           | |- context [match ?r with Ok _ => _ | Raise _ => _ end] =>
               destruct r
           end; simpl; split; intros; lra.
  - simpl. split; [lra|discriminate].
Qed.

Lemma overlap_fold_agree entries acc :
  Forall (fun entry => agree (fst entry)) entries ->
  fst acc == snd acc ->
  let acc' := fold_left (overlap_step user_params match_params) entries acc in
  fst acc' == snd acc'.
Proof.
  intros H. revert acc. induction H as [|entry entries Hentry _ IH];
    intros acc Hacc; simpl; [exact Hacc|].
  apply IH. now apply overlap_step_agree.
Qed.

Lemma overlap_fold_total entries acc :
  Forall (fun entry => 0 < snd entry) entries ->
  let acc' := fold_left (overlap_step user_params match_params) entries acc in
  snd acc <= snd acc' /\
  (Exists (fun entry => comparable user_params match_params (fst entry) = true)
     entries ->
   snd acc < snd acc').
Proof.
  intros H. revert acc. induction H as [|entry entries Hentry _ IH];
    intros acc; simpl.
  - split; [lra|]. intros Hex. inversion Hex.
  - destruct (overlap_step_total acc entry) as [Hmono Hstep]; [lra|].
    destruct (IH (overlap_step user_params match_params acc entry))
      as [Hmono' Hrest].
    split; [lra|]. intros Hex. inversion Hex as [? ? Hhere|? ? Hthere]; subst.
    + specialize (Hstep Hhere). lra.
    + specialize (Hrest Hthere). lra.
Qed.

(** X13.  When every attribute present on both sides has the same text on both,
    letter case apart, and at least one attribute is present on both
    sides, the parameter overlap is 1. *)
Theorem parameter_overlap_agreement param weight :
  In (param, weight) param_weights ->
  comparable user_params match_params param = true ->
  (forall param' weight', In (param', weight') param_weights -> agree param') ->
  _calculate_parameter_overlap user_params match_params == 1.
Proof.
  intros Hin Hcomparable Hagree. unfold _calculate_parameter_overlap.
  pose proof (overlap_fold_agree param_weights (0, 0)) as Heq.
  pose proof (overlap_fold_total param_weights (0, 0)) as Htotal.
  destruct (fold_left _ param_weights (0, 0)) as [o t]. simpl in Heq, Htotal.
  assert (o == t) as Hot.
  { apply Heq; [|reflexivity]. apply List.Forall_forall.
    intros [param' weight'] Hin'. exact (Hagree param' weight' Hin'). }
  assert (0 < t) as Hpos.
  { apply Htotal.
    - repeat constructor; simpl; lra.
    - apply List.Exists_exists. exists (param, weight). auto. }
  assert (Qle_bool t 0 = false) as -> by (apply Qle_bool_false; exact Hpos).
  simpl. rewrite Hot. field. lra.
Qed.

End OverlapSymmetry.

Section OverlapWitness.
Import AdvancedMatchingService.

Definition brand_upper : gmap string pyval := {[ "brand" := VStr "HONDA" ]}.
Definition brand_lower : gmap string pyval :=
  {[ "brand" := VStr "honda"; "price" := VStr "100" ]}.

Lemma parameter_overlap_agreement_witness :
  _calculate_parameter_overlap brand_upper brand_lower == 1.
Proof.
  apply (parameter_overlap_agreement brand_upper brand_lower "brand" 0.2).
  - simpl. auto.
  - reflexivity.
  - intros param' weight' Hin. simpl in Hin.
    repeat destruct Hin as [[= <- <-]|Hin]; try contradiction;
      intros H; try reflexivity; discriminate H.
Defined.

End OverlapWitness.

(** ** Embedding similarity: symmetry and self-similarity *)

Section EmbeddingSymmetry.
Import EmbeddingService.
Context (ext : externals).

Lemma dot_from_comm u v a a' :
  a == a' ->
  fold_left Qplus (map (fun ab => fst ab * snd ab) (combine u v)) a
  == fold_left Qplus (map (fun ab => fst ab * snd ab) (combine v u)) a'.
Proof.
  revert v a a'. induction u as [|x u IH]; intros [|y v] a a' Ha; simpl;
    try exact Ha.
  apply IH. rewrite Ha. ring.
Qed.

Lemma dot_comm u v : dot u v == dot v u.
Proof. unfold dot, Qsum. now apply dot_from_comm. Qed.

(** Two outcomes that agree: the same exception, or equal numbers. *)
Definition same_outcome (x y : pyresult Q) : Prop :=
  match x, y with
  | Ok a, Ok b => a == b
  | Raise e, Raise e' => e = e'
  | _, _ => False
  end.

(** X15.  The similarity of two vectors does not depend on their order, on
    either branch and for any lengths. *)
Theorem compute_similarity_symmetric u v :
  same_outcome (compute_similarity ext u v) (compute_similarity ext v u).
Proof.
  destruct (Nat.eq_dec (length u) (length v)) as [Hlen|Hlen].
  - rewrite (compute_similarity_equal_lengths ext u v Hlen),
      (compute_similarity_equal_lengths ext v u (eq_sym Hlen)).
    simpl. rewrite (orb_comm (Qeq_bool (norm ext v) 0)).
    destruct (Qeq_bool (norm ext u) 0 || Qeq_bool (norm ext v) 0);
      [reflexivity|].
    rewrite (dot_comm u v), (Qmult_comm (norm ext u)). reflexivity.
  - unfold compute_similarity, np_dot.
    assert ((length u =? length v)%nat = false) as ->
      by now apply Nat.eqb_neq.
    assert ((length v =? length u)%nat = false) as ->
      by (apply Nat.eqb_neq; congruence).
    destruct (numpy_available ext); reflexivity.
Qed.

(** X16.  A vector is at similarity 1 from itself, provided its norm is not
    zero and the square root is exact on its squared length. *)
Theorem compute_similarity_self u :
  norm ext u * norm ext u == dot u u ->
  ~ norm ext u == 0 ->
  exists s, compute_similarity ext u u = Ok s /\ s == 1.
Proof.
  intros Hexact Hnonzero.
  rewrite (compute_similarity_equal_lengths ext u u eq_refl).
  assert (Qeq_bool (norm ext u) 0 = false) as ->.
  { destruct (Qeq_bool (norm ext u) 0) eqn:E; [|reflexivity].
    apply Qeq_bool_iff in E. contradiction. }
  simpl. eexists. split; [reflexivity|].
  rewrite <- Hexact. field. exact Hnonzero.
Qed.

End EmbeddingSymmetry.

Lemma compute_similarity_self_witness :
  exists s,
    EmbeddingService.compute_similarity
      (Sample.libraries false (Raise APIError)) [0; 1] [0; 1] = Ok s /\
    s == 1.
Proof.
  apply compute_similarity_self.
  - vm_compute. reflexivity.
  - vm_compute. discriminate.
Defined.

(** ** The basic strategy's answer *)

Section BasicRanking.
Import MatchingService.
Context (ext : externals).

(** X19.  The basic strategy returns at most 10 entries, ordered by combined
    score, largest first; each comes from a candidate of the fetched pool
    whose combined score exceeds 0.3, reports a combined score of at
    least 0.3 after rounding, and a distance of 0, 5 or 20 km: the
    distance is read off the comparison of the location names, never off
    coordinates. *)
Theorem basic_ranking_top10 intent_data results :
  find_matches ext intent_data = Ok results ->
  (length results <= 10)%nat /\
  descending combined_score results /\
  exists supabase,
    get_supabase ext = Ok supabase /\
    Forall
      (fun r =>
         (exists match_ s,
             In match_ (basic_pool supabase intent_data) /\
             basic_similarity ext (embedding_with_fallback intent_data) match_
             = Ok s /\
             0.3 < basic_combined s (location_name intent_data) match_ /\
             r = basic_entry s (location_name intent_data) match_) /\
         0.3 <= combined_score r /\
         (distance_km r == 0 \/ distance_km r == 5 \/ distance_km r == 20))
      results.
Proof.
  rewrite find_matches_ranked.
  destruct (get_supabase ext) as [supabase|e]; simpl; [|discriminate].
  intros [= <-].
  pose proof
    (top_n_spec combined_score 10
       (omap (score_candidate ext (embedding_with_fallback intent_data)
                (location_name intent_data))
          (basic_pool supabase intent_data))) as (Hlen & Hsorted & Hin).
  split; [exact Hlen|]. split; [exact Hsorted|].
  exists supabase. split; [reflexivity|].
  apply List.Forall_forall. intros r Hr.
  apply Hin, list_elem_of_In, list_elem_of_omap in Hr.
  destruct Hr as (match_ & Hpool & Hscore).
  apply basic_score_candidate_Some in Hscore as (s & Hs & Hthreshold & ->).
  split; [|split].
  - exists match_, s. repeat split; auto. now apply list_elem_of_In.
  - simpl.
    assert (300 # 1000
            <= round3 (basic_combined s (location_name intent_data) match_))
      by (apply round3_ge; lra).
    lra.
  - simpl. unfold location_score_km.
    repeat match goal with
           | |- context [if ?b then _ else _] => destruct b
           end; simpl; vm_compute; auto.
Qed.

(** X20.  The score of a distance is between 0 and 1 and does not grow with the
    distance. *)
Theorem location_proximity_score_antitone d d' :
  d <= d' ->
  0 <= _location_proximity_score d' <= _location_proximity_score d
  /\ _location_proximity_score d <= 1.
Proof.
  intros Hle. unfold _location_proximity_score.
  repeat match goal with
         | |- context [Qle_bool ?a ?b] =>
             let E := fresh "E" in
             destruct (Qle_bool a b) eqn:E;
             [apply Qle_bool_iff in E|apply Qle_bool_false in E]
         end; lra.
Qed.

End BasicRanking.

Lemma basic_ranking_top10_witness :
  (length [sample_basic_entry] <= 10)%nat.
Proof.
  assert (MatchingService.find_matches
            (Sample.libraries true
               (Ok (Sample.serving [Sample.supply_chennai])))
            Sample.demand_mumbai
          = Ok [sample_basic_entry]) as H
    by (vm_compute; reflexivity).
  exact (proj1 (basic_ranking_top10 _ _ _ H)).
Defined.

Lemma location_proximity_score_antitone_witness :
  0 <= MatchingService._location_proximity_score 30
  <= MatchingService._location_proximity_score 8
  /\ MatchingService._location_proximity_score 8 <= 1.
Proof.
  apply location_proximity_score_antitone. vm_compute. discriminate.
Defined.

(** ** The diversity check of the ML-feature strategy *)

Section WordOverlap.
Import MLMatchingService.

Lemma Qnat_nonneg n : 0 <= Qnat n.
Proof.
  unfold Qnat. change 0 with (inject_Z 0). rewrite <- Zle_Qle. lia.
Qed.

Lemma Qnat_le n m : (n <= m)%nat -> Qnat n <= Qnat m.
Proof. intros H. unfold Qnat. rewrite <- Zle_Qle. lia. Qed.

Lemma Qnat_pos n : (0 < n)%nat -> 0 < Qnat n.
Proof.
  intros H. unfold Qnat. change 0 with (inject_Z 0). rewrite <- Zlt_Qlt. lia.
Qed.

(** [overlap / total if total > 0 else 0] for two sets of words. *)
Definition overlap_ratio (X Y : gset string) : Q :=
  if (0 <? size (X ∪ Y))%nat
  then Qnat (size (X ∩ Y)) / Qnat (size (X ∪ Y)) else 0.

Lemma overlap_ratio_comm X Y : overlap_ratio X Y = overlap_ratio Y X.
Proof.
  unfold overlap_ratio.
  assert (X ∩ Y = Y ∩ X) as ->
    by (apply set_eq; intros x; rewrite !elem_of_intersection; tauto).
  assert (X ∪ Y = Y ∪ X) as ->
    by (apply set_eq; intros x; rewrite !elem_of_union; tauto).
  reflexivity.
Qed.

Lemma overlap_ratio_unit X Y : 0 <= overlap_ratio X Y <= 1.
Proof.
  unfold overlap_ratio.
  assert (size (X ∩ Y) <= size (X ∪ Y))%nat as Hle.
  { apply subseteq_size. intros x Hx.
    apply elem_of_intersection in Hx as [Hx _]. apply elem_of_union.
    now left. }
  destruct (0 <? size (X ∪ Y))%nat eqn:E; [|lra].
  apply Nat.ltb_lt in E.
  pose proof (Qnat_nonneg (size (X ∩ Y))).
  pose proof (Qnat_le _ _ Hle). pose proof (Qnat_pos _ E).
  split; [apply Qdiv_nonneg|apply Qdiv_le_1]; lra.
Qed.

Lemma overlap_ratio_self X w : w ∈ X -> overlap_ratio X X == 1.
Proof.
  intros Hw. unfold overlap_ratio.
  assert (X ∩ X = X) as ->
    by (apply set_eq; intros x; rewrite elem_of_intersection; tauto).
  assert (X ∪ X = X) as ->
    by (apply set_eq; intros x; rewrite elem_of_union; tauto).
  assert (0 < size X)%nat as Hpos.
  { destruct (size X) eqn:E; [|lia]. apply size_empty_inv in E.
    rewrite E in Hw. now apply not_elem_of_empty in Hw. }
  assert ((0 <? size X)%nat = true) as -> by now apply Nat.ltb_lt.
  pose proof (Qnat_pos _ Hpos). field. lra.
Qed.

(** X21.  The word overlap of two texts does not depend on their order, lies
    between 0 and 1, and is 1 for two texts that are equal, letter case
    apart, and hold at least one word. *)
Theorem query_similarity_overlap a b :
  query_similarity a b = query_similarity b a /\
  0 <= query_similarity a b <= 1 /\
  (Str.lower a = Str.lower b -> Str.split (Str.lower a) <> [] ->
   query_similarity a b == 1).
Proof.
  assert (forall a b, query_similarity a b
                      = overlap_ratio (list_to_set (Str.split (Str.lower a)))
                          (list_to_set (Str.split (Str.lower b)))) as Hq
    by reflexivity.
  rewrite (Hq b a), !Hq.
  split; [apply overlap_ratio_comm|]. split; [apply overlap_ratio_unit|].
  intros <- Hwords.
  destruct (Str.split (Str.lower a)) as [|w ws]; [congruence|].
  apply (overlap_ratio_self _ w), elem_of_list_to_set. left.
Qed.

End WordOverlap.

Section Diversity.
Import MLMatchingService.

(** Two entries are far apart when the word overlap of the later one with
    the earlier one is at most 0.7. *)
Definition far_apart (earlier later : match_result) : Prop :=
  query_similarity (r_raw_query later) (r_raw_query earlier) <= 0.7.

Lemma StronglySorted_snoc {A} (R : A -> A -> Prop) l x :
  StronglySorted R l -> Forall (fun a => R a x) l ->
  StronglySorted R (l ++ [x]).
Proof.
  induction 1 as [|a l Hl IH Ha]; intros Hx; simpl.
  - repeat constructor.
  - inversion Hx as [|? ? Hax Hlx]; subst. constructor; [auto|].
    apply Forall_app. split; [exact Ha|]. constructor; [exact Hax|constructor].
Qed.

Lemma StronglySorted_sublist {A} (R : A -> A -> Prop) l k :
  l `sublist_of` k -> StronglySorted R k -> StronglySorted R l.
Proof.
  induction 1 as [|x l k Hsub IH|x l k Hsub IH]; intros Hk.
  - constructor.
  - inversion Hk as [|? ? Hk' Hx]; subst. constructor; [auto|].
    rewrite List.Forall_forall in *. intros y Hy. apply Hx.
    apply list_elem_of_In. apply list_elem_of_In in Hy.
    eapply elem_of_sublist; [exact Hy|exact Hsub].
  - inversion Hk; subst. auto.
Qed.

Lemma diversity_loop_spec rest diverse_matches :
  (length diverse_matches < 12)%nat ->
  let result := diversity_loop diverse_matches rest in
  diverse_matches `prefix_of` result /\
  result `sublist_of` diverse_matches ++ rest /\
  (length result <= 12)%nat /\
  (StronglySorted far_apart diverse_matches ->
   StronglySorted far_apart result).
Proof.
  revert diverse_matches.
  induction rest as [|match_ rest IH]; intros diverse_matches Hlen;
    cbn [diversity_loop]; cbv zeta.
  - rewrite app_nil_r. repeat split; auto; lia.
  - set (is_diverse := forallb _ diverse_matches).
    destruct is_diverse eqn:E.
    + assert (Forall (fun a => far_apart a match_) diverse_matches) as Hfar.
      { apply List.Forall_forall. intros a Ha.
        subst is_diverse. rewrite forallb_forall in E.
        apply Qle_bool_iff. now apply E. }
      destruct (12 <=? length (diverse_matches ++ [match_]))%nat eqn:E12.
      * apply Nat.leb_le in E12. rewrite length_app in E12. simpl in E12.
        split; [now apply prefix_app_r|].
        split; [apply sublist_app; [reflexivity|]|].
        { apply sublist_skip, sublist_nil_l. }
        split; [rewrite length_app; simpl; lia|].
        intros Hsorted. now apply StronglySorted_snoc.
      * apply Nat.leb_gt in E12.
        destruct (IH (diverse_matches ++ [match_]) E12)
          as (Hprefix & Hsub & Hlen' & Hsorted').
        split; [eapply prefix_app_l; exact Hprefix|].
        split; [now rewrite <- app_assoc in Hsub|].
        split; [exact Hlen'|].
        intros Hsorted. apply Hsorted'. now apply StronglySorted_snoc.
    + assert ((12 <=? length diverse_matches)%nat = false) as ->
        by (apply Nat.leb_gt; exact Hlen).
      destruct (IH diverse_matches Hlen)
        as (Hprefix & Hsub & Hlen' & Hsorted').
      split; [exact Hprefix|].
      split; [|split; [exact Hlen'|exact Hsorted']].
      etransitivity; [exact Hsub|].
      apply sublist_app; [reflexivity|]. now apply sublist_cons.
Qed.

Lemma diversity_filter_kept matches :
  _apply_diversity_filter matches `sublist_of` matches /\
  (length (_apply_diversity_filter matches) <= 12)%nat.
Proof.
  unfold _apply_diversity_filter.
  destruct (length matches <=? 5)%nat eqn:E.
  - apply Nat.leb_le in E. split; [reflexivity|lia].
  - destruct matches as [|first rest]; [discriminate E|].
    destruct (diversity_loop_spec rest [first])
      as (_ & Hsub & Hlen & _); [simpl; lia|].
    split; [exact Hsub|exact Hlen].
Qed.

(** X22.  The diversity filter selects entries of its input in their order,
    never more than 12, and keeps the first one. *)
Theorem diversity_filter_selection matches :
  _apply_diversity_filter matches `sublist_of` matches /\
  (length (_apply_diversity_filter matches) <= 12)%nat /\
  head (_apply_diversity_filter matches) = head matches.
Proof.
  destruct (diversity_filter_kept matches) as [Hsub Hlen].
  split; [exact Hsub|]. split; [exact Hlen|].
  unfold _apply_diversity_filter.
  destruct (length matches <=? 5)%nat eqn:E; [reflexivity|].
  destruct matches as [|first rest]; [reflexivity|].
  destruct (diversity_loop_spec rest [first])
    as ([tail Hprefix] & _); [simpl; lia|].
  rewrite Hprefix. reflexivity.
Qed.

(** X23.  Of more than 5 entries the filter keeps only entries that are far
    apart: each kept entry shares at most 70% of its words with every
    entry kept before it. *)
Theorem diversity_filter_far_apart matches :
  (5 < length matches)%nat ->
  StronglySorted far_apart (_apply_diversity_filter matches).
Proof.
  intros H. unfold _apply_diversity_filter.
  assert ((length matches <=? 5)%nat = false) as ->
    by (apply Nat.leb_gt; exact H).
  destruct matches as [|first rest]; [constructor|].
  destruct (diversity_loop_spec rest [first])
    as (_ & _ & _ & Hsorted); [simpl; lia|].
  apply Hsorted. repeat constructor.
Qed.

(** Of at most 5 entries the filter keeps all, equal texts included. *)
Lemma diversity_filter_small matches :
  (length matches <= 5)%nat -> _apply_diversity_filter matches = matches.
Proof.
  intros H. unfold _apply_diversity_filter.
  now assert ((length matches <=? 5)%nat = true) as -> by now apply Nat.leb_le.
Qed.

End Diversity.

(** ** The answer of the ML-feature strategy *)

Section MLAnswer.
Import MLMatchingService.
Context (ext : externals).

Lemma Qmin_spec a b : (a <= b /\ Qmin a b = a) \/ (b <= a /\ Qmin a b = b).
Proof.
  unfold Qmin. destruct (Qle_bool a b) eqn:E.
  - apply Qle_bool_iff in E. auto.
  - apply Qle_bool_false in E. right. split; [lra|reflexivity].
Qed.

Lemma confidence_unit combined individual_scores :
  0 <= _calculate_confidence ext combined individual_scores <= 1.
Proof.
  unfold _calculate_confidence. cbv zeta. apply round3_unit.
  match goal with |- context [Qmin 1.0 ?c] => generalize c end. intros c.
  destruct (Qmin_spec 1.0 c) as [[H ->]|[H ->]];
    match goal with
    | |- context [Qmax 0.0 ?x] =>
        destruct (Qmax_spec 0.0 x) as [[H' ->]|[H' ->]]
    end; lra.
Qed.

Lemma match_quality_above_threshold score :
  0.3 < score ->
  In (_determine_match_quality score) ["excellent"; "good"; "fair"; "poor"].
Proof.
  intros H. unfold _determine_match_quality.
  repeat match goal with
         | |- context [Qle_bool ?a ?b] =>
             let E := fresh "E" in
             destruct (Qle_bool a b) eqn:E;
             [|apply Qle_bool_false in E]
         end; simpl; auto; lra.
Qed.

(** What [score_entry] builds when it keeps a candidate. *)
Lemma score_entry_Some ts fs ls cs ds entry r :
  score_entry ext ts fs ls cs ds entry = Ok (Some r) ->
  0.3 <= combined_score r /\
  In (match_quality r) ["excellent"; "good"; "fair"; "poor"] /\
  0 <= confidence_score r <= 1.
Proof.
  destruct entry as [i match_]. unfold score_entry.
  destruct (index ts i) as [t|]; [|discriminate].
  destruct (index fs i) as [f|]; [|discriminate].
  destruct (index ls i) as [l|]; [|discriminate].
  destruct (index cs i) as [c|]; [|discriminate].
  destruct (index ds i) as [d|]; [|discriminate].
  cbn [mbind pyresult_bind]. cbv zeta.
  destruct (Qle_bool _ 0.3) eqn:E; [discriminate|].
  apply Qle_bool_false in E. intros [= <-]. cbn.
  split; [|split].
  - match goal with
    | |- _ <= round3 ?x =>
        assert (300 # 1000 <= round3 x) by (apply round3_ge; lra)
    end.
    lra.
  - now apply match_quality_above_threshold.
  - apply confidence_unit.
Qed.

(** The strategy's own ranking, when it did not fall back. *)
Lemma ml_ranked intent_data l :
  find_advanced_matches ext intent_data = Ok (Ranked l) ->
  l = [] \/
  exists ts fs ls cs ds entries_in entries,
    mapM (score_entry ext ts fs ls cs ds) entries_in = Ok entries /\
    l = firstn 15
          (_apply_diversity_filter
             (sort_desc combined_score (omap id entries))).
Proof.
  unfold find_advanced_matches.
  match goal with
  | |- try_except ?body _ = _ -> _ => destruct body as [o|e] eqn:E
  end; simpl.
  - intros [= ->]. revert E.
    destruct (get_supabase ext) as [supabase|e]; [|discriminate].
    cbn [mbind pyresult_bind].
    destruct (execute supabase _) as [[|m matches]|e];
      cbn [mbind pyresult_bind]; [| |discriminate].
    + intros [= <-]. now left.
    + cbn beta iota.
      destruct (_compute_location_scores intent_data (m :: matches))
        as [ls|e]; [|discriminate].
      cbn [mbind pyresult_bind].
      destruct (_compute_intent_compatibility ext intent_data (m :: matches))
        as [cs|e]; [|discriminate].
      cbn [mbind pyresult_bind]. cbv zeta.
      match goal with
      | |- context [mapM ?f ?xs] => destruct (mapM f xs) as [entries|e] eqn:Em
      end; [|discriminate].
      cbn [mbind pyresult_bind]. intros [= <-]. right.
      do 7 eexists. split; [exact Em|reflexivity].
  - unfold _basic_fallback_matching.
    destruct (MatchingService.find_matches ext intent_data); discriminate.
Qed.

(** X24.  Whatever the ML-feature strategy ranks itself is at most 12 entries
    long and ordered by combined score, largest first; every entry reports
    a combined score of at least 0.3, a quality among excellent, good,
    fair and poor, and a confidence between 0 and 1. *)
Theorem ml_ranked_answer intent_data l :
  find_advanced_matches ext intent_data = Ok (Ranked l) ->
  (length l <= 12)%nat /\
  descending combined_score l /\
  Forall
    (fun r =>
       0.3 <= combined_score r /\
       In (match_quality r) ["excellent"; "good"; "fair"; "poor"] /\
       0 <= confidence_score r <= 1)
    l.
Proof.
  intros H. apply ml_ranked in H as [->|H].
  - split; [simpl; lia|]. split; constructor.
  - destruct H as (ts & fs & ls & cs & ds & entries_in & entries & Hm & ->).
    set (sorted := sort_desc combined_score (omap id entries)).
    destruct (diversity_filter_kept sorted) as (Hsub & Hlen).
    split; [rewrite List.length_firstn; lia|].
    split.
    + apply firstn_descending.
      eapply StronglySorted_sublist; [exact Hsub|].
      apply sort_desc_descending.
    + apply List.Forall_forall. intros r Hr.
      apply (firstn_In_incl combined_score), list_elem_of_In in Hr.
      eapply elem_of_sublist in Hr; [|exact Hsub].
      apply list_elem_of_In, sort_desc_In, list_elem_of_In,
        list_elem_of_omap in Hr.
      destruct Hr as (o & Ho & Hid). simpl in Hid. subst o.
      apply list_elem_of_In in Ho.
      destruct (mapM_Ok_In _ _ _ _ Hm Ho) as (entry & _ & Hentry).
      eapply score_entry_Some; exact Hentry.
Qed.

End MLAnswer.

Section MLFallback.
Import MLMatchingService.
Context (ext : externals).

(** A row whose location name or parsed data is null. *)
Definition incomplete (i : intent) : Prop :=
  location_name i = None \/ parsed_data i = None.

Lemma location_scores_raise intent_data matches :
  location_name intent_data = None
  \/ Exists (fun match_ => location_name match_ = None) matches ->
  exists e, _compute_location_scores intent_data matches = Raise e.
Proof.
  unfold _compute_location_scores, lowered_location_name.
  intros [Hq|Hm].
  - rewrite Hq. eauto.
  - destruct (location_name intent_data); [|eauto].
    cbn [mbind pyresult_bind]. apply mapM_Raise.
    eapply List.Exists_impl; [|exact Hm]. intros match_ ->. eauto.
Qed.

Lemma intent_compatibility_raise intent_data matches :
  parsed_data intent_data = None
  \/ Exists (fun match_ => parsed_data match_ = None) matches ->
  exists e, _compute_intent_compatibility ext intent_data matches = Raise e.
Proof.
  unfold _compute_intent_compatibility. intros [Hq|Hm].
  - rewrite Hq. eauto.
  - destruct (parsed_data intent_data); [|eauto].
    apply mapM_Raise.
    eapply List.Exists_impl; [|exact Hm]. intros match_ ->. eauto.
Qed.

(** X25.  One incomplete row is enough to switch the ML-feature strategy off:
    when the query, or any candidate of a pool that is not empty, has a
    null location name or null parsed data, the strategy ranks nothing
    itself and answers with the list of the basic strategy. *)
Theorem ml_falls_back_on_incomplete_row intent_data supabase pool :
  get_supabase ext = Ok supabase ->
  execute supabase
    [FEq "post_type" (MatchingService.opposite_post_type intent_data);
     FEq "category" (category intent_data); FActive] = Ok pool ->
  pool <> [] ->
  incomplete intent_data \/ Exists incomplete pool ->
  find_advanced_matches ext intent_data
  = Fallback <$> MatchingService.find_matches ext intent_data.
Proof.
  intros Hclient Hpool Hnonempty Hincomplete.
  unfold find_advanced_matches. rewrite Hclient. cbn [mbind pyresult_bind].
  rewrite Hpool. cbn [mbind pyresult_bind].
  destruct pool as [|m matches]; [congruence|].
  destruct (_compute_location_scores intent_data (m :: matches))
    as [ls|e] eqn:El; [|reflexivity].
  cbn [mbind pyresult_bind].
  assert (exists e,
             _compute_intent_compatibility ext intent_data (m :: matches)
             = Raise e) as [e ->]; [|reflexivity].
  apply intent_compatibility_raise.
  destruct Hincomplete as [[Hq|Hq]|Hm].
  - destruct (location_scores_raise intent_data (m :: matches)) as [e He];
      [now left|congruence].
  - now left.
  - right. apply List.Exists_exists in Hm as (match_ & Hin & [Hl|Hp]).
    + destruct (location_scores_raise intent_data (m :: matches))
        as [e He]; [|congruence].
      right. apply List.Exists_exists. eauto.
    + apply List.Exists_exists. eauto.
Qed.

(** X26.  There is one feature similarity per candidate, whatever happens, and
    each is the default 0.5 as soon as the query or one candidate has no
    parsed data. *)
Theorem feature_similarities_default intent_data matches :
  length (_compute_feature_similarities ext intent_data matches)
  = length matches /\
  (parsed_data intent_data = None
   \/ Exists (fun match_ => parsed_data match_ = None) matches ->
   _compute_feature_similarities ext intent_data matches
   = repeat 0.5 (length matches)).
Proof.
  unfold _compute_feature_similarities. split.
  - destruct (_extract_feature_vector intent_data) as [u|e];
      cbn [mbind pyresult_bind]; [|apply repeat_length].
    destruct (mapM _extract_feature_vector matches) as [vs|e] eqn:E;
      cbn [mbind pyresult_bind]; [|apply repeat_length].
    apply mapM_Ok, Forall2_length in E.
    destruct vs; [apply repeat_length|]. now rewrite length_map.
  - intros [Hq|Hm].
    + assert (_extract_feature_vector intent_data = Raise AttributeError)
        as -> by (unfold _extract_feature_vector; now rewrite Hq).
      reflexivity.
    + destruct (_extract_feature_vector intent_data) as [u|e];
        [|reflexivity].
      cbn [mbind pyresult_bind].
      destruct (mapM_Raise _extract_feature_vector matches) as [e ->];
        [|reflexivity].
      eapply List.Exists_impl; [|exact Hm].
      intros match_ H. unfold _extract_feature_vector. rewrite H. eauto.
Qed.

End MLFallback.

Section MLWitness.
Import MLMatchingService Sample.

(** Stand-ins whose square root is cut after two decimals. *)
Definition decimal_libraries (client : pyresult Client) : externals :=
  {| numpy_available := true;
     sqrt := fun x => inject_Z (Z.sqrt (Qfloor (x * 10000))) / 100;
     py_float := fun _ => None;
     haversine := fun _ _ _ _ => Some 0;
     text_similarity_row := fun texts => repeat 0.5 (length texts - 1);
     price_compatibility := fun _ _ => 0.5;
     temporal_compatibility :=
       fun _ _ matches => repeat 0.6 (length matches);
     get_supabase := client;
     le_at_tie := fun _ _ => true |}.

Definition sample_ml_entry : match_result :=
  {| r_intent_id := "i2"; r_user_name := "Asha";
     r_location_name := Some "Whitefield";
     r_raw_query := "Selling iPhone 13 in Whitefield";
     r_category := "product"; r_post_type := "supply";
     text_similarity := 0.500; feature_similarity := 1.000;
     location_score := 1.000; intent_compatibility := 0.500;
     temporal_compatibility_ := 0.600; combined_score := 0.735;
     confidence_score := 0.396; match_quality := "good";
     r_created_at := "2025-01-21T00:00:00Z" |}.

Lemma ml_ranked_answer_witness :
  find_advanced_matches (decimal_libraries (Ok (serving [supply_u2])))
    demand_u1 = Ok (Ranked [sample_ml_entry]) /\
  (length [sample_ml_entry] <= 12)%nat.
Proof.
  assert (find_advanced_matches (decimal_libraries (Ok (serving [supply_u2])))
            demand_u1 = Ok (Ranked [sample_ml_entry])) as H
    by (vm_compute; reflexivity).
  split; [exact H|].
  exact (proj1 (ml_ranked_answer _ _ _ H)).
Defined.

(** A candidate without a location name. *)
Definition supply_nowhere : intent :=
  row "i6" (Some "u5") "supply" "Selling iPhone 13" None (Some [1])
    (Some empty_parsed).

Lemma ml_falls_back_on_incomplete_row_witness :
  incomplete supply_nowhere /\
  find_advanced_matches
    (decimal_libraries (Ok (serving [supply_u2; supply_nowhere]))) demand_u1
  = Fallback
      <$> MatchingService.find_matches
            (decimal_libraries (Ok (serving [supply_u2; supply_nowhere])))
            demand_u1.
Proof.
  assert (incomplete supply_nowhere) as H by (left; reflexivity).
  split; [exact H|].
  apply (ml_falls_back_on_incomplete_row
           (decimal_libraries (Ok (serving [supply_u2; supply_nowhere])))
           demand_u1
           (serving [supply_u2; supply_nowhere])
           [supply_u2; supply_nowhere] eq_refl eq_refl).
  - discriminate.
  - right. apply Exists_cons_tl, Exists_cons_hd. exact H.
Defined.

Lemma diversity_filter_far_apart_witness :
  StronglySorted far_apart
    (_apply_diversity_filter (repeat sample_ml_entry 6)).
Proof. apply diversity_filter_far_apart. simpl. lia. Defined.

End MLWitness.

(** ** What the chain and the endpoint answer *)

Section ChainAnswer.
Import Intents.
Context (ext : externals).

(** X29.  As long as [get_supabase] answers the same on every call, the
    chain never hands out the list of its third link.  Whenever it
    returns, it returns the list of the advanced strategy, or, when the
    advanced strategy raised, what the ML-feature strategy returns.  The
    second case is real: with the client at hand, a parsed verb that is a
    list or an object makes the lookup in [INTENT_INVERSIONS] raise
    before the [try] of the advanced strategy, and the chain returns
    what the ML-feature strategy returns. *)
Theorem chain_answer_origin intent_data :
  (forall ms,
      find_matches_with_fallback ext intent_data = Ok ms ->
      (exists l,
          ms = FromAdvanced l /\
          AdvancedMatchingService.find_advanced_matches ext intent_data
          = Ok l) \/
      (exists e o,
          ms = FromML o /\
          AdvancedMatchingService.find_advanced_matches ext intent_data
          = Raise e /\
          MLMatchingService.find_advanced_matches ext intent_data = Ok o)) /\
  (forall supabase,
      get_supabase ext = Ok supabase ->
      unhashable_intent intent_data ->
      exists o,
        MLMatchingService.find_advanced_matches ext intent_data = Ok o /\
        find_matches_with_fallback ext intent_data = Ok (FromML o)).
Proof.
  split.
  - intros ms H.
    destruct (get_supabase ext) as [supabase|e] eqn:Hclient.
    + destruct (chain_with_client ext intent_data _ Hclient)
        as [(l & Hl & Hchain)|(e & o & He & Ho & Hchain)];
        rewrite Hchain in H; injection H as <-.
      * left. eauto.
      * right. exists e, o. auto.
    + rewrite fallback_order in H.
      destruct (strategies_raise_without_client ext intent_data e Hclient)
        as (Ha & Hm & Hb).
      rewrite Ha, Hm, Hb in H. discriminate.
  - intros supabase Hclient Hun.
    pose proof (find_advanced_matches_unhashable ext _ _ Hclient Hun) as Ha.
    destruct (chain_with_client ext intent_data _ Hclient)
      as [(l & Hl & _)|(e & o & _ & Ho & Hchain)]; [congruence|eauto].
Qed.

(** X30.  The endpoint fails only with the outcome of its own lookup: 404 when
    the intent is not found, the status of an HTTP exception raised by
    the lookup, 500 for any other exception of the lookup. *)
Theorem endpoint_error_statuses intent_id_ user_id_ e :
  matches_for_intent ext intent_id_ user_id_ = Raise e ->
  exists e',
    fetch_intent ext intent_id_ user_id_ = Raise e' /\
    e = match e' with
        | HTTPException status_code => HTTPException status_code
        | _ => HTTPException 500
        end.
Proof.
  intros H.
  destruct (fetch_intent ext intent_id_ user_id_) as [intent_data|e'] eqn:E.
  - destruct (fetch_intent_client ext _ _ _ E) as [supabase Hclient].
    destruct (chain_returns_with_client ext intent_data _ Hclient)
      as [ms Hms].
    unfold matches_for_intent in H. rewrite E in H.
    cbn [mbind pyresult_bind] in H. rewrite Hms in H. discriminate.
  - exists e'. split; [reflexivity|].
    unfold matches_for_intent in H. rewrite E in H.
    cbn [mbind pyresult_bind] in H. destruct e'; congruence.
Qed.

End ChainAnswer.

Section ChainAnswerWitness.
Import Intents Sample.

(** The demand [demand_u1] with a list for its parsed verb. *)
Definition demand_list_verb : intent :=
  row "i1" (Some "u1") "demand" "Looking for iPhone 13 in Whitefield"
    (Some "Whitefield") (Some [1])
    (Some {| attrs := {[ "intent" := VUnhashable true "['buy']" ]};
             pd_embedding := None; keywords := None; locations := None;
             prices := None; user_features := None;
             business_features := None |}).

Lemma chain_answer_origin_witness :
  unhashable_intent demand_list_verb /\
  exists o,
    MLMatchingService.find_advanced_matches
      (decimal_libraries (Ok (serving [supply_u2]))) demand_list_verb
    = Ok o /\
    find_matches_with_fallback
      (decimal_libraries (Ok (serving [supply_u2]))) demand_list_verb
    = Ok (FromML o).
Proof.
  assert (unhashable_intent demand_list_verb) as Hun
    by (exists true, "['buy']"; vm_compute; reflexivity).
  split; [exact Hun|].
  exact (proj2
    (chain_answer_origin (decimal_libraries (Ok (serving [supply_u2])))
       demand_list_verb)
    (serving [supply_u2]) eq_refl Hun).
Defined.

(** There the chain hands out the ranking of the ML-feature strategy. *)
Example chain_answers_with_ml_ranking :
  find_matches_with_fallback
    (decimal_libraries (Ok (serving [supply_u2]))) demand_list_verb
  = Ok (FromML (MLMatchingService.Ranked [sample_ml_entry])).
Proof. vm_compute. reflexivity. Qed.

(** For that demand the endpoint answers with the entry of the
    ML-feature strategy, which passes the validation. *)
Example endpoint_answers_with_ml_entry :
  length
    <$> get_matches_for_intent
          (decimal_libraries (Ok (store demand_list_verb [supply_u2])))
          "i1" "u1"
  = Ok 1%nat.
Proof. vm_compute. reflexivity. Qed.


(** A client that finds no intent. *)
Definition empty_store : Client :=
  {| execute := fun _ => Ok []; execute_single := fun _ => Ok None |}.

Lemma endpoint_error_statuses_witness :
  matches_for_intent (libraries true (Ok empty_store)) "i1" "u1"
  = Raise (HTTPException 404) /\
  exists e',
    fetch_intent (libraries true (Ok empty_store)) "i1" "u1" = Raise e' /\
    HTTPException 404
    = match e' with
      | HTTPException status_code => HTTPException status_code
      | _ => HTTPException 500
      end.
Proof.
  assert (matches_for_intent (libraries true (Ok empty_store)) "i1" "u1"
          = Raise (HTTPException 404)) as H by reflexivity.
  split; [exact H|].
  exact (endpoint_error_statuses _ _ _ _ H).
Defined.

End ChainAnswerWitness.

Section AdvancedOwnerWitness.
Import AdvancedMatchingService Sample.

Lemma advanced_excludes_owner_witness :
  Forall (fun r => r_user_id r <> user_id demand_u1) [sample_advanced_entry].
Proof.
  assert (find_advanced_matches
            (libraries true (Ok (serving [supply_u2; supply_u1]))) demand_u1
          = Ok [sample_advanced_entry]) as H
    by (vm_compute; reflexivity).
  exact (advanced_excludes_owner _ _ _ H).
Defined.

(** The scores of [supply_u2] for the query [demand_u1]. *)
Definition sample_scores : scores :=
  {| semantic_similarity := 1; location_proximity := 1.0;
     parameter_overlap := 30 # 30; price_tolerance := 0.5 |}.

Lemma advanced_returns_accepted_witness :
  find_advanced_matches
    (libraries true (Ok (serving [supply_u2; supply_u1]))) demand_u1
  = Ok [sample_advanced_entry] /\
  In (_format_match_result supply_u2 sample_scores
        (_calculate_composite_score sample_scores)) [sample_advanced_entry].
Proof.
  assert (find_advanced_matches
            (libraries true (Ok (serving [supply_u2; supply_u1]))) demand_u1
          = Ok [sample_advanced_entry]) as H
    by (vm_compute; reflexivity).
  split; [exact H|].
  apply (advanced_returns_accepted
           (libraries true (Ok (serving [supply_u2; supply_u1]))) demand_u1
           (serving [supply_u2; supply_u1]) [sample_advanced_entry]
           supply_u2 sample_scores).
  - reflexivity.
  - exact H.
  - left. reflexivity.
  - simpl. lia.
  - discriminate.
  - vm_compute. reflexivity.
  - vm_compute. reflexivity.
Defined.

End AdvancedOwnerWitness.

(** ** Profile clustering (ml_matching_service.py) *)

Module MLClustering.

(** The value under [location] of a profile: an object, of which the
    [city] is read, or anything else, of which the text [str(location)]
    is read. *)
Inductive location_value : Type :=
| LocationDict (city : option string)
| LocationOther (text : string).

(** A profile; [None] stands for a missing key. *)
Record profile : Type := {
  p_user_id : option string;
  p_business_id : option string;
  profile_type : option string;
  p_location : option location_value;
  feature_vector : option (list Q);
  primary_intent : option string;
  tech_savviness : option Q;
  price_sensitivity : option Q;
  p_category : option string;
  service_quality_score : option Q;
  price_competitiveness : option Q
}.

(** [p.get('user_id', p.get('business_id', ''))] *)
Definition profile_id (p : profile) : string :=
  default (default "" (p_business_id p)) (p_user_id p).

Definition major_cities : list string :=
  ["bangalore"; "mumbai"; "delhi"; "hyderabad"; "chennai"].

Definition intent_map : list (string * Q) :=
  [("purchase", 1.0); ("support", 0.8); ("inquiry", 0.6); ("service", 0.4);
   ("partnership", 0.2)].

Definition category_map : list (string * Q) :=
  [("retail", 1.0); ("fintech", 0.8); ("service", 0.6); ("technology", 0.4);
   ("healthcare", 0.2)].

(** [d.get(key, 0.5)] on one of the two tables *)
Definition table_get (table : list (string * Q)) (key : string) : Q :=
  match find (fun entry => String.eqb (fst entry) key) table with
  | Some entry => snd entry
  | None => 0.5
  end.

Definition _extract_clustering_features (p : profile) : list Q :=
  let is_user :=
    match profile_type p with
    | Some t => String.eqb t "user"
    | None => false
    end in
  let features := [if is_user then 1.0 else 0.0] in
  let city :=
    match p_location p with
    | None => ""
    | Some (LocationDict city) => Str.lower (default "" city)
    | Some (LocationOther text) => Str.lower text
    end in
  let features :=
    features
    ++ map (fun major_city =>
              if Str.contains major_city city then 1.0 else 0.0)
         major_cities in
  let features :=
    features
    ++ match feature_vector p with
       | Some v => firstn 5 v
       | None => repeat 0.5 5
       end in
  let features :=
    features
    ++ (if is_user then
          [table_get intent_map (default "inquiry" (primary_intent p));
           default 0.5 (tech_savviness p);
           default 0.5 (price_sensitivity p)]
        else
          [table_get category_map (default "service" (p_category p));
           default 0.5 (service_quality_score p);
           default 0.5 (price_competitiveness p)]) in
  let features := features ++ repeat 0.0 (15 - length features) in
  firstn 15 features.

(** The answer for a small input and after a failure: one cluster with
    every profile. *)
Definition single_cluster (profile_data : list profile)
  : gmap string (list string) :=
  {[ "cluster_0" := map profile_id profile_data ]}.

(** The loop over [enumerate(cluster_labels)]. *)
Fixpoint group_by_label (profile_ids : list string)
  (clusters : gmap string (list string)) (labelled : list (nat * Z))
  : pyresult (gmap string (list string)) :=
  match labelled with
  | [] => Ok clusters
  | (i, label) :: rest =>
      let cluster_key := "cluster_" +:+ py_str (VInt label) in
      match profile_ids !! i with
      | Some id =>
          group_by_label profile_ids
            (<[cluster_key := default [] (clusters !! cluster_key) ++ [id]]>
               clusters)
            rest
      | None => Raise IndexError
      end
  end.

(** [fit_predict features n_clusters] stands for the scikit-learn part:
    scaling, the principal components, and k-means with [n_clusters]
    clusters; it answers one label per row, or raises. *)
Definition cluster_profiles
  (fit_predict : list (list Q) -> nat -> pyresult (list Z))
  (profile_data : list profile) : gmap string (list string) :=
  match
    (if (length profile_data <? 10)%nat then Ok (single_cluster profile_data)
     else
       let features := map _extract_clustering_features profile_data in
       let profile_ids := map profile_id profile_data in
       let n_clusters := Nat.min 8 (length profile_data / 10) in
       cluster_labels ← fit_predict features n_clusters;
       group_by_label profile_ids ∅
         (imap (fun i label => (i, label)) cluster_labels))
  with
  | Ok clusters => clusters
  | Raise _ => single_cluster profile_data
  end.

End MLClustering.

Section Clustering.
Import MLClustering.

Lemma repeat_lookup {A} (x : A) n i :
  (i < n)%nat -> repeat x n !! i = Some x.
Proof.
  revert i. induction n as [|n IH]; intros [|i] H; simpl; try lia; auto.
  apply IH. lia.
Qed.

(** X27.  The clustering features of a profile are always 15 numbers: the
    profile type first, and a 0 last, since at most 14 are read off the
    profile. *)
Theorem clustering_features_layout p :
  length (_extract_clustering_features p) = 15%nat /\
  _extract_clustering_features p !! 0%nat
  = Some (if bool_decide (profile_type p = Some "user") then 1.0 else 0.0) /\
  _extract_clustering_features p !! 14%nat = Some 0.0.
Proof.
  unfold _extract_clustering_features. cbv zeta.
  set (is_user := match profile_type p with
                  | Some t => String.eqb t "user"
                  | None => false
                  end).
  set (block := match feature_vector p with
                | Some v => firstn 5 v
                | None => repeat 0.5 5
                end).
  set (own := if is_user then [_; _; _] else _).
  assert (length block <= 5)%nat as Hblock.
  { subst block. destruct (feature_vector p).
    - rewrite List.length_firstn. lia.
    - reflexivity. }
  assert (length own = 3%nat) as Hown by (subst own; now destruct is_user).
  assert (is_user = bool_decide (profile_type p = Some "user")) as Huser.
  { subst is_user. destruct (profile_type p) as [t|].
    - destruct (String.eqb t "user") eqn:E.
      + apply String.eqb_eq in E. subst t. now rewrite bool_decide_eq_true_2.
      + apply String.eqb_neq in E. rewrite bool_decide_eq_false_2; congruence.
    - now rewrite bool_decide_eq_false_2. }
  rewrite <- Huser.
  set (cities := map _ major_cities).
  assert (length cities = 5%nat) as Hcities by reflexivity.
  set (read := (([if is_user then 1.0 else 0.0] ++ cities) ++ block) ++ own).
  assert (length read = 9 + length block)%nat as Hread.
  { subst read. rewrite !length_app, Hcities, Hown. simpl. lia. }
  split; [|split].
  - rewrite List.length_firstn, length_app, repeat_length. lia.
  - reflexivity.
  - rewrite lookup_take by lia.
    rewrite lookup_app_r by lia.
    apply repeat_lookup. lia.
Qed.

Lemma group_by_label_keeps profile_ids labelled clusters clusters' :
  group_by_label profile_ids clusters labelled = Ok clusters' ->
  (forall key ids id,
      clusters !! key = Some ids -> In id ids ->
      exists ids', clusters' !! key = Some ids' /\ In id ids') /\
  (forall i label,
      In (i, label) labelled ->
      exists id key ids',
        profile_ids !! i = Some id /\
        clusters' !! key = Some ids' /\ In id ids').
Proof.
  revert clusters.
  induction labelled as [|[i label] rest IH]; intros clusters;
    cbn [group_by_label].
  - intros [= <-]. split; [eauto|]. intros i label [].
  - cbv zeta. set (cluster_key := "cluster_" +:+ py_str (VInt label)).
    destruct (profile_ids !! i) as [id|] eqn:Ei; [|discriminate].
    intros H. apply IH in H as [Hold Hnew].
    assert (exists ids',
               clusters' !! cluster_key = Some ids' /\ In id ids')
      as Hid.
    { eapply Hold; [apply lookup_insert_eq|].
      apply in_or_app. right. now left. }
    split.
    + intros key ids id' Hkey Hin.
      destruct (decide (key = cluster_key)) as [->|Hne].
      * eapply Hold; [apply lookup_insert_eq|].
        rewrite Hkey. simpl. apply in_or_app. now left.
      * eapply Hold; [|exact Hin]. now rewrite lookup_insert_ne.
    + intros j label' [[= <- <-]|Hin].
      * destruct Hid as (ids' & Hk & Hin). eauto 6.
      * eauto.
Qed.

(** X28.  Clustering loses no profile: provided the scikit-learn part answers
    at least one label per row, the id of every profile is in one of the
    clusters returned, for small and large inputs and after a failure
    alike. *)
Theorem cluster_profiles_keeps_every_profile fit_predict profile_data p :
  (forall features n_clusters labels,
      fit_predict features n_clusters = Ok labels ->
      (length features <= length labels)%nat) ->
  In p profile_data ->
  exists key ids,
    cluster_profiles fit_predict profile_data !! key = Some ids /\
    In (profile_id p) ids.
Proof.
  intros Hlabels Hp.
  assert (exists key ids,
             single_cluster profile_data !! key = Some ids /\
             In (profile_id p) ids) as Hsingle.
  { exists "cluster_0", (map profile_id profile_data).
    split; [apply lookup_singleton_eq|now apply in_map]. }
  unfold cluster_profiles.
  destruct (length profile_data <? 10)%nat; [exact Hsingle|].
  cbv zeta.
  destruct (fit_predict _ _) as [labels|e] eqn:Efit;
    cbn [mbind pyresult_bind]; [|exact Hsingle].
  apply Hlabels in Efit. rewrite length_map in Efit.
  destruct (group_by_label _ _ _) as [clusters|e] eqn:Eloop;
    [|exact Hsingle].
  apply group_by_label_keeps in Eloop as [_ Hnew].
  apply list_elem_of_In, list_elem_of_lookup in Hp as [i Hi].
  assert (i < length labels)%nat as Hlt.
  { apply lookup_lt_Some in Hi. lia. }
  apply lookup_lt_is_Some in Hlt as [label Hlabel].
  destruct (Hnew i label) as (id & key & ids' & Hid & Hkey & Hin).
  { apply list_elem_of_In, elem_of_lookup_imap. eauto. }
  rewrite list_lookup_fmap, Hi in Hid. injection Hid as <-.
  eauto.
Qed.

End Clustering.

Section ClusteringWitness.
Import MLClustering.

(** A user profile with nothing but an id. *)
Definition bare_profile (id : string) : profile :=
  {| p_user_id := Some id; p_business_id := None;
     profile_type := Some "user"; p_location := None;
     feature_vector := None; primary_intent := None;
     tech_savviness := None; price_sensitivity := None;
     p_category := None; service_quality_score := None;
     price_competitiveness := None |}.

(** A stand-in for the scikit-learn part that puts every row in the
    cluster 0. *)
Definition one_label (features : list (list Q)) (n_clusters : nat)
  : pyresult (list Z) :=
  Ok (map (fun _ => 0%Z) features).

Lemma cluster_profiles_keeps_every_profile_witness :
  exists key ids,
    cluster_profiles one_label
      (bare_profile "p0" :: repeat (bare_profile "p1") 10) !! key
    = Some ids /\
    In "p0" ids.
Proof.
  apply (cluster_profiles_keeps_every_profile one_label
           (bare_profile "p0" :: repeat (bare_profile "p1") 10)
           (bare_profile "p0")).
  - intros features n_clusters labels [= <-]. now rewrite length_map.
  - now left.
Defined.

End ClusteringWitness.

(** ** The fallback embedding (embedding_service.py) *)

Module EmbeddingFallback.

Section Libraries.
(** [_sanitize_text], a chain of regular-expression substitutions; the
    MD5 digest of the encoded text, as its bytes; and the successive
    draws of [random.uniform(-0.1, 0.1)]. *)
Context (_sanitize_text : string -> string)
  (md5 : string -> list Byte.byte) (uniform : nat -> Q).

(** The values read back from the hexadecimal digest, two digits at a
    time: each byte divided by 255. *)
Definition hash_values (clean_text : string) : list Q :=
  map (fun b => inject_Z (Z.of_N (Byte.to_N b)) / 255.0) (md5 clean_text).

(** The loop [while len(embedding) < 384: embedding.extend(...)]; it does
    not end on an empty list, hence the fuel. *)
Fixpoint extend_to_384 (fuel : nat) (embedding : list Q) : option (list Q) :=
  if (length embedding <? 384)%nat then
    match fuel with
    | O => None
    | S fuel =>
        extend_to_384 fuel
          (embedding
           ++ firstn (Nat.min (384 - length embedding) (length embedding))
                embedding)
    end
  else Some embedding.

Definition _generate_fallback_embedding (fuel : nat) (text : string)
  : option (list Q) :=
  let clean_text := _sanitize_text text in
  embedding ← extend_to_384 fuel (hash_values clean_text);
  let embedding := firstn 384 embedding in
  let word_count := length (Str.split clean_text) in
  let char_count := Str.len clean_text in
  let embedding :=
    if (0 <? length embedding)%nat
    then <[0%nat := inject_Z (Z.of_nat word_count) / 100.0]> embedding
    else embedding in
  let embedding :=
    if (1 <? length embedding)%nat
    then <[1%nat := inject_Z (Z.of_nat char_count) / 1000.0]> embedding
    else embedding in
  Some
    (fold_left
       (fun embedding i =>
          alter (fun x => x + uniform (i - 2)%nat) i embedding)
       (seq 2 (Nat.min 10 (length embedding) - 2)) embedding).

End Libraries.

End EmbeddingFallback.

Section FallbackEmbedding.
Import EmbeddingFallback.
Context (_sanitize_text : string -> string)
  (md5 : string -> list Byte.byte) (uniform : nat -> Q).

(** X18.  For a digest of 16 bytes the loop ends after five rounds, and the
    fallback embedding has 384 entries: the word count over 100, the
    character count over 1000, eight hash values each with one random
    draw added, and then nothing but hash values, the six that are left
    of the first run followed by 23 more runs of all sixteen. *)
Theorem fallback_embedding_shape fuel text :
  length (md5 (_sanitize_text text)) = 16%nat ->
  let clean_text := _sanitize_text text in
  let hash := hash_values md5 clean_text in
  let embedding :=
    [inject_Z (Z.of_nat (length (Str.split clean_text))) / 100.0;
     inject_Z (Z.of_nat (Str.len clean_text)) / 1000.0]
    ++ zip_with Qplus (firstn 8 (skipn 2 hash)) (map uniform (seq 0 8))
    ++ skipn 10 hash
    ++ concat (repeat hash 23) in
  _generate_fallback_embedding _sanitize_text md5 uniform (5 + fuel) text
  = Some embedding /\
  length embedding = 384%nat.
Proof.
  intros Hlen. cbv zeta. unfold _generate_fallback_embedding, hash_values.
  generalize (fun b => inject_Z (Z.of_N (Byte.to_N b)) / 255.0).
  intros value. revert Hlen.
  generalize (inject_Z (Z.of_nat (length (Str.split (_sanitize_text text))))
              / 100.0).
  generalize (inject_Z (Z.of_nat (Str.len (_sanitize_text text))) / 1000.0).
  generalize (md5 (_sanitize_text text)). intros digest chars words Hlen.
  do 17 (destruct digest as [|? digest]; try discriminate Hlen).
  split; [destruct fuel|]; vm_compute; reflexivity.
Qed.

End FallbackEmbedding.

Lemma fallback_embedding_shape_witness :
  exists embedding,
    EmbeddingFallback._generate_fallback_embedding (fun text => text)
      (fun _ => repeat Byte.x80 16) (fun _ => 0) 5 "need a plumber"
    = Some embedding /\
    length embedding = 384%nat.
Proof.
  eexists.
  exact (fallback_embedding_shape (fun text => text)
           (fun _ => repeat Byte.x80 16) (fun _ => 0) 0 "need a plumber"
           eq_refl).
Defined.

Lemma compute_similarity_fallback_mismatch_witness :
  EmbeddingService.compute_similarity
    (Sample.libraries false (Raise APIError)) [1] [1; 0]
  = Ok 0.
Proof.
  apply compute_similarity_fallback_mismatch; [reflexivity|discriminate].
Defined.
